(** * pytester: the diagnostic classification and repair engine

    A shallow embedding of the analysis and repair code of the backend
    ([ai_helper.py], [app.py], [analyzer.py]) together with the properties
    its specification states about it.

    Conventions of the embedding.
    - Python [str] is [string]; the characters are the ASCII repertoire, on
      which the character classes below are those of CPython ([str.isspace],
      [str.isupper], [str.lower] and the classes [\s], [\w], [\d] of [re]).
    - Python [int] is [Z]; [int(s)] and [str(n)] are the decimal conversions,
      without the interpreter's cap on the number of digits.
    - A Python [list] is a [list]; indexing follows Python: a negative index
      counts from the end and an index outside the list raises [IndexError].
    - Code that can raise lives in the [result] monad; a [for] loop is a fold
      over the list it iterates.
    - [ast.parse] and the linter are collaborators of the code: the outcome of
      the parser is a parameter, the linter's report is an input string.
    - The interpreter bounds the depth of calls.  A tree check is a function
      of the tree; where the code handles the exception of a check that does
      not return ([check_logical_issues]), whether the call raises
      [RecursionError] is a parameter. *)

From Stdlib Require Import ZArith String Ascii List DecimalString Lia Bool.
From Stdlib Require Import Floats.SpecFloat.
From stdpp Require Import base list strings gmap.
Import ListNotations.
Local Open Scope string_scope.
Local Open Scope list_scope.
Local Open Scope Z_scope.
Set Warnings "-register-all".

(* ===================================================================== *)
(** ** Python builtins used by the backend *)
(* ===================================================================== *)

Module Py.

(** Exceptions the modelled code can raise. *)
Inductive exn : Set :=
| IndexError
| TypeError.

Inductive result (A : Type) : Type :=
| Ok (a : A)
| Raise (e : exn).

Arguments Ok {A} a.
Arguments Raise {A} e.

Definition bind {A B : Type} (m : result A) (f : A -> result B) : result B :=
  match m with
  | Ok a => f a
  | Raise e => Raise e
  end.

(** [for x in xs: body], the body threading a state and possibly raising. *)
Fixpoint for_each {S X : Type} (body : S -> X -> result S) (xs : list X) (s : S)
  : result S :=
  match xs with
  | [] => Ok s
  | x :: xs' => bind (body s x) (for_each body xs')
  end.

(** *** Characters *)

Definition in_range (lo hi : N) (c : ascii) : bool :=
  ((lo <=? N_of_ascii c) && (N_of_ascii c <=? hi))%N.

Definition is_digit (c : ascii) : bool := in_range 48 57 c.   (* 0-9 *)
Definition is_upper (c : ascii) : bool := in_range 65 90 c.   (* A-Z *)
Definition is_lower (c : ascii) : bool := in_range 97 122 c.  (* a-z *)
Definition is_alpha (c : ascii) : bool := is_upper c || is_lower c.

(** [\w]: letters, digits and the underscore. *)
Definition is_word (c : ascii) : bool :=
  is_alpha c || is_digit c || Ascii.eqb c "_".

(** [str.isspace] and [\s]: tab, newline, VT, FF, CR, FS, GS, RS, US, space. *)
Definition is_space (c : ascii) : bool := in_range 9 13 c || in_range 28 32 c.

Definition lower_char (c : ascii) : ascii :=
  if is_upper c then ascii_of_N (N_of_ascii c + 32) else c.

Definition newline : ascii := "010".
Definition dquote : ascii := "034".
Definition squote : ascii := "039".

(** *** [str] methods *)

Definition is_empty (s : string) : bool :=
  match s with
  | EmptyString => true
  | String _ _ => false
  end.

(** [s.startswith(p)] *)
Fixpoint startswith (p s : string) : bool :=
  match p, s with
  | EmptyString, _ => true
  | String a p', String b s' => Ascii.eqb a b && startswith p' s'
  | String _ _, EmptyString => false
  end.

(** [s[n:]] for [0 <= n] *)
Fixpoint drop_str (n : nat) (s : string) : string :=
  match n, s with
  | O, _ => s
  | S n', String _ s' => drop_str n' s'
  | S _, EmptyString => EmptyString
  end.

(** [s[:n]] for [0 <= n] *)
Fixpoint take_str (n : nat) (s : string) : string :=
  match n, s with
  | O, _ => EmptyString
  | S n', String c s' => String c (take_str n' s')
  | S _, EmptyString => EmptyString
  end.

(** [needle in hay] *)
Fixpoint contains (needle hay : string) : bool :=
  startswith needle hay ||
  match hay with
  | EmptyString => false
  | String _ hay' => contains needle hay'
  end.

(** [s.endswith(p)] *)
Fixpoint endswith (p s : string) : bool :=
  String.eqb p s ||
  match s with
  | EmptyString => false
  | String _ s' => endswith p s'
  end.

(** [s.lstrip()] *)
Fixpoint lstrip (s : string) : string :=
  match s with
  | EmptyString => EmptyString
  | String c s' => if is_space c then lstrip s' else s
  end.

(** [s.lstrip(c)] for a one-character argument *)
Fixpoint lstrip_char (c : ascii) (s : string) : string :=
  match s with
  | EmptyString => EmptyString
  | String a s' => if Ascii.eqb a c then lstrip_char c s' else s
  end.

(** [s.rstrip()] *)
Fixpoint rstrip (s : string) : string :=
  match s with
  | EmptyString => EmptyString
  | String c s' =>
      let r := rstrip s' in
      if is_space c && is_empty r then EmptyString else String c r
  end.

(** [s.strip()] *)
Definition strip (s : string) : string := lstrip (rstrip s).

(** [s.lower()] *)
Fixpoint lower (s : string) : string :=
  match s with
  | EmptyString => EmptyString
  | String c s' => String (lower_char c) (lower s')
  end.

(** [c in s] for a character [c] *)
Fixpoint has_char (c : ascii) (s : string) : bool :=
  match s with
  | EmptyString => false
  | String a s' => Ascii.eqb a c || has_char c s'
  end.

(** [s.split(sep)] for a one-character separator: never the empty list. *)
Fixpoint split (sep : ascii) (s : string) : list string :=
  match s with
  | EmptyString => [EmptyString]
  | String c s' =>
      if Ascii.eqb c sep then EmptyString :: split sep s'
      else match split sep s' with
           | h :: t => String c h :: t
           | [] => [String c EmptyString]
           end
  end.

(** [sep.join(l)] *)
Fixpoint join (sep : string) (l : list string) : string :=
  match l with
  | [] => EmptyString
  | [x] => x
  | x :: t => x +:+ sep +:+ join sep t
  end.

(** [s.split()]: the maximal runs of non-blank characters.  The helper gives
    the word that starts at the head of [s] (empty when [s] starts with a
    blank) and the words after it. *)
Fixpoint split_ws_go (s : string) : string * list string :=
  match s with
  | EmptyString => (EmptyString, [])
  | String c s' =>
      let '(w, ws) := split_ws_go s' in
      if is_space c then (EmptyString, if is_empty w then ws else w :: ws)
      else (String c w, ws)
  end.

Definition split_ws (s : string) : list string :=
  let '(w, ws) := split_ws_go s in
  if is_empty w then ws else w :: ws.

(** [s.replace(old, new)] for a non-empty [old]: the occurrences are replaced
    from the left and do not overlap.  [skip] counts the characters of an
    occurrence just replaced that are still to be passed over. *)
Fixpoint replace_go (old new : string) (skip : nat) (s : string) : string :=
  match s with
  | EmptyString => EmptyString
  | String c s' =>
      match skip with
      | S k => replace_go old new k s'
      | O =>
          if startswith old s
          then new +:+ replace_go old new (Nat.pred (String.length old)) s'
          else String c (replace_go old new O s')
      end
  end.

Definition replace (old new s : string) : string := replace_go old new O s.

(** [int(s)] for a string of decimal digits *)
Definition digit_val (c : ascii) : Z := Z.of_N (N_of_ascii c) - 48.

Fixpoint int_go (acc : Z) (s : string) : Z :=
  match s with
  | EmptyString => acc
  | String c s' => int_go (10 * acc + digit_val c) s'
  end.

Definition int (s : string) : Z := int_go 0 s.

(** [str(n)] *)
Definition str (n : Z) : string := NilZero.string_of_int (Z.to_int n).

(** *** [list] operations *)

(** The position an index denotes in a list of length [n], if any. *)
Definition index (n : nat) (i : Z) : option nat :=
  if (0 <=? i) && (i <? Z.of_nat n) then Some (Z.to_nat i)
  else if (- Z.of_nat n <=? i) && (i <? 0) then Some (Z.to_nat (i + Z.of_nat n))
  else None.

(** [l[i]] *)
Definition getitem {A : Type} (l : list A) (i : Z) : result A :=
  match index (length l) i with
  | Some k =>
      match l !! k with
      | Some x => Ok x
      | None => Raise IndexError
      end
  | None => Raise IndexError
  end.

(** [l[i] = x] *)
Definition setitem {A : Type} (l : list A) (i : Z) (x : A) : result (list A) :=
  match index (length l) i with
  | Some k => Ok (<[k:=x]> l)
  | None => Raise IndexError
  end.

(** [l.insert(i, x)]: the index is clamped to the list, never an error. *)
Definition insert {A : Type} (l : list A) (i : Z) (x : A) : list A :=
  let n := Z.of_nat (length l) in
  let k := if i <? 0 then Z.max 0 (i + n) else Z.min i n in
  take (Z.to_nat k) l ++ x :: drop (Z.to_nat k) l.

End Py.

Notation "'do' x <- m ; k" := (Py.bind m (fun x => k))
  (at level 10, x name, m at level 100, k at level 200, only parsing).
Notation "'do' ' p <- m ; k" := (Py.bind m (fun p => k))
  (at level 10, p pattern, m at level 100, k at level 200, only parsing).

(* ===================================================================== *)
(** ** The fragment of [re] the backend uses *)
(* ===================================================================== *)

(** Every pattern of the backend is built from literal text, character
    classes, greedy repetition of a class, alternation, one capturing group
    and the word boundary.  Matching is the backtracking search of [re]: the
    leftmost start wins, alternatives are tried in order, and a repetition
    takes as much as it can before giving characters back. *)

Module Re.

Inductive regex : Type :=
| Lit (s : string)                 (* literal text *)
| Cls (p : ascii -> bool)          (* one character of a class *)
| Star (p : ascii -> bool)         (* [c*] for a class [c] *)
| Alt (r1 r2 : regex)              (* [r1|r2] *)
| Seq (r1 r2 : regex)              (* [r1 r2] *)
| Grp (r : regex)                  (* [(r)], group 1 *)
| WordB.                           (* [\b] *)

(** [c+] *)
Definition Plus (p : ascii -> bool) : regex := Seq (Cls p) (Star p).

(** A match: the text after it and the text of group 1, if it took part. *)
Record match_obj : Type := { rest : string; group1 : option string }.

(** A continuation receives the character before the current position, the
    remaining text and group 1. *)
Definition cont : Type := option ascii -> string -> option string -> option match_obj.

Definition is_word_opt (c : option ascii) : bool :=
  match c with
  | Some a => Py.is_word a
  | None => false
  end.

Definition head (s : string) : option ascii :=
  match s with
  | EmptyString => None
  | String c _ => Some c
  end.

(** The last character passed once [l] has been read after [prev]. *)
Fixpoint last_of (prev : option ascii) (l : string) : option ascii :=
  match l with
  | EmptyString => prev
  | String c l' => last_of (Some c) l'
  end.

Fixpoint star_match (p : ascii -> bool) (prev : option ascii) (s : string)
    (g : option string) (k : cont) : option match_obj :=
  match s with
  | EmptyString => k prev s g
  | String c s' =>
      if p c then
        match star_match p (Some c) s' g k with
        | Some m => Some m
        | None => k prev s g
        end
      else k prev s g
  end.

Fixpoint rmatch (r : regex) (prev : option ascii) (s : string)
    (g : option string) (k : cont) : option match_obj :=
  match r with
  | Lit l =>
      if Py.startswith l s
      then k (last_of prev l) (Py.drop_str (String.length l) s) g
      else None
  | Cls p =>
      match s with
      | String c s' => if p c then k (Some c) s' g else None
      | EmptyString => None
      end
  | Star p => star_match p prev s g k
  | Alt r1 r2 =>
      match rmatch r1 prev s g k with
      | Some m => Some m
      | None => rmatch r2 prev s g k
      end
  | Seq r1 r2 => rmatch r1 prev s g (fun prev' s' g' => rmatch r2 prev' s' g' k)
  | Grp r' =>
      rmatch r' prev s g (fun prev' s' _ =>
        k prev' s' (Some (Py.take_str (String.length s - String.length s') s)))
  | WordB =>
      if xorb (is_word_opt prev) (is_word_opt (head s)) then k prev s g else None
  end.

Definition accept : cont := fun _ s g => Some {| rest := s; group1 := g |}.

(** [re.search(r, s)]: the first position from the left where [r] matches. *)
Fixpoint search_from (r : regex) (prev : option ascii) (s : string)
  : option match_obj :=
  match rmatch r prev s None accept with
  | Some m => Some m
  | None =>
      match s with
      | EmptyString => None
      | String c s' => search_from r (Some c) s'
      end
  end.

Definition search (r : regex) (s : string) : option match_obj :=
  search_from r None s.

(** [m.group(1)] of a search, for a pattern whose group always takes part. *)
Definition search_group (r : regex) (s : string) : option string :=
  match search r s with
  | Some m => group1 m
  | None => None
  end.

(** The truth value of [re.search(r, s)]. *)
Definition found (r : regex) (s : string) : bool :=
  match search r s with
  | Some _ => true
  | None => false
  end.

(** Classes written in the patterns. *)
Definition any : ascii -> bool := fun c => negb (Ascii.eqb c Py.newline). (* [.] *)
Definition non_space : ascii -> bool := fun c => negb (Py.is_space c).    (* [\S] *)
Definition one_of (cs : string) : ascii -> bool :=
  fun c => Py.contains (String c EmptyString) cs.
Definition none_of (cs : string) : ascii -> bool := fun c => negb (one_of cs c).

End Re.

(** Pattern combinators: a sequence and an ordered choice. *)
Definition cat (rs : list Re.regex) : Re.regex :=
  fold_right Re.Seq (Re.Lit "") rs.

Fixpoint alt (rs : list Re.regex) : Re.regex :=
  match rs with
  | [] => Re.Cls (fun _ => false)
  | [r] => r
  | r :: rs' => Re.Alt r (alt rs')
  end.

Definition dq : string := String Py.dquote "".

(* ===================================================================== *)
(** ** ai_helper.py: the repair engine *)
(* ===================================================================== *)

Module AiHelper.

(** The dictionary built from a [SyntaxError]: [e.lineno], [e.offset], both
    possibly [None], and [str(e)]. *)
Module SyntaxErr.
Record t : Type := { line : option Z; column : option Z; message : string }.
End SyntaxErr.

(** An entry of [error_matches]. *)
Module ErrorMatch.
Record t : Type := { code : string; line_num : Z; message : string }.
End ErrorMatch.

(** An entry of [improvements]. *)
Record Improvement : Type := { issue : string; solution : string }.

(** The dictionary [get_improvement_suggestions] returns. *)
Record Suggestions : Type := {
  improved_code : string;
  explanation : string;
  improvements : list Improvement;
  learning_tip : string
}.

(** An entry of [ERROR_PATTERNS]: the key as text and as a pattern, and the
    dictionary stored under it. *)
Record PatternInfo : Type := {
  pattern : string;
  pattern_re : Re.regex;
  pattern_explanation : string;
  typical_fixes : list string
}.

Definition ERROR_PATTERNS : list PatternInfo := [
  {| pattern := "SyntaxError: invalid syntax";
     pattern_re := Re.Lit "SyntaxError: invalid syntax";
     pattern_explanation := "Your code has a syntax error, which means Python cannot understand the structure.";
     typical_fixes := [
       "Check for missing colons after if/for/while statements";
       "Make sure all parentheses, brackets, and braces are properly closed";
       "Verify indentation is consistent" ] |};
  {| pattern := "SyntaxError: expected ':'";
     pattern_re := Re.Lit "SyntaxError: expected ':'";
     pattern_explanation := "You're missing a colon at the end of a line with a control statement.";
     typical_fixes := [
       "Add a colon at the end of if, elif, else, for, while, def, or class statements" ] |};
  {| pattern := "IndentationError: expected an indented block";
     pattern_re := Re.Lit "IndentationError: expected an indented block";
     pattern_explanation := "After a line ending with a colon, the next line must be indented.";
     typical_fixes := [
       "Add 4 spaces or a tab before the line that should be indented" ] |};
  {| pattern := "IndentationError: unexpected indent";
     pattern_re := Re.Lit "IndentationError: unexpected indent";
     pattern_explanation := "A line is indented when it shouldn't be.";
     typical_fixes := [
       "Remove extra spaces at the beginning of the line";
       "Make sure all lines at the same level have the same indentation" ] |};
  {| pattern := "NameError: name .* is not defined";
     pattern_re := cat [Re.Lit "NameError: name "; Re.Star Re.any; Re.Lit " is not defined"];
     pattern_explanation := "You're using a variable that hasn't been defined yet.";
     typical_fixes := [
       "Check for typos in variable names";
       "Make sure to assign a value to the variable before using it";
       "Verify the variable is defined in the current scope" ] |};
  {| pattern := "TypeError: .* takes \d+ positional arguments but \d+ were given";
     pattern_re := cat [Re.Lit "TypeError: "; Re.Star Re.any; Re.Lit " takes ";
                        Re.Plus Py.is_digit; Re.Lit " positional arguments but ";
                        Re.Plus Py.is_digit; Re.Lit " were given"];
     pattern_explanation := "You're calling a function with the wrong number of arguments.";
     typical_fixes := [
       "Check the function definition to see how many arguments it needs";
       "Verify that you're calling the function with the correct number of arguments" ] |};
  {| pattern := "ImportError: No module named .*";
     pattern_re := cat [Re.Lit "ImportError: No module named "; Re.Star Re.any];
     pattern_explanation := "Python can't find the module you're trying to import.";
     typical_fixes := [
       "Make sure the module name is spelled correctly";
       "Install the module using pip: pip install module_name";
       "Check that the module file is in the correct directory" ] |};
  {| pattern := "ZeroDivisionError: division by zero";
     pattern_re := Re.Lit "ZeroDivisionError: division by zero";
     pattern_explanation := "You're trying to divide a number by zero, which is not allowed in mathematics.";
     typical_fixes := [
       "Add a condition to check if the denominator is zero before performing division";
       "Provide an alternative value when division by zero would occur" ] |};
  {| pattern := "IndexError: list index out of range";
     pattern_re := Re.Lit "IndexError: list index out of range";
     pattern_explanation := "You're trying to access an element at an index that doesn't exist in the list.";
     typical_fixes := [
       "Make sure the index is within the valid range (0 to len(list)-1)";
       "Check the length of the list before accessing elements";
       "Use a condition to verify the index exists before accessing it" ] |};
  {| pattern := "KeyError: .*";
     pattern_re := cat [Re.Lit "KeyError: "; Re.Star Re.any];
     pattern_explanation := "You're trying to access a dictionary key that doesn't exist.";
     typical_fixes := [
       "Use dict.get(key) which returns None instead of raising an error";
       "Check if the key exists with " +:+ dq +:+ "if key in dict:" +:+ dq +:+ " before accessing it";
       "Make sure the key name is spelled correctly" ] |};
  {| pattern := "AttributeError: .* has no attribute .*";
     pattern_re := cat [Re.Lit "AttributeError: "; Re.Star Re.any;
                        Re.Lit " has no attribute "; Re.Star Re.any];
     pattern_explanation := "You're trying to access an attribute or method that doesn't exist for this object.";
     typical_fixes := [
       "Check the spelling of the attribute name";
       "Make sure you're using the correct object type";
       "Verify that the attribute exists for the object you're using" ] |};
  {| pattern := "E0602: Undefined variable";
     pattern_re := Re.Lit "E0602: Undefined variable";
     pattern_explanation := "Pylint detected you're using a variable that hasn't been defined.";
     typical_fixes := [
       "Define the variable before using it";
       "Check for typos in the variable name";
       "Make sure the variable is accessible in the current scope" ] |};
  {| pattern := "W0611: Unused import";
     pattern_re := Re.Lit "W0611: Unused import";
     pattern_explanation := "You've imported a module that isn't used in your code.";
     typical_fixes := [
       "Remove the unused import to keep your code clean";
       "If you need the import, make sure you're using it somewhere in your code" ] |};
  {| pattern := "C0103: Invalid name";
     pattern_re := Re.Lit "C0103: Invalid name";
     pattern_explanation := "The variable or function name doesn't follow Python naming conventions.";
     typical_fixes := [
       "Use snake_case for variables and functions (lowercase with underscores)";
       "Use CamelCase for class names";
       "Use UPPERCASE for constants" ] |};
  {| pattern := "C0111: Missing docstring";
     pattern_re := Re.Lit "C0111: Missing docstring";
     pattern_explanation := "Your function, class, or module is missing a documentation string.";
     typical_fixes := [
       "Add a descriptive docstring enclosed in triple quotes at the beginning of your function, class, or module" ] |};
  {| pattern := "W0612: Unused variable";
     pattern_re := Re.Lit "W0612: Unused variable";
     pattern_explanation := "You've defined a variable that isn't used anywhere in your code.";
     typical_fixes := [
       "Remove the unused variable";
       "If you need the variable, make sure you're using it somewhere in your code" ] |}
].

(** *** Patterns searched by the engine *)

(** [([EWRFC]\d{4})] *)
Definition pylint_code_re : Re.regex :=
  Re.Grp (cat [Re.Cls (Re.one_of "EWRFC"); Re.Cls Py.is_digit; Re.Cls Py.is_digit;
               Re.Cls Py.is_digit; Re.Cls Py.is_digit]).

(** [line (\d+)] *)
Definition line_re : Re.regex := cat [Re.Lit "line "; Re.Grp (Re.Plus Py.is_digit)].

(** [(if|elif|else|for|while|def|class)\b.*\S] *)
Definition colon_statement_re : Re.regex :=
  cat [Re.Grp (alt [Re.Lit "if"; Re.Lit "elif"; Re.Lit "else"; Re.Lit "for";
                    Re.Lit "while"; Re.Lit "def"; Re.Lit "class"]);
       Re.WordB; Re.Star Re.any; Re.Cls Re.non_space].

(** [Undefined variable '(\w+)'] *)
Definition undefined_variable_re : Re.regex :=
  cat [Re.Lit "Undefined variable '"; Re.Grp (Re.Plus Py.is_word); Re.Lit "'"].

(** [Unused import (\w+)] *)
Definition unused_import_re : Re.regex :=
  cat [Re.Lit "Unused import "; Re.Grp (Re.Plus Py.is_word)].

(** [Invalid name Q(\w+)Q], where Q stands for the double quote *)
Definition invalid_name_re : Re.regex :=
  cat [Re.Lit ("Invalid name " +:+ dq); Re.Grp (Re.Plus Py.is_word); Re.Lit dq].

(** [Unused variable '(\w+)'] *)
Definition unused_variable_re : Re.regex :=
  cat [Re.Lit "Unused variable '"; Re.Grp (Re.Plus Py.is_word); Re.Lit "'"].

(** [\b<var_name>\s*=]; [re.escape] leaves a name made of word characters as
    it is. *)
Definition assignment_re (var_name : string) : Re.regex :=
  cat [Re.WordB; Re.Lit var_name; Re.Star Py.is_space; Re.Lit "="].

(** [def \w+\([^)]*\):\s*] followed by a single or a double quote *)
Definition docstring_re : Re.regex :=
  cat [Re.Lit "def "; Re.Plus Py.is_word; Re.Lit "("; Re.Star (Re.none_of ")");
       Re.Lit "):"; Re.Star Py.is_space; Re.Cls (Re.one_of ("'" +:+ dq))].

(** [except:] and [except [A-Za-z]+:] *)
Definition bare_except_re : Re.regex := Re.Lit "except:".
Definition typed_except_re : Re.regex :=
  cat [Re.Lit "except "; Re.Plus Py.is_alpha; Re.Lit ":"].

(** [re.sub(r'([A-Z])', r'_\1', s)]: an underscore before every capital. *)
Fixpoint underscore_capitals (s : string) : string :=
  match s with
  | EmptyString => EmptyString
  | String c s' =>
      if Py.is_upper c then String "_" (String c (underscore_capitals s'))
      else String c (underscore_capitals s')
  end.

(** *** fix_syntax_errors *)

(** The state of a repair loop: [lines] and [improvements]. *)
Definition repair_state : Type := list string * list Improvement.

(** The body of [for error in errors] in [fix_syntax_errors]. *)
Definition fix_syntax_error (st : repair_state) (error : SyntaxErr.t)
  : Py.result repair_state :=
  let '(lines, improvements) := st in
  match SyntaxErr.line error with
  | None => Py.Raise Py.TypeError                     (* [None - 1] *)
  | Some line =>
      let line_num := line - 1 in
      let message := SyntaxErr.message error in
      if line_num >=? Z.of_nat (length lines) then Py.Ok st
      else
        do current_line <- Py.getitem lines line_num;
        if Py.contains "expected ':'" message then
          if negb (Py.endswith ":" (Py.rstrip current_line)) then
            if Re.found colon_statement_re current_line then
              do lines' <- Py.setitem lines line_num (Py.rstrip current_line +:+ ":");
              Py.Ok (lines', improvements ++ [
                {| issue := "Missing colon at line " +:+ Py.str line;
                   solution := "Added missing colon after statement" |}])
            else Py.Ok st
          else Py.Ok st
        else if Py.contains "unmatched" message || Py.contains "unclosed" message then
          if Py.contains "(" current_line && negb (Py.contains ")" current_line) then
            do lines' <- Py.setitem lines line_num (current_line +:+ ")");
            Py.Ok (lines', improvements ++ [
              {| issue := "Unbalanced parentheses at line " +:+ Py.str line;
                 solution := "Added closing parenthesis" |}])
          else if Py.contains "[" current_line && negb (Py.contains "]" current_line) then
            do lines' <- Py.setitem lines line_num (current_line +:+ "]");
            Py.Ok (lines', improvements ++ [
              {| issue := "Unbalanced brackets at line " +:+ Py.str line;
                 solution := "Added closing bracket" |}])
          else if Py.contains "{" current_line && negb (Py.contains "}" current_line) then
            do lines' <- Py.setitem lines line_num (current_line +:+ "}");
            Py.Ok (lines', improvements ++ [
              {| issue := "Unbalanced braces at line " +:+ Py.str line;
                 solution := "Added closing brace" |}])
          else Py.Ok st
        else if Py.contains "unexpected indent" message then
          do lines' <- Py.setitem lines line_num (Py.lstrip current_line);
          Py.Ok (lines', improvements ++ [
            {| issue := "Incorrect indentation at line " +:+ Py.str line;
               solution := "Removed extra indentation" |}])
        else if Py.contains "expected an indented block" message then
          do lines' <- Py.setitem lines line_num ("    " +:+ current_line);
          Py.Ok (lines', improvements ++ [
            {| issue := "Missing indentation at line " +:+ Py.str line;
               solution := "Added required indentation" |}])
        else Py.Ok st
  end.

Definition nl : string := String Py.newline "".

Definition fix_syntax_errors (code : string) (errors : list SyntaxErr.t)
  : Py.result (string * list Improvement) :=
  let lines := Py.split Py.newline code in
  let improvements := [] in
  do '(lines, improvements) <- Py.for_each fix_syntax_error errors (lines, improvements);
  Py.Ok (Py.join nl lines, improvements).

(** *** fix_pylint_errors *)

(** The body of [for error in errors] in [fix_pylint_errors]. *)
Definition fix_pylint_error (st : repair_state) (error : ErrorMatch.t)
  : Py.result repair_state :=
  let '(lines, improvements) := st in
  let error_code := ErrorMatch.code error in
  let line_num := ErrorMatch.line_num error - 1 in
  if (line_num >=? Z.of_nat (length lines)) || (line_num <? 0) then Py.Ok st
  else
    do current_line <- Py.getitem lines line_num;
    if String.eqb error_code "E0602" then
      match Re.search_group undefined_variable_re (ErrorMatch.message error) with
      | Some var_name =>
          let lines :=
            Py.insert lines line_num
              (var_name +:+ " = None  # TODO: Initialize with a proper value") in
          (* [line_num += 1]: the variable is not read again in this iteration
             and the next iteration assigns it afresh *)
          let line_num := line_num + 1 in
          Py.Ok (lines, improvements ++ [
            {| issue := "Undefined variable '" +:+ var_name +:+ "'";
               solution := "Added a placeholder initialization. Replace 'None' with an appropriate value." |}])
      | None => Py.Ok st
      end
    else if String.eqb error_code "W0611" then
      match Re.search_group unused_import_re (ErrorMatch.message error) with
      | Some import_name =>
          if Py.contains ("import " +:+ import_name) current_line then
            do lines' <- Py.setitem lines line_num
                           ("# " +:+ current_line +:+ "  # Unused import");
            Py.Ok (lines', improvements ++ [
              {| issue := "Unused import '" +:+ import_name +:+ "'";
                 solution := "Commented out the unused import. Remove it if not needed." |}])
          else Py.Ok st
      | None => Py.Ok st
      end
    else if String.eqb error_code "C0103" then
      match Re.search_group invalid_name_re (ErrorMatch.message error) with
      | Some invalid_name =>
          do first <- Py.getitem (list_ascii_of_string invalid_name) 0;
          let suggestion :=
            if Py.is_upper first then invalid_name
            else Py.lstrip_char "_" (Py.lower (underscore_capitals invalid_name)) in
          if negb (String.eqb suggestion invalid_name) then
            do lines' <- Py.setitem lines line_num
                           (Py.replace invalid_name suggestion current_line);
            Py.Ok (lines', improvements ++ [
              {| issue := "Invalid name '" +:+ invalid_name +:+ "'";
                 solution := "Renamed to '" +:+ suggestion +:+ "' following Python naming conventions" |}])
          else Py.Ok st
      | None => Py.Ok st
      end
    else if String.eqb error_code "W0612" then
      match Re.search_group unused_variable_re (ErrorMatch.message error) with
      | Some var_name =>
          if Re.found (assignment_re var_name) current_line then
            do lines' <- Py.setitem lines line_num
                           ("# " +:+ current_line +:+ "  # Unused variable");
            Py.Ok (lines', improvements ++ [
              {| issue := "Unused variable '" +:+ var_name +:+ "'";
                 solution := "Commented out the unused variable. Remove it if not needed." |}])
          else Py.Ok st
      | None => Py.Ok st
      end
    else Py.Ok st.

Definition fix_pylint_errors (code : string) (errors : list ErrorMatch.t)
  : Py.result (string * list Improvement) :=
  let lines := Py.split Py.newline code in
  let improvements := [] in
  do '(lines, improvements) <- Py.for_each fix_pylint_error errors (lines, improvements);
  Py.Ok (Py.join nl lines, improvements).

(** *** get_improvement_suggestions *)

(** The body of [for line in analysis_output.split(newline)]: the entries the
    line adds to [error_matches]. *)
Definition match_error_line (line : string) : list ErrorMatch.t :=
  let pylint_match := Re.search_group pylint_code_re line in
  let line_match := Re.search_group line_re line in
  match pylint_match with
  | Some error_code =>
      let line_num := match line_match with
                      | Some digits => Py.int digits
                      | None => 0
                      end in
      [ {| ErrorMatch.code := error_code;
           ErrorMatch.line_num := line_num;
           ErrorMatch.message := line |} ]
  | None =>
      if existsb (fun pattern => Py.contains pattern line)
           ["SyntaxError"; "IndentationError"; "NameError"; "TypeError"]
      then match line_match with
           | Some digits =>
               [ {| ErrorMatch.code := "E9999";
                    ErrorMatch.line_num := Py.int digits;
                    ErrorMatch.message := line |} ]
           | None => []
           end
      else []
  end.

Definition extract_error_matches (analysis_output : string) : list ErrorMatch.t :=
  flat_map match_error_line (Py.split Py.newline analysis_output).

(** The body of [for pattern, info in ERROR_PATTERNS.items()]. *)
Definition match_error_pattern (analysis_output : string)
    (improvements : list Improvement) (entry : PatternInfo)
  : Py.result (list Improvement) :=
  if Re.found (pattern_re entry) analysis_output then
    do name <- Py.getitem (Py.split ":" (pattern entry)) 0;
    do first_fix <- Py.getitem (typical_fixes entry) 0;
    Py.Ok (improvements ++ [
      {| issue := "Potential issue: " +:+ name;
         solution := pattern_explanation entry +:+ " " +:+ first_fix |}])
  else Py.Ok improvements.

Definition is_nil {A : Type} (l : list A) : bool :=
  match l with
  | [] => true
  | _ :: _ => false
  end.

(** [x or y] on strings and on lists *)
Definition or_str (x y : string) : string := if Py.is_empty x then y else x.
Definition or_list {A : Type} (x y : list A) : list A := if is_nil x then y else x.

Definition syntax_explanation : string :=
  "Your code has syntax errors that need to be fixed before it can run.".
Definition syntax_tip : string :=
  "Always check for syntax errors first. Python won't run your code until all syntax errors are fixed.".
Definition pylint_explanation : string :=
  "Your code has some style and potential logical issues that should be addressed.".
Definition pylint_tip : string :=
  "Following Python style guidelines makes your code more readable and less prone to errors.".
Definition analysis_explanation : string :=
  "The analysis found some issues in your code. Review the error messages for details.".
Definition analysis_tip : string :=
  "Read error messages carefully - they often tell you exactly what's wrong and where to look.".
Definition practices_explanation : string :=
  "Your code has no major issues, but here are some best practices to consider.".
Definition practices_tip : string :=
  "Even working code can be improved for readability, maintainability, and efficiency.".
Definition default_explanation : string :=
  "I've analyzed your code and made some improvements.".
Definition default_tip : string :=
  "Always test your code thoroughly, even when it looks correct.".
Definition no_issues : Improvement :=
  {| issue := "No specific issues found"; solution := "Your code looks good!" |}.
Definition missing_docstrings : Improvement :=
  {| issue := "Missing docstrings";
     solution := "Add descriptive docstrings to your functions to explain what they do" |}.
Definition bare_except : Improvement :=
  {| issue := "Bare except clause";
     solution := "Specify the exceptions you want to catch instead of catching all exceptions" |}.

(** The four variables the branches assign: [improved_code], [improvements],
    [explanation], [learning_tip]. *)
Definition vars : Type := string * list Improvement * string * string.

(** [if syntax_errors: ... elif error_matches: ...] *)
Definition repair_branch (code : string) (syntax_errors : list SyntaxErr.t)
    (error_matches : list ErrorMatch.t) (v : vars) : Py.result vars :=
  let '(improved_code, improvements, explanation, learning_tip) := v in
  if negb (is_nil syntax_errors) then
    do '(improved_code, new_improvements) <- fix_syntax_errors code syntax_errors;
    Py.Ok (improved_code, improvements ++ new_improvements,
           syntax_explanation, syntax_tip)
  else if negb (is_nil error_matches) then
    do '(improved_code, new_improvements) <- fix_pylint_errors code error_matches;
    Py.Ok (improved_code, improvements ++ new_improvements,
           pylint_explanation, pylint_tip)
  else Py.Ok v.

(** [if not improvements and (error_count > 0 or warning_count > 0): ...] *)
Definition pattern_branch (analysis_output : string) (error_count warning_count : Z)
    (v : vars) : Py.result vars :=
  let '(improved_code, improvements, explanation, learning_tip) := v in
  if is_nil improvements && ((error_count >? 0) || (warning_count >? 0)) then
    do improvements <-
      Py.for_each (match_error_pattern analysis_output) ERROR_PATTERNS improvements;
    Py.Ok (improved_code, improvements, analysis_explanation, analysis_tip)
  else Py.Ok v.

(** [if not improvements: ...] *)
Definition practices_branch (code : string) (v : vars) : vars :=
  let '(improved_code, improvements, explanation, learning_tip) := v in
  if is_nil improvements then
    let improvements :=
      if Py.contains "def" code && negb (Re.found docstring_re code)
      then improvements ++ [missing_docstrings] else improvements in
    let improvements :=
      if Re.found bare_except_re code && negb (Re.found typed_except_re code)
      then improvements ++ [bare_except] else improvements in
    (improved_code, improvements, practices_explanation, practices_tip)
  else v.

Section Engine.

(** [ast.parse(code)]: [None] when the code parses, the attributes of the
    [SyntaxError] otherwise. *)
Variable ast_parse : string -> option SyntaxErr.t.

(** The function up to its [return]: the values of [improved_code],
    [improvements], [explanation] and [learning_tip] the branches leave. *)
Definition run_branches (code analysis_output : string)
    (error_count warning_count : Z) : Py.result vars :=
  let syntax_errors := match ast_parse code with
                       | Some e => [e]
                       | None => []
                       end in
  let error_matches := extract_error_matches analysis_output in
  do v <- repair_branch code syntax_errors error_matches (code, [], "", "");
  do v <- pattern_branch analysis_output error_count warning_count v;
  Py.Ok (practices_branch code v).

Definition get_improvement_suggestions (code analysis_output : string)
    (error_count warning_count : Z) : Py.result Suggestions :=
  do '(improved_code, improvements, explanation, learning_tip) <-
    run_branches code analysis_output error_count warning_count;
  Py.Ok {| improved_code := improved_code;
           explanation := or_str explanation default_explanation;
           improvements := or_list improvements [no_issues];
           learning_tip := or_str learning_tip default_tip |}.

End Engine.

End AiHelper.

(* ===================================================================== *)
(** ** The report dictionary of the analysers *)
(* ===================================================================== *)

(** The dictionary with the keys [error_count], [warning_count],
    [error_types] and [output] that both analysers build. *)
Record Report : Type := {
  error_count : Z;
  warning_count : Z;
  error_types : gmap string Z;
  output : string
}.

(** [d[k] = d.get(k, 0) + 1] *)
Definition bump (k : string) (d : gmap string Z) : gmap string Z :=
  <[k := default 0 (d !! k) + 1]> d.

(* ===================================================================== *)
(** ** app.py: the linter report and the tree detectors *)
(* ===================================================================== *)

Module App.

(** *** run_pylint_analysis *)

(** The local variables of the counting loop: [error_count],
    [warning_count], [error_types]. *)
Definition tally : Type := Z * Z * gmap string Z.

(** The body of [for line in pylint_output.split(newline)]. *)
Definition count_line (t : tally) (line : string) : Py.result tally :=
  let '(error_count, warning_count, error_types) := t in
  if Py.contains ":" line then
    match Re.search_group AiHelper.pylint_code_re line with
    | Some code =>
        do category <- Py.getitem (list_ascii_of_string code) 0;
        let '(error_count, warning_count, category_name) :=
          if Ascii.eqb category "E" || Ascii.eqb category "F"
          then (error_count + 1, warning_count, "error")
          else if Ascii.eqb category "W"
          then (error_count, warning_count + 1, "warning")
          else (error_count, warning_count + 1, "style") in
        Py.Ok (error_count, warning_count, bump category_name error_types)
    | None => Py.Ok t
    end
  else Py.Ok t.

(** [run_pylint_analysis], from the text the linter printed.  The [except]
    clause turns a failure of the loop into a report of one system error; the
    only exception the loop has is the [IndexError] of [code[0]]. *)
Definition run_pylint_analysis (pylint_output : string) : Report :=
  match Py.for_each count_line (Py.split Py.newline pylint_output) (0, 0, ∅) with
  | Py.Ok (error_count, warning_count, error_types) =>
      {| error_count := error_count;
         warning_count := warning_count;
         error_types := error_types;
         output := pylint_output |}
  | Py.Raise _ =>
      {| error_count := 1;
         warning_count := 0;
         error_types := {[ "system" := 1 ]};
         output := "Error running pylint: string index out of range" |}
  end.

(** *** The syntax tree *)

Inductive operator : Set :=
| Add | Sub | Mult | MatMult | Div | Mod | Pow
| LShift | RShift | BitOr | BitXor | BitAnd | FloorDiv.

(** The value of an [ast.Constant]. *)
Inductive constant : Set :=
| CNone
| CBool (b : bool)
| CInt (n : Z)
| CFloat (x : spec_float)
| CComplex (re im : spec_float)
| CStr (s : string)
| CBytes (s : string)
| CEllipsis.

(** The nodes the detectors tell apart, and [Node] for every other class
    with its child nodes in field order.  [FunctionDef] has the fields of the
    [ast] module up to Python 3.11, text fields other than the name left
    out. *)
Inductive node : Type :=
| BinOp (left : node) (op : operator) (right : node)
| Constant (value : constant)
| Return (value : option node)
| FunctionDef (name : string) (args : node) (body : list node)
    (decorator_list : list node) (returns : option node)
| AugAssign (target : node) (op : operator) (value : node)
| Node (class : string) (children : list node).

(** [value == 0] *)
Definition float_is_zero (x : spec_float) : bool :=
  match x with
  | S754_zero _ => true
  | _ => false
  end.

Definition eq_zero (value : constant) : bool :=
  match value with
  | CInt n => n =? 0
  | CBool b => negb b
  | CFloat x => float_is_zero x
  | CComplex re im => float_is_zero re && float_is_zero im
  | CNone | CStr _ | CBytes _ | CEllipsis => false
  end.

(** [isinstance(op, (ast.Div, ast.FloorDiv, ast.Mod))] *)
Definition is_division (op : operator) : bool :=
  match op with
  | Div | FloorDiv | Mod => true
  | _ => false
  end.

(** [isinstance(n, ast.Constant) and n.value == 0] *)
Definition is_constant_zero (n : node) : bool :=
  match n with
  | Constant value => eq_zero value
  | _ => false
  end.

Definition is_return (n : node) : bool :=
  match n with
  | Return _ => true
  | _ => false
  end.

(** *** check_division_by_zero *)

(** [DivisionVisitor.visit]: the argument [flag] is [has_risky_division]
    before the visit and the result is its value after.  [visit_BinOp] tests
    the node and then, as [generic_visit] does for every other class, visits
    the child nodes in order. *)
Fixpoint division_visit (flag : bool) (n : node) : bool :=
  let visit_all :=
    fix visit_all (flag : bool) (ns : list node) : bool :=
      match ns with
      | [] => flag
      | n' :: ns' => visit_all (division_visit flag n') ns'
      end in
  let visit_opt (flag : bool) (o : option node) : bool :=
    match o with
    | Some n' => division_visit flag n'
    | None => flag
    end in
  match n with
  | BinOp lhs op rhs =>
      let flag := if is_division op && is_constant_zero rhs then true else flag in
      division_visit (division_visit flag lhs) rhs
  | Constant _ => flag
  | Return value => visit_opt flag value
  | FunctionDef _ args body decorator_list returns =>
      visit_opt (visit_all (visit_all (division_visit flag args) body) decorator_list)
        returns
  | AugAssign target _ value => division_visit (division_visit flag target) value
  | Node _ children => visit_all flag children
  end.

Definition check_division_by_zero (tree : node) : bool := division_visit false tree.

(** *** check_unreachable_code *)

(** The loop [for i, stmt in enumerate(node.body)] from index [i] on, [len]
    being [len(node.body)]: whether it sets [has_unreachable]. *)
Fixpoint scan_body (len : Z) (i : Z) (has_return : bool) (stmts : list node) : bool :=
  match stmts with
  | [] => false
  | stmt :: stmts' =>
      if is_return stmt then scan_body len (i + 1) true stmts'
      else if has_return && (i <? len - 1) then true
      else scan_body len (i + 1) has_return stmts'
  end.

Definition body_has_unreachable (body : list node) : bool :=
  scan_body (Z.of_nat (length body)) 0 false body.

(** [UnreachableVisitor.visit], the flag being [has_unreachable]. *)
Fixpoint unreachable_visit (flag : bool) (n : node) : bool :=
  let visit_all :=
    fix visit_all (flag : bool) (ns : list node) : bool :=
      match ns with
      | [] => flag
      | n' :: ns' => visit_all (unreachable_visit flag n') ns'
      end in
  let visit_opt (flag : bool) (o : option node) : bool :=
    match o with
    | Some n' => unreachable_visit flag n'
    | None => flag
    end in
  match n with
  | BinOp lhs _ rhs => unreachable_visit (unreachable_visit flag lhs) rhs
  | Constant _ => flag
  | Return value => visit_opt flag value
  | FunctionDef _ args body decorator_list returns =>
      let flag := if body_has_unreachable body then true else flag in
      visit_opt (visit_all (visit_all (unreachable_visit flag args) body) decorator_list)
        returns
  | AugAssign target _ value => unreachable_visit (unreachable_visit flag target) value
  | Node _ children => visit_all flag children
  end.

Definition check_unreachable_code (tree : node) : bool := unreachable_visit false tree.

End App.

(* ===================================================================== *)
(** ** analyzer.py: the analyser behind the service *)
(* ===================================================================== *)

Module Analyzer.

(** The body of [for line in pylint_output.stdout.split(newline)], on the
    report dictionary. *)
Definition parse_line (result : Report) (line : string) : Py.result Report :=
  if Py.contains ":" line then
    let parts := Py.split ":" line in
    if Z.of_nat (length parts) >=? 3 then
      do field <- Py.getitem parts 2;
      do error_type <- Py.getitem (Py.split_ws (Py.strip field)) 0;
      let result :=
        if Py.startswith "E" error_type then
          {| error_count := error_count result + 1;
             warning_count := warning_count result;
             error_types := bump error_type (error_types result);
             output := output result |}
        else if Py.startswith "W" error_type then
          {| error_count := error_count result;
             warning_count := warning_count result + 1;
             error_types := bump error_type (error_types result);
             output := output result |}
        else result in
      Py.Ok {| error_count := error_count result;
               warning_count := warning_count result;
               error_types := error_types result;
               output := output result +:+ line +:+ AiHelper.nl |}
    else Py.Ok result
  else Py.Ok result.

(** What [ast.parse] raised: [e.lineno], [e.offset] and [e.msg]. *)
Record SyntaxFailure : Type := {
  lineno : option Z;
  offset : option Z;
  msg : string
}.

(** [x or d] for an optional integer: [None] and [0] give [d]. *)
Definition or_int (x : option Z) (d : Z) : Z :=
  match x with
  | Some n => if n =? 0 then d else n
  | None => d
  end.

(** [analyze_python_code]: [parsed] is the outcome of [ast.parse(code)] and
    [stdout] is what the linter printed for the code.  The [finally] clause
    only removes the temporary file, so an exception of the loop leaves the
    function. *)
Definition analyze_python_code (parsed : option SyntaxFailure) (stdout : string)
  : Py.result Report :=
  let result :=
    {| error_count := 0; warning_count := 0; error_types := ∅; output := "" |} in
  match parsed with
  | Some e =>
      let line_num := or_int (lineno e) 1 in
      let col_num := or_int (offset e) 0 in
      let error_msg :=
        "Line " +:+ Py.str line_num +:+ ", Col " +:+ Py.str col_num +:+
        ": SyntaxError: " +:+ msg e in
      Py.Ok {| error_count := 1;
               warning_count := warning_count result;
               error_types := <["syntax" := 1]> (error_types result);
               output := output result +:+ error_msg +:+ AiHelper.nl |}
  | None => Py.for_each parse_line (Py.split Py.newline stdout) result
  end.

End Analyzer.

(* ===================================================================== *)
(** ** Notions used to state the properties *)
(* ===================================================================== *)

(** A syntax diagnostic whose line number is a positive integer, as the
    parser reports it for a line of the source. *)
Definition positive_line (e : AiHelper.SyntaxErr.t) : Prop :=
  exists n, AiHelper.SyntaxErr.line e = Some n /\ 1 <= n.

(** The capital letters and, at the same positions, their small letters. *)
Definition capitals : string := "ABCDEFGHIJKLMNOPQRSTUVWXYZ".
Definition small_letters : string := "abcdefghijklmnopqrstuvwxyz".

(** The character of [to] at the position [c] has in [from]. *)
Fixpoint letter_at (c : ascii) (from to : string) : option ascii :=
  match from, to with
  | String a from', String b to' =>
      if Ascii.eqb c a then Some b else letter_at c from' to'
  | _, _ => None
  end.

Definition is_capital (c : ascii) : bool :=
  match letter_at c capitals small_letters with
  | Some _ => true
  | None => false
  end.

(** The small letter of a capital; any other character is kept. *)
Definition small_letter (c : ascii) : ascii :=
  match letter_at c capitals small_letters with
  | Some small => small
  | None => c
  end.

Fixpoint lower_case (s : string) : string :=
  match s with
  | EmptyString => EmptyString
  | String c s' => String (small_letter c) (lower_case s')
  end.

(** The number of underscores a text starts with, and the text after
    them. *)
Fixpoint leading_underscores (s : string) : nat :=
  match s with
  | String c s' => if Ascii.eqb c "_" then S (leading_underscores s') else O
  | EmptyString => O
  end.

Definition without_leading_underscores (s : string) : string :=
  String.substring (leading_underscores s)
    (String.length s - leading_underscores s) s.

(** The remedy for an invalid name in the words of the specification: an
    underscore before each internal capital letter (a capital that is not the
    first character), the whole in lower case, leading underscores
    stripped.  [i] is the position of the head of [s] in the name.  None of
    these notions is built from the functions of the code. *)
Fixpoint underscore_internal_capitals (i : nat) (s : string) : string :=
  match s with
  | EmptyString => EmptyString
  | String c s' =>
      if (0 <? i)%nat && is_capital c
      then String "_" (String c (underscore_internal_capitals (S i) s'))
      else String c (underscore_internal_capitals (S i) s')
  end.

Definition snake_case_remedy (name : string) : string :=
  without_leading_underscores (lower_case (underscore_internal_capitals 0 name)).

(** The name starts with a capital letter. *)
Definition starts_uppercase (name : string) : bool :=
  match name with
  | EmptyString => false
  | String c _ => is_capital c
  end.

(** [replaces_each old new s t]: [t] is [s] with every occurrence of [old]
    replaced by [new], the occurrences being taken from the left and not
    overlapping. *)
Inductive replaces_each (old new : string) : string -> string -> Prop :=
| replaces_end : replaces_each old new "" ""
| replaces_here rest t :
    replaces_each old new rest t ->
    replaces_each old new (old +:+ rest) (new +:+ t)
| replaces_next c s t :
    (forall rest, String c s <> old +:+ rest) ->
    replaces_each old new s t ->
    replaces_each old new (String c s) (String c t).

(** [c] is a child node of [n]. *)
Inductive child : App.node -> App.node -> Prop :=
| child_BinOp_left l op r : child l (App.BinOp l op r)
| child_BinOp_right l op r : child r (App.BinOp l op r)
| child_Return v : child v (App.Return (Some v))
| child_FunctionDef_args name args body decs ret :
    child args (App.FunctionDef name args body decs ret)
| child_FunctionDef_body c name args body decs ret :
    In c body -> child c (App.FunctionDef name args body decs ret)
| child_FunctionDef_decorator c name args body decs ret :
    In c decs -> child c (App.FunctionDef name args body decs ret)
| child_FunctionDef_returns name args body decs ret :
    child ret (App.FunctionDef name args body decs (Some ret))
| child_AugAssign_target t op v : child t (App.AugAssign t op v)
| child_AugAssign_value t op v : child v (App.AugAssign t op v)
| child_Node c class children : In c children -> child c (App.Node class children).

(** [m] is [tree] or a node below it. *)
Inductive occurs_in (m : App.node) : App.node -> Prop :=
| occurs_here : occurs_in m m
| occurs_below c n : child c n -> occurs_in m c -> occurs_in m n.

(** A literal constant equal to zero, by cases on the literal: the integer
    0, a float zero and a complex zero of either sign, and [False], which
    the equality of Python identifies with 0. *)
Inductive zero_literal : App.constant -> Prop :=
| zero_int : zero_literal (App.CInt 0)
| zero_float sign : zero_literal (App.CFloat (S754_zero sign))
| zero_complex sign_re sign_im :
    zero_literal (App.CComplex (S754_zero sign_re) (S754_zero sign_im))
| zero_bool : zero_literal (App.CBool false).

(** Division, floor division and modulo. *)
Definition division_operator (op : App.operator) : Prop :=
  op = App.Div \/ op = App.FloorDiv \/ op = App.Mod.

(** A division written as a binary operation, [a / 0], and one written as an
    augmented assignment, [a /= 0], the right-hand operand being a literal
    constant equal to zero. *)
Definition binary_zero_division (n : App.node) : Prop :=
  exists l op value,
    n = App.BinOp l op (App.Constant value) /\
    division_operator op /\ zero_literal value.

Definition augmented_zero_division (n : App.node) : Prop :=
  exists target op value,
    n = App.AugAssign target op (App.Constant value) /\
    division_operator op /\ zero_literal value.

(** A division, floor division or modulo operation whose right-hand operand
    is a literal constant equal to zero, in either form. *)
Definition zero_division (n : App.node) : Prop :=
  binary_zero_division n \/ augmented_zero_division n.

(** A function definition whose body the unreachable-code loop flags. *)
Definition flagged_function (n : App.node) : Prop :=
  exists name args body decs ret,
    n = App.FunctionDef name args body decs ret /\
    App.body_has_unreachable body = true.

(** The visit of a list of child nodes and of an optional child node by a
    visitor that threads its flag. *)
Definition visit_list (visit : bool -> App.node -> bool) (flag : bool)
    (ns : list App.node) : bool :=
  fold_left visit ns flag.

Definition visit_option (visit : bool -> App.node -> bool) (flag : bool)
    (o : option App.node) : bool :=
  match o with
  | Some n => visit flag n
  | None => flag
  end.

(** What each visitor tests at a node. *)
Definition division_test (n : App.node) : bool :=
  match n with
  | App.BinOp _ op rhs => App.is_division op && App.is_constant_zero rhs
  | _ => false
  end.

Definition unreachable_test (n : App.node) : bool :=
  match n with
  | App.FunctionDef _ _ body _ _ => App.body_has_unreachable body
  | _ => false
  end.

(* ===================================================================== *)
(** ** app.py: the analysis the checks are composed into *)
(* ===================================================================== *)

Module AppAnalyze.

Import App.

(** The outcome of [ast.parse(code)]: the tree, or what the [SyntaxError]
    carries.  [analyze_python_code] and [check_logical_issues] parse the same
    text, so they see the same outcome. *)
Inductive parse_outcome : Type :=
| Parsed (tree : node)
| Failed (e : Analyzer.SyntaxFailure).

Section MutableDefaults.

(** [args.defaults] of an [arguments] node: the default expressions of the
    positional parameters.  The tree keeps them among the children of that
    node, so the field is read through this accessor. *)
Variable defaults : node -> list node.

(** [isinstance(arg, (ast.List, ast.Dict, ast.Set))] *)
Definition is_mutable_literal (n : node) : bool :=
  match n with
  | Node class _ =>
      String.eqb class "List" || String.eqb class "Dict" || String.eqb class "Set"
  | _ => false
  end.

(** [MutableDefaultVisitor.visit], the flag being [has_mutable_default]. *)
Fixpoint mutable_default_visit (flag : bool) (n : node) : bool :=
  let visit_all :=
    fix visit_all (flag : bool) (ns : list node) : bool :=
      match ns with
      | [] => flag
      | n' :: ns' => visit_all (mutable_default_visit flag n') ns'
      end in
  let visit_opt (flag : bool) (o : option node) : bool :=
    match o with
    | Some n' => mutable_default_visit flag n'
    | None => flag
    end in
  match n with
  | BinOp lhs _ rhs => mutable_default_visit (mutable_default_visit flag lhs) rhs
  | Constant _ => flag
  | Return value => visit_opt flag value
  | FunctionDef _ args body decorator_list returns =>
      let flag := if existsb is_mutable_literal (defaults args) then true else flag in
      visit_opt
        (visit_all (visit_all (mutable_default_visit flag args) body) decorator_list)
        returns
  | AugAssign target _ value =>
      mutable_default_visit (mutable_default_visit flag target) value
  | Node _ children => visit_all flag children
  end.

Definition check_mutable_default_args (tree : node) : bool :=
  mutable_default_visit false tree.

(** The three checks, in the order [check_logical_issues] calls them. *)
Inductive check : Set := DivisionCheck | UnreachableCheck | MutableCheck.

(** A visitor calls itself once per level of the tree and the interpreter
    bounds the depth of the calls: on a tree that is too deep for it, the
    call of a check raises [RecursionError] instead of returning.
    [too_deep c tree] tells whether the call of the check [c] on [tree]
    does. *)
Variable too_deep : check -> node -> bool.

(** The call of a check inside the [try] block: what it returns, or [None]
    when it raises. *)
Definition run_check (c : check) (tree : node) : option bool :=
  if too_deep c tree then None
  else Some match c with
            | DivisionCheck => check_division_by_zero tree
            | UnreachableCheck => check_unreachable_code tree
            | MutableCheck => check_mutable_default_args tree
            end.

(** The body of each [if] of [check_logical_issues]: the message is
    appended, one warning is counted and [error_types['logic']] goes up. *)
Definition add_issue (fired : bool) (message : string)
    (st : list string * Report) : list string * Report :=
  let '(issues, result) := st in
  if fired then
    (issues ++ [message],
     {| error_count := error_count result;
        warning_count := warning_count result + 1;
        error_types := bump "logic" (error_types result);
        output := output result |})
  else st.

Definition division_message : string :=
  "Potential division by zero detected. Always check if divisor is zero before division.".
Definition unreachable_message : string :=
  "Unreachable code detected. Code after return/break/continue statements will never execute.".
Definition mutable_message : string :=
  "Mutable default argument detected. Using mutable objects as default arguments can lead to unexpected behavior.".

Definition empty_report : Report :=
  {| error_count := 0; warning_count := 0; error_types := ∅; output := "" |}.

(** The [try] block of [check_logical_issues] after the parse, on the
    variables [issues] and [result].  When a call raises, the clause
    [except Exception: pass] ends the block: what the earlier checks have
    recorded stays, and the later checks do not run. *)
Definition try_checks (tree : node) (st : list string * Report)
  : list string * Report :=
  match run_check DivisionCheck tree with
  | None => st
  | Some division_by_zero =>
      let st := add_issue division_by_zero division_message st in
      match run_check UnreachableCheck tree with
      | None => st
      | Some unreachable =>
          let st := add_issue unreachable unreachable_message st in
          match run_check MutableCheck tree with
          | None => st
          | Some mutable_defaults => add_issue mutable_defaults mutable_message st
          end
      end
  end.

(** [check_logical_issues]: when the text does not parse the [except] clause
    passes and no check runs. *)
Definition check_logical_issues (parsed : parse_outcome) : Report :=
  let '(issues, result) :=
    match parsed with
    | Parsed tree => try_checks tree ([], empty_report)
    | Failed _ => ([], empty_report)
    end in
  if AiHelper.is_nil issues then result
  else
    {| error_count := error_count result;
       warning_count := warning_count result;
       error_types := error_types result;
       output := "Additional logical checks:" +:+ AiHelper.nl +:+
                 Py.join AiHelper.nl (map (fun issue => "- " +:+ issue) issues) |}.

(** [for error_type, count in logical_issues['error_types'].items(): ...] *)
Definition merge_error_types (into from : gmap string Z) : gmap string Z :=
  map_fold (fun error_type count acc =>
              <[error_type := default 0 (acc !! error_type) + count]> acc)
    into from.

(** [analyze_python_code] of app.py: [pylint_output] is what the linter
    printed for the code. *)
Definition analyze_python_code (parsed : parse_outcome) (pylint_output : string)
  : Report :=
  match parsed with
  | Failed e =>
      let line_num := Analyzer.or_int (Analyzer.lineno e) 1 in
      let col_num := Analyzer.or_int (Analyzer.offset e) 0 in
      let error_msg :=
        "Line " +:+ Py.str line_num +:+ ", Col " +:+ Py.str col_num +:+
        ": SyntaxError: " +:+ Analyzer.msg e in
      {| error_count := 1;
         warning_count := 0;
         error_types := <["syntax" := 1]> ∅;
         output := "" +:+ error_msg +:+ AiHelper.nl |}
  | Parsed _ =>
      let pylint_result := run_pylint_analysis pylint_output in
      let logical_issues := check_logical_issues parsed in
      if Py.is_empty (output logical_issues) then pylint_result
      else
        {| error_count := error_count pylint_result + error_count logical_issues;
           warning_count := warning_count pylint_result + warning_count logical_issues;
           error_types :=
             merge_error_types (error_types pylint_result) (error_types logical_issues);
           output := output pylint_result +:+ AiHelper.nl +:+ output logical_issues |}
  end.

End MutableDefaults.

End AppAnalyze.

(* ===================================================================== *)
(** ** Further notions used to state properties of the code *)
(* ===================================================================== *)

(** Every character of [s] is in the class [p]. *)
Fixpoint all_chars (p : ascii -> bool) (s : string) : bool :=
  match s with
  | EmptyString => true
  | String c s' => p c && all_chars p s'
  end.

(** A line of the buffer: text without a newline. *)
Definition one_line (s : string) : Prop := Py.has_char Py.newline s = false.

(** The record the lint pass appends for an inserted placeholder. *)
Definition is_placeholder_record (r : AiHelper.Improvement) : bool :=
  Py.startswith "Undefined variable '" (AiHelper.issue r).

(** The shape of a linter code: one of the letters E, W, R, F, C and four
    digits. *)
Definition is_pylint_code (s : string) : bool :=
  match s with
  | String c (String d1 (String d2 (String d3 (String d4 EmptyString)))) =>
      Re.one_of "EWRFC" c && Py.is_digit d1 && Py.is_digit d2 && Py.is_digit d3
      && Py.is_digit d4
  | _ => false
  end.

(** A report line on which the loop of analyzer.py raises: at least three
    colon-delimited fields, the third one blank. *)
Definition blank_third_field (line : string) : bool :=
  Py.contains ":" line &&
  match Py.split ":" line with
  | _ :: _ :: field :: _ => AiHelper.is_nil (Py.split_ws (Py.strip field))
  | _ => false
  end.

(** A report line analyzer.py copies to its output: at least three
    colon-delimited fields. *)
Definition has_three_fields (line : string) : bool :=
  Py.contains ":" line && (3 <=? length (Py.split ":" line))%nat.

(** What a check that returned [b] adds to the count of warnings. *)
Definition fired (b : bool) : Z := if b then 1 else 0.

(** The number of placeholder records in a list of repairs. *)
Definition placeholders (imps : list AiHelper.Improvement) : nat :=
  length (List.filter is_placeholder_record imps).

(** No capital letter. *)
Definition not_upper (c : ascii) : bool := negb (Py.is_upper c).

(* ===================================================================== *)
(** ** Facts about the builtins *)
(* ===================================================================== *)

Section PyFacts.

Import Py.

Lemma index_in_range (n k : nat) : (k < n)%nat -> index n (Z.of_nat k) = Some k.
Proof.
  intros Hk. unfold index.
  destruct (Z.leb_spec 0 (Z.of_nat k)); [| lia].
  destruct (Z.ltb_spec (Z.of_nat k) (Z.of_nat n)); [| lia].
  simpl. now rewrite Nat2Z.id.
Qed.

Lemma getitem_in_range {A : Type} (l : list A) (k : nat) (x : A) :
  l !! k = Some x -> getitem l (Z.of_nat k) = Ok x.
Proof.
  intros Hx. unfold getitem.
  rewrite index_in_range by (eapply lookup_lt_Some; eassumption).
  now rewrite Hx.
Qed.

Lemma setitem_in_range {A : Type} (l : list A) (k : nat) (x : A) :
  (k < length l)%nat -> setitem l (Z.of_nat k) x = Ok (<[k:=x]> l).
Proof.
  intros Hk. unfold setitem. now rewrite index_in_range.
Qed.

Lemma insert_in_range {A : Type} (l : list A) (k : nat) (x : A) :
  (k <= length l)%nat -> insert l (Z.of_nat k) x = take k l ++ x :: drop k l.
Proof.
  intros Hk. unfold insert.
  destruct (Z.ltb_spec (Z.of_nat k) 0); [lia |].
  rewrite Z.min_l by lia. now rewrite Nat2Z.id.
Qed.

(** A position inside the list is a natural number. *)
Lemma in_range_nat (i : Z) (n : nat) :
  (i >=? Z.of_nat n) || (i <? 0) = false ->
  exists k : nat, i = Z.of_nat k /\ (k < n)%nat.
Proof.
  intros H. apply orb_false_iff in H as [H1 H2].
  rewrite Z.geb_leb in H1. apply Z.leb_gt in H1. apply Z.ltb_ge in H2.
  exists (Z.to_nat i). split; lia.
Qed.

(** [split] and [join] *)

Lemma split_nonempty (sep : ascii) (s : string) : split sep s <> [].
Proof.
  induction s as [| c s IH]; simpl; [discriminate |].
  destruct (Ascii.eqb c sep); [discriminate |].
  destruct (split sep s); discriminate.
Qed.

Lemma split_length_pos (sep : ascii) (s : string) : (0 < length (split sep s))%nat.
Proof.
  pose proof (split_nonempty sep s). destruct (split sep s); simpl; [congruence | lia].
Qed.

Lemma split_no_sep (sep : ascii) (s : string) :
  Forall (fun l => has_char sep l = false) (split sep s).
Proof.
  induction s as [| c s IH]; simpl.
  - repeat constructor.
  - destruct (Ascii.eqb c sep) eqn:E.
    + constructor; [reflexivity | exact IH].
    + destruct (split sep s) as [| h t]; inversion IH; subst;
        constructor; simpl; rewrite ?E; auto.
Qed.

Lemma split_app_no_sep (sep : ascii) (x rest : string) :
  has_char sep x = false ->
  split sep (x +:+ String sep rest) = x :: split sep rest.
Proof.
  induction x as [| c x IH]; simpl; intros H.
  - now rewrite Ascii.eqb_refl.
  - apply orb_false_iff in H as [Hc Hx].
    rewrite Hc, (IH Hx). reflexivity.
Qed.

Lemma split_single (sep : ascii) (x : string) :
  has_char sep x = false -> split sep x = [x].
Proof.
  induction x as [| c x IH]; simpl; intros H; [reflexivity |].
  apply orb_false_iff in H as [Hc Hx].
  now rewrite Hc, (IH Hx).
Qed.

(** Splitting what was joined gives the lines back. *)
Lemma split_join (sep : ascii) (l : list string) :
  l <> [] -> Forall (fun x => has_char sep x = false) l ->
  split sep (join (String sep "") l) = l.
Proof.
  induction l as [| x l IH]; [congruence |].
  intros _ Hall. inversion Hall as [| ? ? Hx Hl]; subst.
  destruct l as [| y l].
  - simpl. now apply split_single.
  - change (join (String sep "") (x :: y :: l))
      with (x +:+ String sep "" +:+ join (String sep "") (y :: l)).
    change (String sep "" +:+ join (String sep "") (y :: l))
      with (String sep (join (String sep "") (y :: l))).
    rewrite split_app_no_sep by assumption.
    rewrite IH; [reflexivity | discriminate | assumption].
Qed.

(** Joining what was split gives the text back. *)
Lemma join_split (sep : ascii) (s : string) :
  join (String sep "") (split sep s) = s.
Proof.
  induction s as [| c s IH]; [reflexivity |].
  simpl. destruct (Ascii.eqb_spec c sep) as [-> | Hne].
  - pose proof (split_nonempty sep s) as Hn.
    destruct (split sep s) as [| h t]; [congruence |].
    change (join (String sep "") ("" :: h :: t))
      with (String sep (join (String sep "") (h :: t))).
    now rewrite IH.
  - pose proof (split_nonempty sep s) as Hn.
    destruct (split sep s) as [| h t]; [congruence |].
    destruct t as [| h' t]; simpl in *; now rewrite <- IH.
Qed.

End PyFacts.

(* ===================================================================== *)
(** ** Facts about the patterns *)
(* ===================================================================== *)

Section ReFacts.

Import Py Re.

Lemma star_match_cont p prev s g k m :
  star_match p prev s g k = Some m ->
  exists prev' s', k prev' s' g = Some m /\ (String.length s' <= String.length s)%nat.
Proof.
  revert prev. induction s as [| c s IH]; intros prev H; simpl in H.
  - exists prev, EmptyString. split; [exact H | reflexivity].
  - destruct (p c).
    + destruct (star_match p (Some c) s g k) as [m' |] eqn:E.
      * inversion H; subst m'.
        destruct (IH _ E) as (prev' & s' & Hk & Hlen).
        exists prev', s'. split; [exact Hk | simpl; lia].
      * exists prev, (String c s). split; [exact H | reflexivity].
    + exists prev, (String c s). split; [exact H | reflexivity].
Qed.

Lemma take_str_nonempty (n : nat) (c : ascii) (s : string) :
  (0 < n)%nat -> take_str n (String c s) <> EmptyString.
Proof. destruct n; [lia | discriminate]. Qed.

(** A search finds what a match at some position finds. *)
Lemma search_from_inv (P : match_obj -> Prop) r :
  (forall prev s m, rmatch r prev s None accept = Some m -> P m) ->
  forall s prev m, search_from r prev s = Some m -> P m.
Proof.
  intros Hm. induction s as [| c s IH]; intros prev m H; simpl in H.
  - destruct (rmatch r prev EmptyString None accept) eqn:E; [| discriminate].
    inversion H; subst. eapply Hm, E.
  - destruct (rmatch r prev (String c s) None accept) eqn:E.
    + inversion H; subst. eapply Hm, E.
    + eapply IH, H.
Qed.

(** The group of [pre(c+)post] is never empty. *)
Lemma group_plus_match (pre post : string) p prev s m :
  rmatch (cat [Lit pre; Grp (Plus p); Lit post]) prev s None accept = Some m ->
  exists X, group1 m = Some X /\ X <> EmptyString.
Proof.
  cbn [cat fold_right rmatch Plus]. intros H.
  destruct (startswith pre s); [| discriminate].
  destruct (drop_str (String.length pre) s) as [| c s2] eqn:Es1; [discriminate |].
  destruct (p c); [| discriminate].
  apply star_match_cont in H as (prev' & s' & H & Hlen).
  destruct (startswith post s'); [| discriminate].
  simpl in H. inversion H; subst; simpl.
  eexists. split; [reflexivity |].
  apply take_str_nonempty. simpl. lia.
Qed.

Lemma group_plus_nonempty (pre post : string) p s X :
  search_group (cat [Lit pre; Grp (Plus p); Lit post]) s = Some X -> X <> EmptyString.
Proof.
  unfold search_group, search. intros H.
  destruct (search_from _ None s) as [m |] eqn:E; [| discriminate].
  eapply (search_from_inv (fun m => exists X, group1 m = Some X /\ X <> EmptyString))
    in E as (X' & HX & Hne).
  - congruence.
  - intros. eapply group_plus_match. eassumption.
Qed.

(** The code found by [pylint_code_re] is never empty. *)
Lemma pylint_code_match prev s m :
  rmatch AiHelper.pylint_code_re prev s None accept = Some m ->
  exists X, group1 m = Some X /\ X <> EmptyString.
Proof.
  unfold AiHelper.pylint_code_re. cbn [cat fold_right rmatch]. intros H.
  destruct s as [| c1 s]; [discriminate |].
  destruct (one_of "EWRFC" c1); [| discriminate].
  destruct s as [| c2 s]; [discriminate |]. destruct (is_digit c2); [| discriminate].
  destruct s as [| c3 s]; [discriminate |]. destruct (is_digit c3); [| discriminate].
  destruct s as [| c4 s]; [discriminate |]. destruct (is_digit c4); [| discriminate].
  destruct s as [| c5 s]; [discriminate |]. destruct (is_digit c5); [| discriminate].
  change (startswith "" s) with true in H. cbv beta iota delta [accept] in H.
  inversion H; subst; cbn [group1]. eexists. split; [reflexivity |].
  apply take_str_nonempty. cbn [String.length drop_str]. lia.
Qed.

Lemma pylint_code_nonempty s X :
  search_group AiHelper.pylint_code_re s = Some X -> X <> EmptyString.
Proof.
  unfold search_group, search. intros H.
  destruct (search_from _ None s) as [m |] eqn:E; [| discriminate].
  eapply (search_from_inv (fun m => exists X, group1 m = Some X /\ X <> EmptyString))
    in E as (X' & HX & Hne).
  - congruence.
  - intros. eapply pylint_code_match. eassumption.
Qed.

Lemma first_char_ok (s : string) :
  s <> EmptyString ->
  exists c s', s = String c s' /\ getitem (list_ascii_of_string s) 0 = Ok c.
Proof.
  destruct s as [| c s']; [congruence |]. intros _. exists c, s'. split; reflexivity.
Qed.

End ReFacts.

(* ===================================================================== *)
(** ** Facts about the repair passes *)
(* ===================================================================== *)

Section RepairFacts.

Import Py AiHelper.

Lemma for_each_ok {S X : Type} (body : S -> X -> result S) (P : X -> Prop) :
  (forall s x, P x -> exists s', body s x = Ok s') ->
  forall xs s, Forall P xs -> exists s', for_each body xs s = Ok s'.
Proof.
  intros Hbody. induction xs as [| x xs IH]; intros s Hall; simpl.
  - eauto.
  - inversion Hall; subst.
    destruct (Hbody s x) as [s1 ->]; [assumption |]. simpl. now apply IH.
Qed.

(** A line number outside the buffer: the lint pass leaves the state as it
    is. *)
Lemma fix_pylint_error_skip lines imps error :
  ErrorMatch.line_num error - 1 < 0 \/
  Z.of_nat (length lines) <= ErrorMatch.line_num error - 1 ->
  fix_pylint_error (lines, imps) error = Ok (lines, imps).
Proof.
  intros H. unfold fix_pylint_error.
  replace ((ErrorMatch.line_num error - 1 >=? Z.of_nat (length lines))
           || (ErrorMatch.line_num error - 1 <? 0)) with true; [reflexivity |].
  symmetry. apply orb_true_iff. rewrite Z.geb_leb, Z.leb_le, Z.ltb_lt. lia.
Qed.

(** A line number past the end of the buffer: the syntax pass leaves the
    state as it is. *)
Lemma fix_syntax_error_skip lines imps error n :
  SyntaxErr.line error = Some n ->
  Z.of_nat (length lines) <= n - 1 ->
  fix_syntax_error (lines, imps) error = Ok (lines, imps).
Proof.
  intros Hn H. unfold fix_syntax_error. rewrite Hn.
  replace (n - 1 >=? Z.of_nat (length lines)) with true; [reflexivity |].
  symmetry. rewrite Z.geb_leb, Z.leb_le. lia.
Qed.

(** The lint pass never raises. *)
Lemma fix_pylint_error_ok st error : exists st', fix_pylint_error st error = Ok st'.
Proof.
  destruct st as [lines imps]. unfold fix_pylint_error.
  destruct ((ErrorMatch.line_num error - 1 >=? Z.of_nat (length lines))
            || (ErrorMatch.line_num error - 1 <? 0)) eqn:G; [eauto |].
  apply in_range_nat in G as (k & -> & Hk).
  destruct (lookup_lt_is_Some_2 lines k Hk) as [cur Hcur].
  rewrite (getitem_in_range _ _ _ Hcur). cbn [bind].
  repeat rewrite (setitem_in_range lines k) by assumption. cbn [bind].
  destruct (String.eqb _ "E0602").
  { destruct (Re.search_group _ _); eauto. }
  destruct (String.eqb _ "W0611").
  { destruct (Re.search_group _ _); eauto. destruct (contains _ _); eauto. }
  destruct (String.eqb _ "C0103").
  { destruct (Re.search_group _ _) as [name |] eqn:E; eauto.
    apply group_plus_nonempty, first_char_ok in E as (c & s' & -> & ->).
    cbn [bind]. destruct (negb _); eauto.
    rewrite (setitem_in_range lines k) by assumption. cbn [bind]. eauto. }
  destruct (String.eqb _ "W0612").
  { destruct (Re.search_group _ _); eauto. destruct (Re.found _ _); eauto. }
  eauto.
Qed.

Lemma fix_pylint_errors_ok code errors :
  exists fixed imps, fix_pylint_errors code errors = Ok (fixed, imps).
Proof.
  unfold fix_pylint_errors.
  destruct (for_each_ok fix_pylint_error (fun _ => True)
              (fun s x _ => fix_pylint_error_ok s x) errors
              (split newline code, []))
    as [[lines imps] ->]; [now apply Forall_forall |].
  cbn [bind]. eauto.
Qed.

(** The syntax pass does not raise on a diagnostic whose line number is a
    positive integer. *)
Lemma fix_syntax_error_ok st error :
  positive_line error -> exists st', fix_syntax_error st error = Ok st'.
Proof.
  intros (n & Hn & Hpos). destruct st as [lines imps].
  unfold fix_syntax_error. rewrite Hn.
  destruct (n - 1 >=? Z.of_nat (length lines)) eqn:G; [eauto |].
  rewrite Z.geb_leb in G. apply Z.leb_gt in G.
  assert (Hk : (Z.to_nat (n - 1) < length lines)%nat) by lia.
  replace (n - 1) with (Z.of_nat (Z.to_nat (n - 1))) by lia.
  destruct (lookup_lt_is_Some_2 lines _ Hk) as [cur Hcur].
  rewrite (getitem_in_range _ _ _ Hcur). cbn [bind].
  repeat rewrite (setitem_in_range lines _) by assumption. cbn [bind].
  repeat match goal with
         | |- context [if ?b then _ else _] => destruct b; eauto
         end.
Qed.

Lemma fix_syntax_errors_ok code errors :
  Forall positive_line errors ->
  exists fixed imps, fix_syntax_errors code errors = Ok (fixed, imps).
Proof.
  intros Hall. unfold fix_syntax_errors.
  destruct (for_each_ok fix_syntax_error positive_line
              (fun s x => fix_syntax_error_ok s x) errors
              (split newline code, []) Hall)
    as [[lines imps] ->].
  cbn [bind]. eauto.
Qed.

(** The scan of the pattern table never raises. *)
Lemma ERROR_PATTERNS_fixes : Forall (fun e => typical_fixes e <> []) ERROR_PATTERNS.
Proof. repeat constructor; discriminate. Qed.

Lemma match_error_pattern_ok out imps entry :
  typical_fixes entry <> [] ->
  exists imps', match_error_pattern out imps entry = Ok imps'.
Proof.
  intros Hfix. unfold match_error_pattern.
  destruct (Re.found _ _); [| eauto].
  pose proof (split_nonempty ":" (pattern entry)) as Hs.
  destruct (split ":" (pattern entry)) as [| name parts]; [congruence |].
  destruct (typical_fixes entry) as [| f fs]; [congruence |].
  cbn. eauto.
Qed.

Lemma pattern_scan_ok out imps :
  exists imps', for_each (match_error_pattern out) ERROR_PATTERNS imps = Ok imps'.
Proof.
  eapply for_each_ok; [| exact ERROR_PATTERNS_fixes].
  intros s x Hx. now apply match_error_pattern_ok.
Qed.

End RepairFacts.

(* ===================================================================== *)
(** ** The engine: branches and output guarantee *)
(* ===================================================================== *)

Section EngineFacts.

Import Py AiHelper.

Variable ast_parse : string -> option SyntaxErr.t.

Lemma pattern_branch_ok out ec wc v : exists v', pattern_branch out ec wc v = Ok v'.
Proof.
  destruct v as [[[c imps] ex] tip]. unfold pattern_branch.
  destruct (is_nil imps && _); [| eauto].
  destruct (pattern_scan_ok out imps) as [imps' ->]. cbn [bind]. eauto.
Qed.

Lemma run_branches_ok code out ec wc :
  (forall e, ast_parse code = Some e -> positive_line e) ->
  exists v, run_branches ast_parse code out ec wc = Ok v.
Proof.
  intros Hparse. unfold run_branches, repair_branch.
  destruct (ast_parse code) as [e |] eqn:Ep.
  - cbn [is_nil negb].
    destruct (fix_syntax_errors_ok code [e]) as (fixed & imps & ->).
    { constructor; [now apply Hparse | constructor]. }
    cbn [bind]. destruct (pattern_branch_ok out ec wc (fixed, [] ++ imps, syntax_explanation, syntax_tip))
      as [v' ->].
    cbn [bind]. eauto.
  - cbn [is_nil negb].
    destruct (extract_error_matches out) as [| m ms].
    + cbn [is_nil negb bind].
      destruct (pattern_branch_ok out ec wc (code, [], "", "")) as [v' ->].
      cbn [bind]. eauto.
    + cbn [is_nil negb].
      destruct (fix_pylint_errors_ok code (m :: ms)) as (fixed & imps & ->).
      cbn [bind]. destruct (pattern_branch_ok out ec wc (fixed, [] ++ imps, pylint_explanation, pylint_tip))
        as [v' ->].
      cbn [bind]. eauto.
Qed.

(** What the [return] statement does with the values the branches leave. *)
Lemma response_of_branches code out ec wc r :
  get_improvement_suggestions ast_parse code out ec wc = Ok r ->
  exists improved collected explanation0 tip0,
    run_branches ast_parse code out ec wc = Ok (improved, collected, explanation0, tip0) /\
    r = {| improved_code := improved;
           explanation := or_str explanation0 default_explanation;
           improvements := or_list collected [no_issues];
           learning_tip := or_str tip0 default_tip |}.
Proof.
  unfold get_improvement_suggestions.
  destruct (run_branches ast_parse code out ec wc)
    as [[[[improved collected] explanation0] tip0] | ex]; cbn [bind]; [| discriminate].
  intros H. inversion H; subst. eauto 6.
Qed.


End EngineFacts.


Section SyntaxBranch.

Import Py AiHelper.

Variable ast_parse : string -> option SyntaxErr.t.

(** C3, as amended.  For a source that fails to parse: when the syntax pass
    records at least one repair, the result carries the repaired source,
    exactly those repairs and the syntax-first explanation and tip, whatever
    the report and the prior counts; neither the lint pass nor the pattern
    table contributes.  When the syntax pass records no repair and a prior
    count is non-zero, the pattern table is scanned in the same run, and if
    an entry matches, the repairs are its matches and the explanation and
    tip are those of the analysis fallback. *)
Theorem syntax_branch_result (code analysis_output : string)
    (error_count warning_count : Z) (e : SyntaxErr.t) (fixed : string)
    (recorded : list Improvement) :
  ast_parse code = Some e ->
  fix_syntax_errors code [e] = Ok (fixed, recorded) ->
  (recorded <> [] ->
   get_improvement_suggestions ast_parse code analysis_output error_count warning_count
   = Ok {| improved_code := fixed;
           explanation := syntax_explanation;
           improvements := recorded;
           learning_tip := syntax_tip |}) /\
  (recorded = [] ->
   0 < error_count \/ 0 < warning_count ->
   exists found,
     for_each (match_error_pattern analysis_output) ERROR_PATTERNS [] = Ok found /\
     (found <> [] ->
      get_improvement_suggestions ast_parse code analysis_output error_count
        warning_count
      = Ok {| improved_code := fixed;
              explanation := analysis_explanation;
              improvements := found;
              learning_tip := analysis_tip |})).
Proof.
  intros Hparse Hfix.
  unfold get_improvement_suggestions, run_branches, repair_branch.
  rewrite Hparse. cbn [is_nil negb]. rewrite Hfix. cbn [bind app].
  split.
  - intros Hne. destruct recorded as [| i rs]; [congruence |].
    reflexivity.
  - intros -> Hcount.
    destruct (pattern_scan_ok analysis_output []) as [found Hfound].
    exists found. split; [exact Hfound |]. intros Hne.
    unfold pattern_branch. cbn [is_nil andb].
    replace ((error_count >? 0) || (warning_count >? 0)) with true.
    2:{ symmetry. apply orb_true_iff. rewrite !Z.gtb_ltb, !Z.ltb_lt. exact Hcount. }
    rewrite Hfound. cbn [bind].
    destruct found as [| f fs]; [congruence |]. reflexivity.
Qed.

End SyntaxBranch.

(** The amended C3 at a source with a missing colon: the syntax pass adds the
    colon and the syntax-first texts stand although a prior error is
    counted. *)
Lemma syntax_branch_result_witness :
  let parse := fun _ : string =>
    Some {| AiHelper.SyntaxErr.line := Some 1;
            AiHelper.SyntaxErr.column := Some 8;
            AiHelper.SyntaxErr.message := "expected ':' (<unknown>, line 1)" |} in
  let code := Py.join AiHelper.nl ["if True"; "    print(1)"] in
  let report := "Line 1, Col 8: SyntaxError: expected ':'" +:+ AiHelper.nl in
  AiHelper.get_improvement_suggestions parse code report 1 0
  = Py.Ok {| AiHelper.improved_code := Py.join AiHelper.nl ["if True:"; "    print(1)"];
             AiHelper.explanation := AiHelper.syntax_explanation;
             AiHelper.improvements :=
               [ {| AiHelper.issue := "Missing colon at line 1";
                    AiHelper.solution := "Added missing colon after statement" |} ];
             AiHelper.learning_tip := AiHelper.syntax_tip |}.
Proof.
  intros parse code report.
  refine (proj1 (syntax_branch_result parse code report 1 0 _ _ _ eq_refl _) _).
  - vm_compute. reflexivity.
  - discriminate.
Defined.

(** C3 as stated fails: this source does not parse, no rule of the syntax
    pass applies to its diagnostic and one prior error is counted; the
    pattern table is then scanned in the same run, its entry for a syntax
    error matches, and the explanation and tip of the result are those of
    the analysis fallback, not the syntax-first texts. *)
Lemma syntax_branch_not_exclusive :
  let parse := fun _ : string =>
    Some {| AiHelper.SyntaxErr.line := Some 1;
            AiHelper.SyntaxErr.column := Some 5;
            AiHelper.SyntaxErr.message := "invalid syntax (<unknown>, line 1)" |} in
  let report := "Line 1, Col 5: SyntaxError: invalid syntax" +:+ AiHelper.nl in
  AiHelper.fix_syntax_errors "x = = 1"
    [ {| AiHelper.SyntaxErr.line := Some 1;
         AiHelper.SyntaxErr.column := Some 5;
         AiHelper.SyntaxErr.message := "invalid syntax (<unknown>, line 1)" |} ]
  = Py.Ok ("x = = 1", []) /\
  AiHelper.get_improvement_suggestions parse "x = = 1" report 1 0
  = Py.Ok {| AiHelper.improved_code := "x = = 1";
             AiHelper.explanation := AiHelper.analysis_explanation;
             AiHelper.improvements :=
               [ {| AiHelper.issue := "Potential issue: SyntaxError";
                    AiHelper.solution :=
                      "Your code has a syntax error, which means Python cannot understand the structure. Check for missing colons after if/for/while statements" |} ];
             AiHelper.learning_tip := AiHelper.analysis_tip |} /\
  AiHelper.analysis_explanation <> AiHelper.syntax_explanation /\
  AiHelper.analysis_tip <> AiHelper.syntax_tip.
Proof.
  repeat split; try (vm_compute; reflexivity); discriminate.
Qed.

(* ===================================================================== *)
(** ** The lint pass: single diagnostics *)
(* ===================================================================== *)

Section LintPass.

Import Py AiHelper.

(** The step of the lint pass on an [E0602] diagnostic inside the buffer. *)
Lemma fix_pylint_error_E0602 lines imps error (k : nat) name :
  ErrorMatch.code error = "E0602" ->
  ErrorMatch.line_num error = Z.of_nat k + 1 ->
  (k < length lines)%nat ->
  Re.search_group undefined_variable_re (ErrorMatch.message error) = Some name ->
  fix_pylint_error (lines, imps) error
  = Ok (take k lines
          ++ (name +:+ " = None  # TODO: Initialize with a proper value")
          :: drop k lines,
        imps ++ [ {| issue := "Undefined variable '" +:+ name +:+ "'";
                     solution := "Added a placeholder initialization. Replace 'None' with an appropriate value." |} ]).
Proof.
  intros Hcode Hline Hk Hname. unfold fix_pylint_error.
  rewrite Hcode, Hline, Hname.
  replace (Z.of_nat k + 1 - 1) with (Z.of_nat k) by lia.
  replace ((Z.of_nat k >=? Z.of_nat (length lines)) || (Z.of_nat k <? 0)) with false.
  2:{ symmetry. apply orb_false_iff. rewrite Z.geb_leb, Z.leb_gt, Z.ltb_ge. lia. }
  destruct (lookup_lt_is_Some_2 lines k Hk) as [cur Hcur].
  rewrite (getitem_in_range _ _ _ Hcur). cbn [bind].
  change (("E0602" =? "E0602")%string) with true. cbv iota.
  rewrite insert_in_range by lia. reflexivity.
Qed.

(** C10. A single [E0602] diagnostic with the message
    [Undefined variable 'foo'] on line 3 of a source of at least three lines:
    the lint pass returns the source with exactly one new line, the
    placeholder assignment [foo = None], immediately before the original
    line 3; the number of lines grows by exactly one and exactly one record
    is appended. *)
Theorem undefined_name_placeholder (code : string) :
  (3 <= length (split newline code))%nat ->
  exists repaired,
    fix_pylint_errors code
      [ {| ErrorMatch.code := "E0602";
           ErrorMatch.line_num := 3;
           ErrorMatch.message := "Undefined variable 'foo'" |} ]
    = Ok (repaired,
          [ {| issue := "Undefined variable 'foo'";
               solution := "Added a placeholder initialization. Replace 'None' with an appropriate value." |} ]) /\
    split newline repaired
    = take 2 (split newline code)
        ++ "foo = None  # TODO: Initialize with a proper value"
        :: drop 2 (split newline code) /\
    length (split newline repaired) = S (length (split newline code)).
Proof.
  intros Hlen. unfold fix_pylint_errors. cbn [for_each].
  rewrite (fix_pylint_error_E0602 _ _ _ 2 "foo"); try reflexivity; [| lia].
  cbn [bind]. eexists. split; [reflexivity |].
  assert (Hsplit :
    split newline
      (join nl (take 2 (split newline code)
                  ++ ("foo" +:+ " = None  # TODO: Initialize with a proper value")
                  :: drop 2 (split newline code)))
    = take 2 (split newline code)
        ++ "foo = None  # TODO: Initialize with a proper value"
        :: drop 2 (split newline code)).
  { apply split_join.
    - destruct (take 2 (split newline code)); discriminate.
    - apply Forall_app. split; [apply Forall_take, split_no_sep |].
      constructor; [reflexivity | apply Forall_drop, split_no_sep]. }
  split; [exact Hsplit |].
  rewrite Hsplit, length_app, length_take. cbn [length].
  rewrite length_drop. lia.
Qed.

(** The notions of the specification and the functions of the code. *)
Lemma is_capital_upper (c : ascii) : is_capital c = is_upper c.
Proof. destruct c as [[] [] [] [] [] [] [] []]; reflexivity. Qed.

Lemma small_letter_lower (c : ascii) : small_letter c = lower_char c.
Proof. destruct c as [[] [] [] [] [] [] [] []]; reflexivity. Qed.

Lemma lower_case_lower (s : string) : lower_case s = lower s.
Proof.
  induction s as [| c s IH]; [reflexivity |].
  cbn [lower_case lower]. now rewrite IH, small_letter_lower.
Qed.

Lemma substring_whole (s : string) : String.substring 0 (String.length s) s = s.
Proof.
  induction s as [| c s IH]; [reflexivity |].
  cbn [String.length String.substring]. now rewrite IH.
Qed.

Lemma without_leading_underscores_lstrip (s : string) :
  without_leading_underscores s = lstrip_char "_" s.
Proof.
  unfold without_leading_underscores.
  induction s as [| c s IH]; [reflexivity |].
  cbn [leading_underscores lstrip_char String.length].
  destruct (Ascii.eqb c "_").
  - cbn [Nat.sub String.substring]. exact IH.
  - rewrite Nat.sub_0_r. apply (substring_whole (String c s)).
Qed.

Lemma underscore_internal_capitals_later (i : nat) (s : string) :
  underscore_internal_capitals (S i) s = underscore_capitals s.
Proof.
  revert i. induction s as [| c s IH]; intros i; [reflexivity |].
  cbn [underscore_internal_capitals underscore_capitals Nat.ltb Nat.leb andb].
  now rewrite IH, is_capital_upper.
Qed.

Lemma snake_case_remedy_code (c : ascii) (s : string) :
  is_upper c = false ->
  snake_case_remedy (String c s)
  = lstrip_char "_" (lower (underscore_capitals (String c s))).
Proof.
  intros Hc. unfold snake_case_remedy.
  rewrite without_leading_underscores_lstrip, lower_case_lower.
  cbn [underscore_internal_capitals underscore_capitals Nat.ltb Nat.leb andb].
  now rewrite Hc, underscore_internal_capitals_later.
Qed.

Lemma startswith_prefix (p rest : string) : startswith p (p +:+ rest) = true.
Proof.
  induction p as [| a p IH]; [reflexivity |].
  change (String a p +:+ rest) with (String a (p +:+ rest)).
  cbn [startswith]. now rewrite Ascii.eqb_refl, IH.
Qed.

Lemma startswith_split (p s : string) :
  startswith p s = true -> s = p +:+ drop_str (String.length p) s.
Proof.
  revert s. induction p as [| a p IH]; intros s H; [reflexivity |].
  destruct s as [| b s]; [discriminate |].
  cbn [startswith] in H. apply andb_true_iff in H as [Hab Hp].
  apply Ascii.eqb_eq in Hab as ->.
  cbn [String.length drop_str].
  change (String b p +:+ drop_str (String.length p) s)
    with (String b (p +:+ drop_str (String.length p) s)).
  f_equal. now apply IH.
Qed.

Lemma length_drop_str (n : nat) (s : string) :
  (String.length (drop_str n s) <= String.length s)%nat.
Proof.
  revert s. induction n as [| n IH]; intros s; [reflexivity |].
  destruct s as [| c s]; [reflexivity |].
  cbn [drop_str String.length]. specialize (IH s). lia.
Qed.

(** Passing over the rest of a replaced occurrence. *)
Lemma replace_go_skip (old new : string) (k : nat) (s : string) :
  replace_go old new k s = replace_go old new 0 (drop_str k s).
Proof.
  revert s. induction k as [| k IH]; intros s; [reflexivity |].
  destruct s as [| c s]; [reflexivity |].
  cbn [replace_go drop_str]. apply IH.
Qed.

(** [str.replace] replaces every occurrence, from the left and without
    overlap. *)
Lemma replace_replaces_each (old new s : string) :
  old <> "" -> replaces_each old new s (replace old new s).
Proof.
  intros Hold. unfold replace.
  remember (String.length s) as n eqn:Hn.
  assert (Hle : (String.length s <= n)%nat) by lia. clear Hn.
  revert s Hle. induction n as [| n IH]; intros s Hle.
  - destruct s as [| c s]; [constructor | cbn [String.length] in Hle; lia].
  - destruct s as [| c s]; [constructor |].
    cbn [replace_go]. destruct (startswith old (String c s)) eqn:Hs.
    + destruct old as [| a old]; [congruence |].
      pose proof (startswith_split _ _ Hs) as Hsplit.
      cbn [String.length Nat.pred]. rewrite replace_go_skip.
      cbn [String.length drop_str] in Hsplit.
      rewrite Hsplit at 1. apply replaces_here. apply IH.
      pose proof (length_drop_str (String.length old) s).
      cbn [String.length] in Hle. lia.
    + apply replaces_next.
      * intros rest Heq. rewrite Heq, startswith_prefix in Hs. discriminate.
      * apply IH. cbn [String.length] in Hle. lia.
Qed.

Lemma app_str_cancel (p a b : string) : p +:+ a = p +:+ b -> a = b.
Proof.
  induction p as [| c p IH]; [trivial |].
  change (String c (p +:+ a) = String c (p +:+ b) -> a = b).
  intros H. apply IH. congruence.
Qed.

(** The replacement of the occurrences of a non-empty text is determined. *)
Lemma replaces_each_unique (old new s t t' : string) :
  old <> "" ->
  replaces_each old new s t -> replaces_each old new s t' -> t = t'.
Proof.
  intros Hold H. revert t'.
  induction H as [| rest t H IH | c s t Hno H IH]; intros t' H'.
  - inversion H' as [| rest' u' Hu' E | c' s' u' Hno' Hu' E]; [reflexivity |].
    destruct old as [| a old]; [congruence | discriminate E].
  - inversion H' as [E | rest' u' Hu' E | c' s' u' Hno' Hu' E].
    + destruct old as [| a old]; [congruence | discriminate E].
    + apply app_str_cancel in E as ->. f_equal. now apply IH.
    + exfalso. apply (Hno' rest). congruence.
  - inversion H' as [| rest' u' Hu' E | c' s' u' Hno' Hu' E].
    + exfalso. apply (Hno rest'). congruence.
    + subst. f_equal. now apply IH.
Qed.

(** C8. A [C0103] diagnostic whose message matches [Invalid name X] (the
    name between double quotes), on a line of the buffer.  If [X] starts with
    a capital letter the line is left as it is and no record is added.
    Otherwise the remedy is derived by putting an underscore before each
    internal capital letter, lower-casing the whole and stripping leading
    underscores; if the remedy equals [X] nothing changes, and if it differs
    every occurrence of [X] on that line is replaced by the remedy, the other
    lines are kept, and one record is appended. *)
Theorem invalid_name_repair lines imps error X (k : nat) current_line :
  ErrorMatch.code error = "C0103" ->
  Re.search_group invalid_name_re (ErrorMatch.message error) = Some X ->
  ErrorMatch.line_num error = Z.of_nat k + 1 ->
  lines !! k = Some current_line ->
  exists new_line,
    replaces_each X (snake_case_remedy X) current_line new_line /\
    fix_pylint_error (lines, imps) error
    = if starts_uppercase X then Ok (lines, imps)
      else if String.eqb (snake_case_remedy X) X then Ok (lines, imps)
      else Ok (<[k := new_line]> lines,
               imps ++ [ {| issue := "Invalid name '" +:+ X +:+ "'";
                            solution := "Renamed to '" +:+ snake_case_remedy X
                                        +:+ "' following Python naming conventions" |} ]).
Proof.
  intros Hcode Hname Hline Hcur.
  pose proof (lookup_lt_Some _ _ _ Hcur) as Hk.
  exists (replace X (snake_case_remedy X) current_line).
  apply group_plus_nonempty in Hname as Hne.
  split.
  { apply replace_replaces_each. intros ->. now apply Hne. }
  unfold fix_pylint_error. rewrite Hcode, Hline, Hname.
  replace (Z.of_nat k + 1 - 1) with (Z.of_nat k) by lia.
  replace ((Z.of_nat k >=? Z.of_nat (length lines)) || (Z.of_nat k <? 0)) with false.
  2:{ symmetry. apply orb_false_iff. rewrite Z.geb_leb, Z.leb_gt, Z.ltb_ge. lia. }
  rewrite (getitem_in_range _ _ _ Hcur). cbn [bind].
  change (("C0103" =? "E0602")%string) with false.
  change (("C0103" =? "W0611")%string) with false.
  change (("C0103" =? "C0103")%string) with true. cbv iota.
  apply first_char_ok in Hne as (c & s' & -> & ->).
  cbn [bind starts_uppercase]. rewrite is_capital_upper.
  destruct (is_upper c) eqn:Hc.
  - rewrite String.eqb_refl. reflexivity.
  - rewrite (snake_case_remedy_code _ _ Hc).
    destruct (String.eqb _ (String c s')); cbn [negb]; [reflexivity |].
    rewrite setitem_in_range by assumption. reflexivity.
Qed.

End LintPass.

(** C10 at a source of three lines. *)
Lemma undefined_name_placeholder_witness :
  exists repaired,
    AiHelper.fix_pylint_errors (Py.join AiHelper.nl ["a = 1"; "b = 2"; "print(foo)"])
      [ {| AiHelper.ErrorMatch.code := "E0602";
           AiHelper.ErrorMatch.line_num := 3;
           AiHelper.ErrorMatch.message := "Undefined variable 'foo'" |} ]
    = Py.Ok (repaired,
          [ {| AiHelper.issue := "Undefined variable 'foo'";
               AiHelper.solution := "Added a placeholder initialization. Replace 'None' with an appropriate value." |} ]) /\
    Py.split Py.newline repaired
    = ["a = 1"; "b = 2"; "foo = None  # TODO: Initialize with a proper value"; "print(foo)"] /\
    length (Py.split Py.newline repaired) = 4%nat.
Proof.
  apply (undefined_name_placeholder (Py.join AiHelper.nl ["a = 1"; "b = 2"; "print(foo)"])).
  vm_compute. lia.
Defined.

(** C8 at a camel-case name that starts with an underscore: the underscore
    put before the capital stays, the leading one is stripped, and both
    occurrences on the line are replaced. *)
Lemma invalid_name_repair_witness :
  AiHelper.fix_pylint_error (["_myVar = _myVar + 1"; "print(_myVar)"], [])
    {| AiHelper.ErrorMatch.code := "C0103";
       AiHelper.ErrorMatch.line_num := 1;
       AiHelper.ErrorMatch.message := "Invalid name " +:+ dq +:+ "_myVar" +:+ dq |}
  = Py.Ok (["my_var = my_var + 1"; "print(_myVar)"],
           [ {| AiHelper.issue := "Invalid name '_myVar'";
                AiHelper.solution := "Renamed to 'my_var' following Python naming conventions" |} ]).
Proof.
  destruct (invalid_name_repair ["_myVar = _myVar + 1"; "print(_myVar)"] []
              {| AiHelper.ErrorMatch.code := "C0103";
                 AiHelper.ErrorMatch.line_num := 1;
                 AiHelper.ErrorMatch.message :=
                   "Invalid name " +:+ dq +:+ "_myVar" +:+ dq |}
              "_myVar" 0 "_myVar = _myVar + 1"
              eq_refl eq_refl eq_refl eq_refl) as (new_line & Hrep & Hrun).
  rewrite Hrun.
  assert (Hline : new_line = "my_var = my_var + 1").
  { apply (replaces_each_unique "_myVar" "my_var" "_myVar = _myVar + 1");
      [discriminate | exact Hrep |].
    apply (replaces_here "_myVar" "my_var" " = _myVar + 1" " = my_var + 1").
    repeat (apply replaces_next;
            [intros rest E;
             change ("_myVar" +:+ rest) with (String "_" ("myVar" +:+ rest)) in E;
             discriminate E |]).
    apply (replaces_here "_myVar" "my_var" " + 1" " + 1").
    repeat (apply replaces_next;
            [intros rest E;
             change ("_myVar" +:+ rest) with (String "_" ("myVar" +:+ rest)) in E;
             discriminate E |]).
    apply replaces_end. }
  rewrite Hline. reflexivity.
Defined.

(* ===================================================================== *)
(** ** Line numbers after an insertion, and line numbers outside the buffer *)
(* ===================================================================== *)

Section LineNumbers.

Import Py AiHelper.

(** After a line is inserted at position [k], every later position holds the
    line that was one position earlier. *)
Lemma lookup_after_insertion (lines : list string) (k j : nat) (x : string) :
  (k <= length lines)%nat -> (k < j)%nat ->
  (take k lines ++ x :: drop k lines) !! j = lines !! (j - 1)%nat.
Proof.
  intros Hk Hj.
  rewrite lookup_app_r by (rewrite length_take; lia).
  rewrite length_take, Nat.min_l by lia.
  destruct (j - k)%nat as [| d] eqn:E; [lia |].
  change ((x :: drop k lines) !! S d) with (drop k lines !! d).
  rewrite lookup_drop. f_equal. lia.
Qed.

(** C1.  The lint pass does not keep later line numbers valid after an
    insertion.  Here the diagnostics come in ascending line order: [E0602]
    on line 1 and [C0103] for [myVar] on line 2.  The placeholder is inserted
    before line 1; the rename recorded for line 2 is then applied to the
    original line 1, and the original line 2 is left as it was. *)
Theorem insertion_shifts_later_diagnostics :
  fix_pylint_errors (join nl ["myVar = foo"; "myVar = 2"])
    [ {| ErrorMatch.code := "E0602";
         ErrorMatch.line_num := 1;
         ErrorMatch.message := "Undefined variable 'foo'" |};
      {| ErrorMatch.code := "C0103";
         ErrorMatch.line_num := 2;
         ErrorMatch.message := "Invalid name " +:+ dq +:+ "myVar" +:+ dq |} ]
  = Ok (join nl ["foo = None  # TODO: Initialize with a proper value";
                 "my_var = foo";
                 "myVar = 2"],
        [ {| issue := "Undefined variable 'foo'";
             solution := "Added a placeholder initialization. Replace 'None' with an appropriate value." |};
          {| issue := "Invalid name 'myVar'";
             solution := "Renamed to 'my_var' following Python naming conventions" |} ]).
Proof. vm_compute. reflexivity. Qed.

(** C4.  The syntax pass does not skip a diagnostic whose line number lies
    below the first line.  Line 0 maps to index -1, which Python reads as the
    last line: that line is edited and a record is appended.  Line -5 maps to
    an index before the start of a two-line buffer and the pass ends with
    [IndexError]. *)
Theorem syntax_pass_below_first_line :
  fix_syntax_errors (join nl ["x = 1"; "  y = 2"])
    [ {| SyntaxErr.line := Some 0;
         SyntaxErr.column := Some 0;
         SyntaxErr.message := "unexpected indent" |} ]
  = Ok (join nl ["x = 1"; "y = 2"],
        [ {| issue := "Incorrect indentation at line 0";
             solution := "Removed extra indentation" |} ]) /\
  fix_syntax_errors (join nl ["x = 1"; "  y = 2"])
    [ {| SyntaxErr.line := Some (-5);
         SyntaxErr.column := Some 0;
         SyntaxErr.message := "unexpected indent" |} ]
  = Raise IndexError.
Proof. split; vm_compute; reflexivity. Qed.

(** The part of C4 the code keeps: the lint pass skips every diagnostic whose
    line maps outside the buffer, on either side, and the syntax pass skips
    every diagnostic whose line maps past the end; the loop goes on with the
    state unchanged. *)
Lemma out_of_range_skipped lines imps :
  (forall error,
     ErrorMatch.line_num error - 1 < 0 \/
     Z.of_nat (length lines) <= ErrorMatch.line_num error - 1 ->
     fix_pylint_error (lines, imps) error = Ok (lines, imps)) /\
  (forall error n,
     SyntaxErr.line error = Some n ->
     Z.of_nat (length lines) <= n - 1 ->
     fix_syntax_error (lines, imps) error = Ok (lines, imps)).
Proof.
  split.
  - intros error H. now apply fix_pylint_error_skip.
  - intros error n Hn H. now apply (fix_syntax_error_skip lines imps error n).
Qed.

End LineNumbers.

(* ===================================================================== *)
(** ** The classification of the linter report *)
(* ===================================================================== *)

Section Classification.

Import Py.

(** The counting loop of [run_pylint_analysis] never raises, so its [except]
    clause is never entered on account of the report text. *)
Lemma count_line_ok t line : exists t', App.count_line t line = Ok t'.
Proof.
  destruct t as [[ec wc] et]. unfold App.count_line.
  destruct (contains ":" line); [| eauto].
  destruct (Re.search_group _ line) as [code |] eqn:E; [| eauto].
  apply pylint_code_nonempty, first_char_ok in E as (c & s' & -> & ->).
  cbn [bind].
  destruct (Ascii.eqb c "E" || Ascii.eqb c "F"); [eauto |].
  destruct (Ascii.eqb c "W"); eauto.
Qed.

(** The severity mapping of [run_pylint_analysis]: on a line with a colon
    whose code starts with [c], an [E] or [F] adds one error, a [W] adds one
    warning, a [C] or [R] adds one warning classed as style. *)
Lemma count_line_mapping ec wc et line c digits :
  contains ":" line = true ->
  Re.search_group AiHelper.pylint_code_re line = Some (String c digits) ->
  ((c = "E"%char \/ c = "F"%char) ->
   App.count_line (ec, wc, et) line = Ok (ec + 1, wc, bump "error" et)) /\
  (c = "W"%char ->
   App.count_line (ec, wc, et) line = Ok (ec, wc + 1, bump "warning" et)) /\
  ((c = "C"%char \/ c = "R"%char) ->
   App.count_line (ec, wc, et) line = Ok (ec, wc + 1, bump "style" et)).
Proof.
  intros Hcolon Hcode. unfold App.count_line. rewrite Hcolon, Hcode.
  cbn [list_ascii_of_string]. change (getitem (c :: list_ascii_of_string digits) 0) with (Ok c).
  cbn [bind].
  repeat split.
  - intros [-> | ->]; reflexivity.
  - intros ->; reflexivity.
  - intros [-> | ->]; reflexivity.
Qed.

(** The classifier of the repair engine gives no diagnostic for an empty
    report, nor for a line of empty colon-delimited fields. *)
Lemma unclassified_lines_ignored :
  AiHelper.extract_error_matches "" = [] /\
  AiHelper.extract_error_matches "::" = [] /\
  App.run_pylint_analysis "::"
  = {| error_count := 0; warning_count := 0; error_types := ∅; output := "::" |}.
Proof. repeat split; vm_compute; reflexivity. Qed.

(** C5.  The classification loop of [analyzer.py] raises on a report line
    whose third colon-delimited field is blank: for the line [::] the text
    [parts[2].strip().split()] is the empty list and taking its first element
    is an [IndexError], which leaves [analyze_python_code]. *)
Theorem analyzer_raises_on_blank_field :
  Analyzer.analyze_python_code None "::" = Raise IndexError.
Proof. vm_compute. reflexivity. Qed.

(** C6.  The classification loop of [analyzer.py] does not apply the
    severity mapping.  On the five lines the linter prints for an [E], [F],
    [W], [C] and [R] message it counts nothing, because it reads the third
    colon-delimited field, which is the column; [run_pylint_analysis] counts
    two errors and three warnings on the same text.  With the code in the
    third field an [F] code is still no error and a [C] code no warning. *)
Theorem analyzer_misses_severity_mapping :
  let report := join AiHelper.nl
    [ "tmp.py:3:0: E0602: Undefined variable 'foo' (undefined-variable)";
      "tmp.py:1:0: F0001: No module named tmp (fatal)";
      "tmp.py:1:0: W0611: Unused import os (unused-import)";
      "tmp.py:2:0: C0103: Constant name does not conform (invalid-name)";
      "tmp.py:5:0: R0201: Method could be a function (no-self-use)" ] in
  (exists r, Analyzer.analyze_python_code None report = Ok r /\
             error_count r = 0 /\ warning_count r = 0 /\ error_types r = ∅) /\
  (error_count (App.run_pylint_analysis report) = 2 /\
   warning_count (App.run_pylint_analysis report) = 3) /\
  (exists r, Analyzer.analyze_python_code None
               (join AiHelper.nl ["tmp.py:1: F0001: fatal"; "tmp.py:2: C0103: name"])
             = Ok r /\
             error_count r = 0 /\ warning_count r = 0 /\ error_types r = ∅).
Proof.
  intros report. split; [| split].
  - eexists. split; [vm_compute; reflexivity |]. repeat split.
  - split; vm_compute; reflexivity.
  - eexists. split; [vm_compute; reflexivity |]. repeat split.
Qed.

End Classification.

(* ===================================================================== *)
(** ** The tree detectors *)
(* ===================================================================== *)

Section Trees.

Import App.

(** Induction over a tree, with the property available for all child
    nodes. *)
Section NodeInduction.

Variable P : node -> Prop.
Hypothesis H_BinOp : forall l op r, P l -> P r -> P (BinOp l op r).
Hypothesis H_Constant : forall v, P (Constant v).
Hypothesis H_Return_None : P (Return None).
Hypothesis H_Return_Some : forall v, P v -> P (Return (Some v)).
Hypothesis H_FunctionDef : forall name args body decs ret,
  P args -> Forall P body -> Forall P decs ->
  match ret with Some r => P r | None => True end ->
  P (FunctionDef name args body decs ret).
Hypothesis H_AugAssign : forall t op v, P t -> P v -> P (AugAssign t op v).
Hypothesis H_Node : forall class children, Forall P children -> P (Node class children).

Lemma node_induction : forall n : node, P n.
Proof.
  fix IH 1. intros n.
  assert (all : forall ns : list node, Forall P ns).
  { fix IHall 1. intros [| n' ns'].
    - apply List.Forall_nil.
    - apply List.Forall_cons; [apply IH | apply IHall]. }
  destruct n as [l op r | v | [v |] | name args body decs ret | t op v | class children].
  - apply H_BinOp; apply IH.
  - apply H_Constant.
  - apply H_Return_Some, IH.
  - apply H_Return_None.
  - apply H_FunctionDef; [apply IH | apply all | apply all |].
    destruct ret as [r |]; [apply IH | exact I].
  - apply H_AugAssign; apply IH.
  - apply H_Node, all.
Qed.

End NodeInduction.

(** A visitor that only ever sets its flag: the per-node test [test] and the
    traversal of [generic_visit]. *)
Section Visitor.

Variable visit : bool -> node -> bool.
Variable test : node -> bool.

Hypothesis visit_BinOp : forall flag l op r,
  visit flag (BinOp l op r)
  = visit (visit (flag || test (BinOp l op r)) l) r.
Hypothesis visit_Constant : forall flag v,
  visit flag (Constant v) = flag || test (Constant v).
Hypothesis visit_Return : forall flag v,
  visit flag (Return v) = visit_option visit (flag || test (Return v)) v.
Hypothesis visit_FunctionDef : forall flag name args body decs ret,
  visit flag (FunctionDef name args body decs ret)
  = visit_option visit
      (visit_list visit
         (visit_list visit
            (visit (flag || test (FunctionDef name args body decs ret)) args) body)
         decs)
      ret.
Hypothesis visit_AugAssign : forall flag t op v,
  visit flag (AugAssign t op v)
  = visit (visit (flag || test (AugAssign t op v)) t) v.
Hypothesis visit_Node : forall flag class children,
  visit flag (Node class children)
  = visit_list visit (flag || test (Node class children)) children.

Lemma visit_list_true ns :
  Forall (fun n => visit true n = true) ns -> visit_list visit true ns = true.
Proof.
  unfold visit_list. induction 1 as [| n ns Hn _ IH]; simpl; [reflexivity |].
  now rewrite Hn.
Qed.

(** Once set, the flag stays set. *)
Lemma visit_true n : visit true n = true.
Proof.
  induction n using node_induction;
    rewrite ?visit_BinOp, ?visit_Constant, ?visit_Return, ?visit_FunctionDef,
      ?visit_AugAssign, ?visit_Node; cbn [orb visit_option].
  - now rewrite IHn1.
  - reflexivity.
  - reflexivity.
  - exact IHn.
  - rewrite IHn, !visit_list_true by assumption.
    destruct ret; [assumption | reflexivity].
  - now rewrite IHn1.
  - now apply visit_list_true.
Qed.

Lemma visit_list_true_any ns : visit_list visit true ns = true.
Proof. apply visit_list_true, List.Forall_forall. intros n _. apply visit_true. Qed.

Lemma visit_list_false ns :
  visit_list visit false ns = true <-> exists n, In n ns /\ visit false n = true.
Proof.
  unfold visit_list. induction ns as [| n ns IH]; simpl.
  - split; [discriminate | intros (? & [] & _)].
  - destruct (visit false n) eqn:E.
    + split; [intros _; exists n; auto | intros _; apply visit_list_true_any].
    + rewrite IH. split.
      * intros (m & Hin & Hm). exists m. auto.
      * intros (m & [-> | Hin] & Hm); [congruence | exists m; auto].
Qed.

(** The visitor returns [True] exactly when the test holds at some node of
    the tree. *)
Lemma visit_false_iff n :
  visit false n = true <-> exists m, occurs_in m n /\ test m = true.
Proof.
  induction n using node_induction;
    rewrite ?visit_BinOp, ?visit_Constant, ?visit_Return, ?visit_FunctionDef,
      ?visit_AugAssign, ?visit_Node; cbn [orb visit_option].
  - (* BinOp *)
    destruct (test (BinOp n1 op n2)) eqn:T.
    { rewrite !visit_true. split; [intros _ | reflexivity].
      exists (BinOp n1 op n2). split; [constructor | assumption]. }
    destruct (visit false n1) eqn:E1.
    { rewrite visit_true. split; [intros _ | reflexivity].
      apply proj1 in IHn1. destruct (IHn1 eq_refl) as (m & Hm & Ht).
      exists m. split; [| assumption].
      eapply occurs_below; [apply child_BinOp_left | assumption]. }
    rewrite IHn2. split.
    + intros (m & Hm & Ht). exists m. split; [| assumption].
      eapply occurs_below; [apply child_BinOp_right | assumption].
    + intros (m & Hm & Ht). inversion Hm as [| c ? Hc Hmc]; subst; [congruence |].
      inversion Hc; subst; [| eauto].
      assert (false = true) by (apply IHn1; eauto). discriminate.
  - (* Constant *)
    split.
    + intros Ht. exists (Constant v). split; [constructor | assumption].
    + intros (m & Hm & Ht). inversion Hm as [| c ? Hc Hmc]; subst; [assumption |].
      inversion Hc.
  - (* Return None *)
    split.
    + intros Ht. exists (Return None). split; [constructor | assumption].
    + intros (m & Hm & Ht). inversion Hm as [| c ? Hc Hmc]; subst; [assumption |].
      inversion Hc.
  - (* Return Some *)
    destruct (test (Return (Some n))) eqn:T.
    { rewrite visit_true. split; [intros _ | reflexivity].
      exists (Return (Some n)). split; [constructor | assumption]. }
    rewrite IHn. split.
    + intros (m & Hm & Ht). exists m. split; [| assumption].
      eapply occurs_below; [apply child_Return | assumption].
    + intros (m & Hm & Ht). inversion Hm as [| c ? Hc Hmc]; subst; [congruence |].
      inversion Hc; subst. eauto.
  - (* FunctionDef *)
    rename H into Hbody, H0 into Hdecs, H1 into Hret.
    set (f := FunctionDef name n body decs ret).
    assert (Hdown : forall c, child c f ->
              (visit false c = true <-> exists m, occurs_in m c /\ test m = true)).
    { intros c Hc. inversion Hc; subst.
      - exact IHn.
      - apply (proj1 (List.Forall_forall _ _) Hbody); assumption.
      - apply (proj1 (List.Forall_forall _ _) Hdecs); assumption.
      - exact Hret. }
    assert (Hup : forall c m, child c f -> occurs_in m c -> test m = true ->
              exists m', occurs_in m' f /\ test m' = true).
    { intros c m Hc Hm Ht. exists m. split; [| assumption].
      eapply occurs_below; eassumption. }
    destruct (test f) eqn:T.
    { rewrite visit_true, !visit_list_true_any.
      split; [intros _; exists f; split; [constructor | assumption] |].
      intros _. destruct ret; [apply visit_true | reflexivity]. }
    destruct (visit false n) eqn:E1.
    { rewrite !visit_list_true_any.
      split; [intros _ | intros _; destruct ret; [apply visit_true | reflexivity]].
      destruct (proj1 (Hdown n (child_FunctionDef_args _ _ _ _ _)) E1) as (m & Hm & Ht).
      eapply Hup; [apply child_FunctionDef_args | eassumption ..]. }
    destruct (visit_list visit false body) eqn:E2.
    { rewrite visit_list_true_any.
      split; [intros _ | intros _; destruct ret; [apply visit_true | reflexivity]].
      apply visit_list_false in E2 as (c & Hin & Hc).
      destruct (proj1 (Hdown c (child_FunctionDef_body _ _ _ _ _ _ Hin)) Hc)
        as (m & Hm & Ht).
      eapply Hup; [apply child_FunctionDef_body | ..]; eassumption. }
    destruct (visit_list visit false decs) eqn:E3.
    { split; [intros _ | intros _; destruct ret; [apply visit_true | reflexivity]].
      apply visit_list_false in E3 as (c & Hin & Hc).
      destruct (proj1 (Hdown c (child_FunctionDef_decorator _ _ _ _ _ _ Hin)) Hc)
        as (m & Hm & Ht).
      eapply Hup; [apply child_FunctionDef_decorator | ..]; eassumption. }
    split.
    + intros Hv. destruct ret as [r |]; [| discriminate].
      destruct (proj1 (Hdown r (child_FunctionDef_returns _ _ _ _ _)) Hv) as (m & Hm & Ht).
      eapply Hup; [apply child_FunctionDef_returns | eassumption ..].
    + intros (m & Hm & Ht). inversion Hm as [| c ? Hc Hmc]; subst; [congruence |].
      assert (Hvc : visit false c = true) by (apply (Hdown c Hc); eauto).
      inversion Hc; subst.
      * congruence.
      * assert (visit_list visit false body = true) by (apply visit_list_false; eauto).
        congruence.
      * assert (visit_list visit false decs = true) by (apply visit_list_false; eauto).
        congruence.
      * exact Hvc.
  - (* AugAssign *)
    destruct (test (AugAssign n1 op n2)) eqn:T.
    { rewrite !visit_true. split; [intros _ | reflexivity].
      exists (AugAssign n1 op n2). split; [constructor | assumption]. }
    destruct (visit false n1) eqn:E1.
    { rewrite visit_true. split; [intros _ | reflexivity].
      apply proj1 in IHn1. destruct (IHn1 eq_refl) as (m & Hm & Ht).
      exists m. split; [| assumption].
      eapply occurs_below; [apply child_AugAssign_target | assumption]. }
    rewrite IHn2. split.
    + intros (m & Hm & Ht). exists m. split; [| assumption].
      eapply occurs_below; [apply child_AugAssign_value | assumption].
    + intros (m & Hm & Ht). inversion Hm as [| c ? Hc Hmc]; subst; [congruence |].
      inversion Hc; subst; [| eauto].
      assert (false = true) by (apply IHn1; eauto). discriminate.
  - (* Node *)
    rename H into Hch.
    destruct (test (Node class children)) eqn:T.
    { rewrite visit_list_true_any. split; [intros _ | reflexivity].
      exists (Node class children). split; [constructor | assumption]. }
    rewrite visit_list_false. split.
    + intros (c & Hin & Hc).
      eapply List.Forall_forall in Hch; [| eassumption].
      destruct (proj1 Hch Hc) as (m & Hm & Ht).
      exists m. split; [| assumption].
      eapply occurs_below; [apply child_Node |]; eassumption.
    + intros (m & Hm & Ht). inversion Hm as [| c ? Hc Hmc]; subst; [congruence |].
      inversion Hc; subst. exists c. split; [assumption |].
      eapply List.Forall_forall in Hch; [| eassumption]. apply Hch. eauto.
Qed.

End Visitor.

Section Detectors.

Import App.

Lemma division_visit_children flag ns :
  (fix visit_all (flag : bool) (ns : list node) : bool :=
     match ns with
     | [] => flag
     | n' :: ns' => visit_all (division_visit flag n') ns'
     end) flag ns
  = visit_list division_visit flag ns.
Proof.
  unfold visit_list. revert flag. induction ns as [| n ns IH]; intros flag; simpl;
    [reflexivity | apply IH].
Qed.

Lemma unreachable_visit_children flag ns :
  (fix visit_all (flag : bool) (ns : list node) : bool :=
     match ns with
     | [] => flag
     | n' :: ns' => visit_all (unreachable_visit flag n') ns'
     end) flag ns
  = visit_list unreachable_visit flag ns.
Proof.
  unfold visit_list. revert flag. induction ns as [| n ns IH]; intros flag; simpl;
    [reflexivity | apply IH].
Qed.

Lemma orb_as_if (flag t : bool) : (if t then true else flag) = flag || t.
Proof. destruct flag, t; reflexivity. Qed.

(** The division visitor sets its flag exactly at the nodes [division_test]
    accepts. *)
Lemma division_visit_iff tree :
  division_visit false tree = true
  <-> exists m, occurs_in m tree /\ division_test m = true.
Proof.
  apply visit_false_iff.
  - intros flag l op r. cbn [division_visit division_test]. now rewrite orb_as_if.
  - intros flag v. cbn. now rewrite orb_false_r.
  - intros flag v. cbn [division_test]. rewrite orb_false_r. destruct v; reflexivity.
  - intros flag name args body decs ret. cbn [division_visit division_test].
    rewrite orb_false_r, !division_visit_children. destruct ret; reflexivity.
  - intros flag t op v. cbn [division_test]. now rewrite orb_false_r.
  - intros flag class children. cbn [division_visit division_test].
    now rewrite orb_false_r, division_visit_children.
Qed.

Lemma unreachable_visit_iff tree :
  unreachable_visit false tree = true
  <-> exists m, occurs_in m tree /\ unreachable_test m = true.
Proof.
  apply visit_false_iff.
  - intros flag l op r. cbn [unreachable_test]. now rewrite orb_false_r.
  - intros flag v. cbn. now rewrite orb_false_r.
  - intros flag v. cbn [unreachable_test]. rewrite orb_false_r. destruct v; reflexivity.
  - intros flag name args body decs ret. cbn [unreachable_visit unreachable_test].
    rewrite orb_as_if, !unreachable_visit_children. destruct ret; reflexivity.
  - intros flag t op v. cbn [unreachable_test]. now rewrite orb_false_r.
  - intros flag class children. cbn [unreachable_visit unreachable_test].
    now rewrite orb_false_r, unreachable_visit_children.
Qed.

(** The comparison [value == 0] of the visitor holds exactly of the literals
    equal to zero. *)
Lemma eq_zero_spec value : eq_zero value = true <-> zero_literal value.
Proof.
  split.
  - destruct value as [| b | n | x | re im | | |]; cbn [eq_zero]; try discriminate.
    + destruct b; [discriminate | constructor].
    + intros H. apply Z.eqb_eq in H as ->. constructor.
    + destruct x; try discriminate. constructor.
    + destruct re, im; try discriminate. constructor.
  - intros []; reflexivity.
Qed.

Lemma is_division_spec op : is_division op = true <-> division_operator op.
Proof.
  unfold division_operator. split.
  - destruct op; try discriminate; auto.
  - intros [-> | [-> | ->]]; reflexivity.
Qed.

Lemma division_test_spec m : division_test m = true <-> binary_zero_division m.
Proof.
  split.
  - destruct m as [l op r | | | | |]; try discriminate. cbn [division_test].
    intros H. apply andb_true_iff in H as [Hop Hr].
    destruct r as [| value | | | |]; try discriminate.
    exists l, op, value. split; [reflexivity |].
    split; [now apply is_division_spec | now apply eq_zero_spec].
  - intros (l & op & value & -> & Hop & Hz). cbn [division_test is_constant_zero].
    apply andb_true_iff. split; [now apply is_division_spec | now apply eq_zero_spec].
Qed.

(** The detector on binary operations: it reports a finding exactly when the
    tree contains a binary operation that divides by a literal zero. *)
Lemma binary_division_iff (tree : node) :
  check_division_by_zero tree = true
  <-> exists n, occurs_in n tree /\ binary_zero_division n.
Proof.
  unfold check_division_by_zero. rewrite division_visit_iff.
  split; intros (m & Hm & Ht); exists m; (split; [assumption |]);
    now apply division_test_spec.
Qed.

(** C9.  The claim fails on a division written as an augmented assignment.
    The tree of the two statements [x = 1] and [x /= 0] contains a division
    whose right-hand operand is the literal 0, and the detector reports
    nothing: it tests the nodes of class [BinOp] only.  The same division
    written as a binary operation, [x = x / 0], is reported. *)
Theorem augmented_division_missed :
  let name ctx := Node "Name" [Node ctx []] in
  let augmented :=
    Node "Module"
      [ Node "Assign" [name "Store"; Constant (CInt 1)];
        AugAssign (name "Store") Div (Constant (CInt 0)) ] in
  let binary :=
    Node "Module"
      [ Node "Assign" [name "Store"; Constant (CInt 1)];
        Node "Assign" [name "Store"; BinOp (name "Load") Div (Constant (CInt 0))] ] in
  (exists n, occurs_in n augmented /\ zero_division n) /\
  check_division_by_zero augmented = false /\
  check_division_by_zero binary = true.
Proof.
  intros name augmented binary. split; [| split; reflexivity].
  exists (AugAssign (name "Store") Div (Constant (CInt 0))). split.
  - eapply occurs_below; [| apply occurs_here].
    apply child_Node. right. left. reflexivity.
  - right. exists (name "Store"), Div, (CInt 0).
    split; [reflexivity |]. split; [now left | constructor].
Qed.

(** What the loop over a function body flags: a statement other than a
    [return] that has a [return] somewhere before it and is not the last
    statement of the body. *)
Lemma scan_body_spec (len : Z) (stmts : list node) :
  forall (i : Z) (has_return : bool),
  scan_body len i has_return stmts = true
  <-> exists (j : nat) (s : node),
        stmts !! j = Some s /\ is_return s = false /\ i + Z.of_nat j < len - 1 /\
        (has_return = true \/
         exists (k : nat) (r : node),
           (k < j)%nat /\ stmts !! k = Some r /\ is_return r = true).
Proof.
  induction stmts as [| stmt stmts IH]; intros i has_return; cbn [scan_body].
  - split; [discriminate | intros (j & s & Hs & _)]. now rewrite lookup_nil in Hs.
  - destruct (is_return stmt) eqn:R.
    + rewrite IH. split.
      * intros (j & s & Hs & Hn & Hlt & _).
        exists (S j), s. repeat split; [assumption | assumption | lia |].
        right. exists 0%nat, stmt. repeat split; [lia | assumption].
      * intros (j & s & Hs & Hn & Hlt & _).
        destruct j as [| j]; [cbn in Hs; congruence |].
        exists j, s. repeat split; [assumption | assumption | lia | now left].
    + destruct (has_return && (i <? len - 1)) eqn:G.
      * split; [intros _ | reflexivity].
        apply andb_true_iff in G as [-> G]. apply Z.ltb_lt in G.
        exists 0%nat, stmt. repeat split; [assumption | lia | now left].
      * rewrite IH. split.
        -- intros (j & s & Hs & Hn & Hlt & Hret).
           exists (S j), s. repeat split; [assumption | assumption | lia |].
           destruct Hret as [-> | (k & r & Hk & Hr & Hrr)]; [now left |].
           right. exists (S k), r. repeat split; [lia | assumption | assumption].
        -- intros (j & s & Hs & Hn & Hlt & Hret).
           destruct j as [| j].
           ++ exfalso. apply andb_false_iff in G.
              destruct Hret as [-> | (k & _ & Hk & _)]; [| lia].
              destruct G as [G | G]; [discriminate |]. apply Z.ltb_ge in G. lia.
           ++ exists j, s. repeat split; [assumption | assumption | lia |].
              destruct Hret as [-> | (k & r & Hk & Hr & Hrr)]; [now left |].
              destruct k as [| k]; [cbn in Hr; congruence |].
              right. exists k, r. repeat split; [lia | assumption | assumption].
Qed.

Lemma body_has_unreachable_spec (body : list node) :
  body_has_unreachable body = true
  <-> exists (k j : nat) (r s : node),
        (k < j)%nat /\ (S j < length body)%nat /\
        body !! k = Some r /\ is_return r = true /\
        body !! j = Some s /\ is_return s = false.
Proof.
  unfold body_has_unreachable. rewrite scan_body_spec. split.
  - intros (j & s & Hs & Hn & Hlt & [? | (k & r & Hk & Hr & Hrr)]); [discriminate |].
    exists k, j, r, s. repeat split; try assumption. lia.
  - intros (k & j & r & s & Hk & Hj & Hr & Hrr & Hs & Hn).
    exists j, s. repeat split; [assumption | assumption | lia |].
    right. exists k, r. repeat split; assumption.
Qed.

(** The unreachable-code detector reports a finding exactly when the tree
    contains a function definition whose body the loop flags. *)
Lemma unreachable_code_iff (tree : node) :
  check_unreachable_code tree = true
  <-> exists n, occurs_in n tree /\ flagged_function n.
Proof.
  unfold check_unreachable_code. rewrite unreachable_visit_iff.
  split; intros (m & Hm & Ht); exists m; (split; [assumption |]).
  - destruct m as [| | | name args body decs ret | |]; try discriminate.
    exists name, args, body, decs, ret. split; [reflexivity | exact Ht].
  - destruct Ht as (name & args & body & decs & ret & -> & Hb). exact Hb.
Qed.

(** C2.  The unreachable-code detector does not fire for a function whose
    body is [return 1] followed by [print('unreachable')]: the statement
    after the [return] is the last one of the body, and the loop only flags a
    statement that is followed by another one.  With two statements after
    the [return] it fires. *)
Theorem unreachable_last_statement_missed :
  let print_call :=
    Node "Expr" [Node "Call" [Node "Name" []; Constant (CStr "unreachable")]] in
  let def body := Node "Module" [FunctionDef "f" (Node "arguments" []) body [] None] in
  check_unreachable_code (def [Return (Some (Constant (CInt 1))); print_call]) = false /\
  check_unreachable_code
    (def [Return (Some (Constant (CInt 1))); print_call; print_call]) = true.
Proof. split; reflexivity. Qed.

End Detectors.

End Trees.

(* ===================================================================== *)
(** ** Lines stay lines *)
(* ===================================================================== *)

Section TextFacts.

Import Py.

Lemma has_char_app c (a b : string) :
  has_char c (a +:+ b) = has_char c a || has_char c b.
Proof.
  induction a as [| x a IH]; simpl; [reflexivity |].
  now rewrite IH, orb_assoc.
Qed.

Lemma one_line_app (a b : string) : one_line a -> one_line b -> one_line (a +:+ b).
Proof. unfold one_line. intros Ha Hb. now rewrite has_char_app, Ha, Hb. Qed.

Lemma one_line_lstrip s : one_line s -> one_line (lstrip s).
Proof.
  unfold one_line. induction s as [| c s IH]; simpl; [auto |].
  intros H. apply orb_false_iff in H as [Hc Hs].
  destruct (is_space c); [auto |]. simpl. now rewrite Hc, Hs.
Qed.

Lemma one_line_lstrip_char c s : one_line s -> one_line (lstrip_char c s).
Proof.
  unfold one_line. induction s as [| a s IH]; simpl; [auto |].
  intros H. apply orb_false_iff in H as [Ha Hs].
  destruct (Ascii.eqb a c); [auto |]. simpl. now rewrite Ha, Hs.
Qed.

Lemma one_line_rstrip s : one_line s -> one_line (rstrip s).
Proof.
  unfold one_line. induction s as [| c s IH]; simpl; [auto |].
  intros H. apply orb_false_iff in H as [Hc Hs].
  destruct (is_space c && is_empty (rstrip s)); [reflexivity |].
  simpl. now rewrite Hc, IH.
Qed.

Lemma lower_char_newline c :
  Ascii.eqb (lower_char c) newline = Ascii.eqb c newline.
Proof. destruct c as [[] [] [] [] [] [] [] []]; reflexivity. Qed.

Lemma one_line_lower s : one_line s -> one_line (lower s).
Proof.
  unfold one_line. induction s as [| c s IH]; simpl; [auto |].
  intros H. apply orb_false_iff in H as [Hc Hs].
  now rewrite lower_char_newline, Hc, IH.
Qed.

Lemma one_line_replace_go old new k s :
  one_line new -> one_line s -> one_line (replace_go old new k s).
Proof.
  unfold one_line. intros Hnew. revert k.
  induction s as [| c s IH]; intros k H; [reflexivity |].
  simpl in H. apply orb_false_iff in H as [Hc Hs]. cbn [replace_go].
  destruct k as [| k]; [| now apply IH].
  destruct (startswith old (String c s)).
  - rewrite has_char_app, Hnew. now apply IH.
  - simpl. rewrite Hc. now apply IH.
Qed.

Lemma all_chars_word_one_line s : all_chars is_word s = true -> one_line s.
Proof.
  unfold one_line. induction s as [| c s IH]; simpl; [auto |].
  intros H. apply andb_true_iff in H as [Hc Hs]. rewrite (IH Hs), orb_false_r.
  destruct (Ascii.eqb_spec c newline) as [-> |]; [discriminate | reflexivity].
Qed.

Lemma one_line_underscore_capitals s :
  one_line s -> one_line (AiHelper.underscore_capitals s).
Proof.
  unfold one_line. induction s as [| c s IH]; simpl; [auto |].
  intros H. apply orb_false_iff in H as [Hc Hs].
  destruct (is_upper c); simpl; now rewrite Hc, IH.
Qed.

Lemma length_app_str (a b : string) :
  String.length (a +:+ b) = (String.length a + String.length b)%nat.
Proof. induction a as [| c a IH]; simpl; [reflexivity | now rewrite IH]. Qed.

Lemma take_str_app (a b : string) : take_str (String.length a) (a +:+ b) = a.
Proof. induction a as [| c a IH]; simpl; [reflexivity | now rewrite IH]. Qed.

(** What a greedy repetition passes to its continuation: the text after a
    run of characters of the class. *)
Lemma star_match_run p prev s g k m :
  Re.star_match p prev s g k = Some m ->
  exists run s' prev',
    s = run +:+ s' /\ all_chars p run = true /\ k prev' s' g = Some m.
Proof.
  revert prev. induction s as [| c s IH]; intros prev H; simpl in H.
  - exists EmptyString, EmptyString, prev. auto.
  - destruct (p c) eqn:Hc.
    + destruct (Re.star_match p (Some c) s g k) as [m' |] eqn:E.
      * inversion H; subst m'.
        destruct (IH _ E) as (run & s' & prev' & -> & Hall & Hk).
        exists (String c run), s', prev'. simpl. rewrite Hc, Hall. auto.
      * exists EmptyString, (String c s), prev. auto.
    + exists EmptyString, (String c s), prev. auto.
Qed.

(** The group of [pre(c+)post] is a non-empty run of the class. *)
Lemma group_plus_chars (pre post : string) p s X :
  Re.search_group (cat [Re.Lit pre; Re.Grp (Re.Plus p); Re.Lit post]) s = Some X ->
  all_chars p X = true /\ X <> EmptyString.
Proof.
  unfold Re.search_group, Re.search. intros H.
  destruct (Re.search_from _ None s) as [m |] eqn:E; [| discriminate].
  eapply (search_from_inv
            (fun m => exists X, Re.group1 m = Some X /\ all_chars p X = true
                                /\ X <> EmptyString))
    in E as (X' & HX & Hall & Hne).
  - split; congruence.
  - clear. intros prev s m. cbn [cat fold_right Re.rmatch Re.Plus]. intros H.
    destruct (startswith pre s); [| discriminate].
    destruct (drop_str (String.length pre) s) as [| c s2] eqn:Es1; [discriminate |].
    destruct (p c) eqn:Hc; [| discriminate].
    apply star_match_run in H as (run & s' & prev' & -> & Hall & H).
    destruct (startswith post s'); [| discriminate].
    change (startswith "" (drop_str (String.length post) s')) with true in H.
    cbv beta iota delta [Re.accept] in H. inversion H; subst; cbn [Re.group1].
    eexists. split; [reflexivity |].
    change (String c (run +:+ s')) with (String c run +:+ s').
    match goal with
    | |- context [take_str ?n _] =>
        replace n with (String.length (String c run))
          by (simpl; rewrite length_app_str; lia)
    end.
    rewrite take_str_app. simpl. rewrite Hc, Hall. split; [reflexivity | discriminate].
Qed.

End TextFacts.

(* ===================================================================== *)
(** ** Invariants of the repair loops *)
(* ===================================================================== *)

Section LoopInvariants.

Import Py AiHelper.

Lemma placeholders_snoc imps r :
  placeholders (imps ++ [r])
  = (placeholders imps + if is_placeholder_record r then 1 else 0)%nat.
Proof.
  unfold placeholders. rewrite List.filter_app, length_app. simpl.
  destruct (is_placeholder_record r); reflexivity.
Qed.

Lemma one_line_lookup (lines : list string) k cur :
  Forall one_line lines -> lines !! k = Some cur -> one_line cur.
Proof. intros Hall Hk. eapply Forall_lookup_1; eassumption. Qed.

(** One step of the lint loop: the buffer stays a list of lines, and either
    nothing changes, or one record is appended; the buffer grows by one line
    exactly when that record is a placeholder record. *)
Lemma fix_pylint_error_step lines imps error lines' imps' :
  fix_pylint_error (lines, imps) error = Ok (lines', imps') ->
  Forall one_line lines ->
  Forall one_line lines' /\
  ((lines' = lines /\ imps' = imps) \/
   exists r, imps' = imps ++ [r] /\
     length lines' = (length lines + if is_placeholder_record r then 1 else 0)%nat).
Proof.
  intros H Hall. unfold fix_pylint_error in H.
  destruct ((ErrorMatch.line_num error - 1 >=? Z.of_nat (length lines))
            || (ErrorMatch.line_num error - 1 <? 0)) eqn:G.
  { inversion H; subst. auto. }
  apply in_range_nat in G as (k & Hk & Hlt). rewrite Hk in H.
  destruct (lookup_lt_is_Some_2 lines k Hlt) as [cur Hcur].
  pose proof (one_line_lookup _ _ _ Hall Hcur) as Hone.
  rewrite (getitem_in_range _ _ _ Hcur) in H. cbn [bind] in H.
  repeat rewrite (setitem_in_range lines k) in H by assumption. cbn [bind] in H.
  destruct (String.eqb _ "E0602").
  { destruct (Re.search_group _ _) as [name |] eqn:E.
    2:{ inversion H; subst. auto. }
    apply group_plus_chars in E as [Hw _]. apply all_chars_word_one_line in Hw.
    rewrite insert_in_range in H by lia. inversion H; subst. split.
    - apply Forall_app. split; [now apply Forall_take |].
      constructor; [| now apply Forall_drop].
      apply one_line_app; [assumption | reflexivity].
    - right. eexists. split; [reflexivity |].
      rewrite length_app, length_take. cbn [length]. rewrite length_drop.
      change (is_placeholder_record _) with true. cbv iota. lia. }
  destruct (String.eqb _ "W0611").
  { destruct (Re.search_group _ _) as [name |] eqn:E.
    2:{ inversion H; subst. auto. }
    destruct (contains _ cur).
    2:{ inversion H; subst. auto. }
    inversion H; subst. split.
    - apply Forall_insert; [assumption |].
      repeat apply one_line_app; solve [assumption | reflexivity].
    - right. eexists. split; [reflexivity |]. rewrite length_insert.
      change (is_placeholder_record _) with false. cbv iota. lia. }
  destruct (String.eqb _ "C0103").
  { destruct (Re.search_group _ _) as [name |] eqn:E.
    2:{ inversion H; subst. auto. }
    apply group_plus_chars in E as [Hw Hne]. apply all_chars_word_one_line in Hw.
    apply first_char_ok in Hne as (c & s' & -> & Hfirst).
    rewrite Hfirst in H. cbn [bind] in H.
    destruct (negb _).
    2:{ inversion H; subst. auto. }
    rewrite (setitem_in_range lines k) in H by assumption. cbn [bind] in H.
    assert (Hsug : one_line (lstrip_char "_" (lower (underscore_capitals (String c s')))))
      by now apply one_line_lstrip_char, one_line_lower, one_line_underscore_capitals.
    injection H as <- <-. split.
    - apply Forall_insert; [assumption |].
      apply one_line_replace_go; [| assumption].
      cbn [underscore_capitals] in Hsug. destruct (is_upper c); assumption.
    - right. eexists. split; [reflexivity |]. rewrite length_insert.
      change (is_placeholder_record _) with false. cbv iota. lia. }
  destruct (String.eqb _ "W0612").
  { destruct (Re.search_group _ _) as [name |] eqn:E.
    2:{ inversion H; subst. auto. }
    destruct (Re.found _ cur).
    2:{ inversion H; subst. auto. }
    inversion H; subst. split.
    - apply Forall_insert; [assumption |].
      repeat apply one_line_app; solve [assumption | reflexivity].
    - right. eexists. split; [reflexivity |]. rewrite length_insert.
      change (is_placeholder_record _) with false. cbv iota. lia. }
  inversion H; subst. auto.
Qed.

Lemma fix_pylint_loop_inv errors :
  forall lines imps lines' imps',
  for_each fix_pylint_error errors (lines, imps) = Ok (lines', imps') ->
  Forall one_line lines ->
  Forall one_line lines' /\
  (length lines' + placeholders imps = length lines + placeholders imps')%nat /\
  (length imps' <= length imps + length errors)%nat.
Proof.
  induction errors as [| e errors IH]; intros lines imps lines' imps' H Hall.
  - inversion H; subst. split; [assumption | split; [lia | simpl; lia]].
  - cbn [for_each] in H.
    destruct (fix_pylint_error (lines, imps) e) as [[lines1 imps1] | ex] eqn:E;
      [| discriminate].
    cbn [bind] in H.
    destruct (fix_pylint_error_step _ _ _ _ _ E Hall) as [Hall1 Hstep].
    destruct (IH _ _ _ _ H Hall1) as (Hall' & Hlen & Himps).
    split; [assumption |].
    destruct Hstep as [[-> ->] | (r & -> & Hl)].
    + split; [assumption | simpl; lia].
    + rewrite placeholders_snoc in Hlen. rewrite length_app in Himps. simpl in *.
      split; lia.
Qed.

(** One step of the syntax loop that does not raise: the buffer keeps its
    length and stays a list of lines, at most one record is appended, and
    for a positive line number only the line the diagnostic names can
    change. *)
Lemma fix_syntax_error_step lines imps error lines' imps' :
  fix_syntax_error (lines, imps) error = Ok (lines', imps') ->
  Forall one_line lines ->
  Forall one_line lines' /\
  length lines' = length lines /\
  (imps' = imps \/ exists r, imps' = imps ++ [r]) /\
  (forall n (j : nat), SyntaxErr.line error = Some n -> 1 <= n ->
     Z.of_nat j <> n - 1 -> lines' !! j = lines !! j).
Proof.
  intros H Hall. unfold fix_syntax_error in H.
  destruct (SyntaxErr.line error) as [n |]; [| discriminate].
  destruct (n - 1 >=? Z.of_nat (length lines)) eqn:G.
  { inversion H; subst. auto 6. }
  unfold getitem, setitem in H.
  destruct (index (length lines) (n - 1)) as [k |] eqn:Ek; [| discriminate].
  destruct (lines !! k) as [cur |] eqn:Hcur; [| discriminate].
  pose proof (one_line_lookup _ _ _ Hall Hcur) as Hone.
  assert (Hother : forall x n0 (j : nat), Some n = Some n0 -> 1 <= n0 ->
            Z.of_nat j <> n0 - 1 -> <[k:=x]> lines !! j = lines !! j).
  { intros x n0 j Hn Hpos Hj. inversion Hn; subst n0.
    apply list_lookup_insert_ne. unfold index in Ek.
    rewrite Z.geb_leb in G. apply Z.leb_gt in G.
    destruct ((0 <=? n - 1) && (n - 1 <? Z.of_nat (length lines))) eqn:B.
    - inversion Ek; subst. lia.
    - apply andb_false_iff in B. rewrite Z.leb_gt, Z.ltb_ge in B. lia. }
  cbn [bind] in H.
  repeat match type of H with
         | (if ?b then _ else _) = _ => destruct b
         end;
    inversion H; subst;
    try (split; [assumption | split; [reflexivity | split; [now left | reflexivity]]]);
    (split; [apply Forall_insert; [assumption |] |
             split; [apply length_insert | split; [right; eauto | apply Hother]]]).
  - apply one_line_app; [now apply one_line_rstrip | reflexivity].
  - apply one_line_app; [assumption | reflexivity].
  - apply one_line_app; [assumption | reflexivity].
  - apply one_line_app; [assumption | reflexivity].
  - now apply one_line_lstrip.
  - apply one_line_app; [reflexivity | assumption].
Qed.

Lemma fix_syntax_loop_inv errors :
  forall lines imps lines' imps',
  for_each fix_syntax_error errors (lines, imps) = Ok (lines', imps') ->
  Forall one_line lines ->
  Forall one_line lines' /\
  length lines' = length lines /\
  (length imps' <= length imps + length errors)%nat /\
  (Forall positive_line errors ->
   forall j : nat,
     Forall (fun e => SyntaxErr.line e <> Some (Z.of_nat j + 1)) errors ->
     lines' !! j = lines !! j).
Proof.
  induction errors as [| e errors IH]; intros lines imps lines' imps' H Hall.
  - inversion H; subst.
    split; [assumption | split; [reflexivity | split; [simpl; lia | reflexivity]]].
  - cbn [for_each] in H.
    destruct (fix_syntax_error (lines, imps) e) as [[lines1 imps1] | ex] eqn:E;
      [| discriminate].
    cbn [bind] in H.
    destruct (fix_syntax_error_step _ _ _ _ _ E Hall) as (Hall1 & Hlen1 & Himps1 & Hoth1).
    destruct (IH _ _ _ _ H Hall1) as (Hall' & Hlen & Himps & Hoth).
    split; [assumption |]. split; [congruence |]. split.
    + destruct Himps1 as [-> | (r & ->)]; [simpl; lia |].
      rewrite length_app in Himps. simpl in *. lia.
    + intros Hpos j Hj. inversion Hpos as [| ? ? (n & Hn & Hn1) Hpos']; subst.
      inversion Hj as [| ? ? Hje Hj']; subst.
      rewrite (Hoth Hpos' j Hj'). apply (Hoth1 n j Hn Hn1).
      intros Heq. apply Hje. rewrite Hn. f_equal. lia.
Qed.

End LoopInvariants.

(* ===================================================================== *)
(** ** Further properties of the repair passes *)
(* ===================================================================== *)

Section PassProperties.

Import Py AiHelper.

Lemma split_lines_one_line code : Forall one_line (split newline code).
Proof. apply split_no_sep. Qed.

Lemma split_join_lines lines :
  lines <> [] -> Forall one_line lines -> split newline (join nl lines) = lines.
Proof. intros Hne Hall. now apply split_join. Qed.

Lemma nonempty_of_length {A : Type} (l l' : list A) :
  (length l <= length l')%nat -> l <> [] -> l' <> [].
Proof. destruct l, l'; simpl; intros; try congruence; lia. Qed.

(** X1.  The lint pass never raises, whatever the source and the
    diagnostics.  It appends at most one record per diagnostic, and the
    repaired text has exactly as many lines as the source plus one for each
    placeholder record. *)
Theorem lint_pass_total (code : string) (errors : list ErrorMatch.t) :
  exists repaired imps,
    fix_pylint_errors code errors = Ok (repaired, imps) /\
    (length imps <= length errors)%nat /\
    length (split newline repaired)
    = (length (split newline code) + placeholders imps)%nat.
Proof.
  unfold fix_pylint_errors.
  destruct (for_each_ok fix_pylint_error (fun _ => True)
              (fun s x _ => fix_pylint_error_ok s x) errors
              (split newline code, []))
    as [[lines imps] Hloop]; [now apply List.Forall_forall |].
  rewrite Hloop. cbn [bind]. exists (join nl lines), imps.
  destruct (fix_pylint_loop_inv _ _ _ _ _ Hloop (split_lines_one_line code))
    as (Hall & Hlen & Himps).
  change (placeholders []) with 0%nat in Hlen. simpl in Himps.
  split; [reflexivity |]. split; [exact Himps |].
  rewrite split_join_lines; [lia | | assumption].
  apply (nonempty_of_length (split newline code)); [lia | apply split_nonempty].
Qed.

Lemma fix_pylint_loop_skip errors lines imps :
  Forall (fun e => ErrorMatch.line_num e <= 0 \/
                   Z.of_nat (length lines) < ErrorMatch.line_num e) errors ->
  for_each fix_pylint_error errors (lines, imps) = Ok (lines, imps).
Proof.
  induction 1 as [| e errors He _ IH]; [reflexivity |].
  cbn [for_each]. rewrite fix_pylint_error_skip by lia. exact IH.
Qed.

Lemma fix_pylint_errors_skip_all (code : string) (errors : list ErrorMatch.t) :
  Forall (fun e => ErrorMatch.line_num e <= 0 \/
                   Z.of_nat (length (split newline code)) < ErrorMatch.line_num e)
    errors ->
  fix_pylint_errors code errors = Ok (code, []).
Proof.
  intros H. unfold fix_pylint_errors. rewrite fix_pylint_loop_skip by assumption.
  cbn [bind]. unfold nl. now rewrite join_split.
Qed.

(** X2.  Diagnostics whose line number is zero or negative (the classifier
    gives 0 when it finds no line number) or lies past the last line change
    nothing: the lint pass returns the source text as it was, and no
    record. *)
Theorem lint_pass_out_of_range (code : string) (errors : list ErrorMatch.t) :
  Forall (fun e => ErrorMatch.line_num e <= 0 \/
                   Z.of_nat (length (split newline code)) < ErrorMatch.line_num e)
    errors ->
  fix_pylint_errors code errors = Ok (code, []).
Proof. apply fix_pylint_errors_skip_all. Qed.

(** X3.  The syntax pass keeps the number of lines: whenever it returns, the
    repaired text has exactly as many lines as the source, and at most one
    record per diagnostic.  It returns whenever every diagnostic has a
    positive line number. *)
Theorem syntax_pass_keeps_lines (code : string) (errors : list SyntaxErr.t) :
  (forall repaired imps,
     fix_syntax_errors code errors = Ok (repaired, imps) ->
     length (split newline repaired) = length (split newline code) /\
     (length imps <= length errors)%nat) /\
  (Forall positive_line errors ->
   exists repaired imps, fix_syntax_errors code errors = Ok (repaired, imps)).
Proof.
  split; [| apply fix_syntax_errors_ok].
  intros repaired imps H. unfold fix_syntax_errors in H.
  destruct (for_each fix_syntax_error errors (split newline code, []))
    as [[lines imps'] | ex] eqn:Hloop; [| discriminate].
  cbn [bind] in H. injection H as <- <-.
  destruct (fix_syntax_loop_inv _ _ _ _ _ Hloop (split_lines_one_line code))
    as (Hall & Hlen & Himps & _).
  split; [| exact Himps].
  rewrite split_join_lines; [exact Hlen | | assumption].
  apply (nonempty_of_length (split newline code)); [lia | apply split_nonempty].
Qed.

(** X4.  The syntax pass only touches the lines its diagnostics name: with
    positive line numbers, a line of the source that no diagnostic names is
    found unchanged at the same position of the repaired text. *)
Theorem syntax_pass_other_lines (code : string) (errors : list SyntaxErr.t)
    (repaired : string) (imps : list Improvement) (j : nat) (l : string) :
  Forall positive_line errors ->
  fix_syntax_errors code errors = Ok (repaired, imps) ->
  Forall (fun e => SyntaxErr.line e <> Some (Z.of_nat j + 1)) errors ->
  split newline code !! j = Some l ->
  split newline repaired !! j = Some l.
Proof.
  intros Hpos H Hj Hl. unfold fix_syntax_errors in H.
  destruct (for_each fix_syntax_error errors (split newline code, []))
    as [[lines imps'] | ex] eqn:Hloop; [| discriminate].
  cbn [bind] in H. injection H as <- <-.
  destruct (fix_syntax_loop_inv _ _ _ _ _ Hloop (split_lines_one_line code))
    as (Hall & Hlen & _ & Hother).
  rewrite split_join_lines; [| | assumption].
  - now rewrite (Hother Hpos j Hj).
  - apply (nonempty_of_length (split newline code)); [lia | apply split_nonempty].
Qed.

End PassProperties.

(** X2 at a diagnostic without a line number. *)
Lemma lint_pass_out_of_range_witness :
  AiHelper.fix_pylint_errors (Py.join AiHelper.nl ["import os"; "print(1)"])
    [ {| AiHelper.ErrorMatch.code := "W0611";
         AiHelper.ErrorMatch.line_num := 0;
         AiHelper.ErrorMatch.message := "tmp.py:1:0: W0611: Unused import os (unused-import)" |} ]
  = Py.Ok (Py.join AiHelper.nl ["import os"; "print(1)"], []).
Proof.
  apply lint_pass_out_of_range. constructor; [| constructor]. left. simpl. lia.
Defined.

(** X4 at a source with a missing colon on its first line: the second line
    is kept. *)
Lemma syntax_pass_other_lines_witness :
  Py.split Py.newline (Py.join AiHelper.nl ["if True:"; "    print(1)"]) !! 1%nat
  = Some "    print(1)".
Proof.
  apply (syntax_pass_other_lines (Py.join AiHelper.nl ["if True"; "    print(1)"])
           [ {| AiHelper.SyntaxErr.line := Some 1;
                AiHelper.SyntaxErr.column := Some 8;
                AiHelper.SyntaxErr.message := "expected ':' (<unknown>, line 1)" |} ]
           (Py.join AiHelper.nl ["if True:"; "    print(1)"])
           [ {| AiHelper.issue := "Missing colon at line 1";
                AiHelper.solution := "Added missing colon after statement" |} ]
           1 "    print(1)").
  - constructor; [| constructor]. exists 1. split; [reflexivity | lia].
  - vm_compute. reflexivity.
  - constructor; [| constructor]. simpl. intros H. inversion H.
  - reflexivity.
Defined.

(* ===================================================================== *)
(** ** Further properties of the engine *)
(* ===================================================================== *)

Section EngineProperties.

Import Py AiHelper.

Variable ast_parse : string -> option SyntaxErr.t.

Lemma match_error_line_no_number line :
  Re.search_group line_re line = None ->
  Forall (fun m => ErrorMatch.line_num m = 0) (match_error_line line).
Proof.
  intros H. unfold match_error_line. rewrite H.
  destruct (Re.search_group pylint_code_re line); [repeat constructor |].
  destruct (existsb _ _); constructor.
Qed.

Lemma pattern_branch_keeps out ec wc c imps ex tip c' imps' ex' tip' :
  pattern_branch out ec wc (c, imps, ex, tip) = Ok (c', imps', ex', tip') ->
  c' = c /\
  ((imps' = imps /\ ex' = ex /\ tip' = tip) \/
   (imps = [] /\ ex' = analysis_explanation /\ tip' = analysis_tip)).
Proof.
  unfold pattern_branch. destruct imps as [| i rest]; cbn [is_nil andb].
  - destruct ((ec >? 0) || (wc >? 0)).
    + destruct (for_each _ _ _); cbn [bind]; [| discriminate].
      intros H. injection H as <- <- <- <-. auto.
    + intros H. injection H as <- <- <- <-. auto.
  - intros H. injection H as <- <- <- <-. auto.
Qed.

Lemma practices_branch_keeps code c imps ex tip c' imps' ex' tip' :
  practices_branch code (c, imps, ex, tip) = (c', imps', ex', tip') ->
  c' = c /\
  ((imps' = imps /\ imps <> [] /\ ex' = ex /\ tip' = tip) \/
   (imps = [] /\ ex' = practices_explanation /\ tip' = practices_tip)).
Proof.
  unfold practices_branch. destruct imps as [| i rest]; cbn [is_nil].
  - intros H. injection H as <- <- <- <-. auto.
  - intros H. injection H as <- <- <- <-. split; [reflexivity |]. left.
    repeat split. discriminate.
Qed.

(** What the first branch leaves: the texts of the pass that ran, or
    nothing at all. *)
Lemma repair_branch_shape code syntax_errors error_matches c imps ex tip :
  repair_branch code syntax_errors error_matches (code, [], "", "")
  = Ok (c, imps, ex, tip) ->
  (ex = syntax_explanation /\ tip = syntax_tip) \/
  (ex = pylint_explanation /\ tip = pylint_tip) \/
  (c = code /\ imps = [] /\ ex = "" /\ tip = "").
Proof.
  unfold repair_branch.
  destruct (negb (is_nil syntax_errors)).
  { destruct (fix_syntax_errors _ _) as [[c1 new] |]; cbn [bind]; [| discriminate].
    intros H. injection H as <- <- <- <-. auto. }
  destruct (negb (is_nil error_matches)).
  { destruct (fix_pylint_errors _ _) as [[c1 new] |]; cbn [bind]; [| discriminate].
    intros H. injection H as <- <- <- <-. auto. }
  intros H. injection H as <- <- <- <-. auto 6.
Qed.

Lemma engine_returns code out ec wc :
  (forall e, ast_parse code = Some e -> positive_line e) ->
  exists r, get_improvement_suggestions ast_parse code out ec wc = Ok r.
Proof.
  intros Hparse.
  destruct (run_branches_ok ast_parse code out ec wc Hparse)
    as [[[[c imps] ex] tip] Hrun].
  unfold get_improvement_suggestions. rewrite Hrun. cbn [bind]. eauto.
Qed.

(** X5.  The explanation and the learning tip of a result always come as
    one of four fixed pairs: the syntax texts, the lint texts, the analysis
    texts or the best-practice texts.  The generic texts of the [return]
    statement are never used. *)
Theorem explanation_pairs (code analysis_output : string)
    (error_count warning_count : Z) (r : Suggestions) :
  get_improvement_suggestions ast_parse code analysis_output error_count warning_count
    = Ok r ->
  (explanation r = syntax_explanation /\ learning_tip r = syntax_tip) \/
  (explanation r = pylint_explanation /\ learning_tip r = pylint_tip) \/
  (explanation r = analysis_explanation /\ learning_tip r = analysis_tip) \/
  (explanation r = practices_explanation /\ learning_tip r = practices_tip).
Proof.
  intros Hr. apply response_of_branches in Hr as (c & imps & ex & tip & Hrun & ->).
  cbn [explanation learning_tip]. unfold run_branches in Hrun.
  destruct (repair_branch _ _ _ _) as [[[[c1 imps1] ex1] tip1] |] eqn:E1;
    cbn [bind] in Hrun; [| discriminate].
  destruct (pattern_branch _ _ _ _) as [[[[c2 imps2] ex2] tip2] |] eqn:E2;
    cbn [bind] in Hrun; [| discriminate].
  injection Hrun as Hrun.
  apply repair_branch_shape in E1. apply pattern_branch_keeps in E2 as [_ E2].
  apply practices_branch_keeps in Hrun as [_ Hrun].
  destruct Hrun as [(Hi & Hne & Hex & Htip) | (_ & Hex & Htip)]; subst ex tip;
    [| auto 6].
  destruct E2 as [(Hi2 & Hex2 & Htip2) | (_ & Hex2 & Htip2)]; subst ex2 tip2;
    [| auto 6].
  destruct E1 as [[Hex1 Htip1] | [[Hex1 Htip1] | (_ & Hi1 & _ & _)]];
    [subst; auto | subst; auto |].
  congruence.
Qed.

(** Where the repaired source comes from: the fallbacks never change it. *)
Lemma improved_code_origin code out ec wc r :
  get_improvement_suggestions ast_parse code out ec wc = Ok r ->
  match ast_parse code with
  | Some e => exists imps, fix_syntax_errors code [e] = Ok (improved_code r, imps)
  | None =>
      match extract_error_matches out with
      | [] => improved_code r = code
      | ms => exists imps, fix_pylint_errors code ms = Ok (improved_code r, imps)
      end
  end.
Proof.
  intros Hr. apply response_of_branches in Hr as (c & imps & ex & tip & Hrun & ->).
  cbn [improved_code]. unfold run_branches in Hrun.
  destruct (repair_branch _ _ _ _) as [[[[c1 imps1] ex1] tip1] |] eqn:E1;
    cbn [bind] in Hrun; [| discriminate].
  destruct (pattern_branch _ _ _ _) as [[[[c2 imps2] ex2] tip2] |] eqn:E2;
    cbn [bind] in Hrun; [| discriminate].
  injection Hrun as Hrun.
  apply pattern_branch_keeps in E2 as [-> _].
  apply practices_branch_keeps in Hrun as [-> _].
  unfold repair_branch in E1.
  destruct (ast_parse code) as [e |]; cbn [is_nil negb] in E1.
  - destruct (fix_syntax_errors code [e]) as [[c0 new] |]; cbn [bind] in E1;
      [| discriminate].
    injection E1 as <- _ _ _. eauto.
  - destruct (extract_error_matches out) as [| m ms]; cbn [is_nil negb] in E1.
    + now injection E1 as <- _ _ _.
    + destruct (fix_pylint_errors code (m :: ms)) as [[c0 new] |]; cbn [bind] in E1;
        [| discriminate].
      injection E1 as <- _ _ _. eauto.
Qed.

(** A line without the text [line ] has no match of [line (\d+)]. *)
Lemma line_re_needs_text (line : string) :
  contains "line " line = false -> Re.search_group line_re line = None.
Proof.
  unfold Re.search_group, Re.search. generalize (@None ascii) as prev.
  induction line as [| c line IH]; intros prev H.
  - reflexivity.
  - cbn [contains] in H. apply orb_false_iff in H as [Hhere Hlater].
    cbn [Re.search_from]. unfold line_re at 1, cat at 1.
    cbn [fold_right Re.rmatch]. rewrite Hhere. now apply IH.
Qed.

(** X6.  A report in which no line contains the text [line ] never leads to
    an edit (the linter's own lines give the position as
    [path:line:column]): when the source parses, no pattern [line (\d+)]
    can match, every diagnostic gets line number 0, the lint pass skips it,
    and the engine returns the source text unchanged. *)
Theorem report_without_line_numbers (code analysis_output : string)
    (error_count warning_count : Z) :
  ast_parse code = None ->
  (forall line, In line (split newline analysis_output) ->
                contains "line " line = false) ->
  exists r,
    get_improvement_suggestions ast_parse code analysis_output error_count warning_count
      = Ok r /\
    improved_code r = code.
Proof.
  intros Hparse Hlines.
  destruct (engine_returns code analysis_output error_count warning_count) as [r Hr].
  { intros e He. congruence. }
  exists r. split; [exact Hr |].
  apply improved_code_origin in Hr. rewrite Hparse in Hr.
  assert (Hzero : Forall (fun m => ErrorMatch.line_num m = 0)
                    (extract_error_matches analysis_output)).
  { unfold extract_error_matches. apply List.Forall_flat_map, List.Forall_forall.
    intros line Hin. now apply match_error_line_no_number, line_re_needs_text, Hlines. }
  destruct (extract_error_matches analysis_output) as [| m ms]; [exact Hr |].
  destruct Hr as [imps Hfix].
  rewrite fix_pylint_errors_skip_all in Hfix; [congruence |].
  eapply Forall_impl; [exact Hzero |]. intros x Hx. left. cbn beta in Hx. lia.
Qed.

End EngineProperties.

Section CleanSource.

Import Py AiHelper.

Variable ast_parse : string -> option SyntaxErr.t.

(** Searching for literal text is the substring test. *)
Lemma found_Lit (l s : string) : Re.found (Re.Lit l) s = contains l s.
Proof.
  unfold Re.found, Re.search. generalize (@None ascii) as prev.
  induction s as [| c s IH]; intros prev.
  - cbn [Re.search_from Re.rmatch contains]. destruct (startswith l ""); reflexivity.
  - cbn [Re.search_from Re.rmatch contains].
    destruct (startswith l (String c s)); [reflexivity |].
    cbn [orb]. apply IH.
Qed.

(** X7.  A source that parses, with a report in which no line is
    classified and with both prior counts at zero, comes back unchanged with
    the best-practice texts; when it contains neither [def] nor [except:]
    the repairs are exactly the one record saying that no specific issue was
    found.  The empty source is such a source. *)
Theorem clean_source_result (code analysis_output : string)
    (error_count warning_count : Z) :
  ast_parse code = None ->
  extract_error_matches analysis_output = [] ->
  error_count <= 0 -> warning_count <= 0 ->
  contains "def" code = false ->
  contains "except:" code = false ->
  get_improvement_suggestions ast_parse code analysis_output error_count warning_count
  = Ok {| improved_code := code;
          explanation := practices_explanation;
          improvements := [no_issues];
          learning_tip := practices_tip |}.
Proof.
  intros Hparse Hmatches Hec Hwc Hdef Hexcept.
  unfold get_improvement_suggestions, run_branches, repair_branch, pattern_branch,
    practices_branch.
  rewrite Hparse, Hmatches. cbn [is_nil negb bind andb].
  replace ((error_count >? 0) || (warning_count >? 0)) with false.
  2:{ symmetry. apply orb_false_iff. rewrite !Z.gtb_ltb, !Z.ltb_ge. lia. }
  cbn [bind is_nil]. unfold bare_except_re. rewrite found_Lit, Hdef, Hexcept.
  reflexivity.
Qed.

End CleanSource.

(** X5 at a clean source. *)
Lemma explanation_pairs_witness :
  let r := {| AiHelper.improved_code := "x = 1";
              AiHelper.explanation := AiHelper.practices_explanation;
              AiHelper.improvements := [AiHelper.no_issues];
              AiHelper.learning_tip := AiHelper.practices_tip |} in
  (AiHelper.explanation r = AiHelper.syntax_explanation /\
   AiHelper.learning_tip r = AiHelper.syntax_tip) \/
  (AiHelper.explanation r = AiHelper.pylint_explanation /\
   AiHelper.learning_tip r = AiHelper.pylint_tip) \/
  (AiHelper.explanation r = AiHelper.analysis_explanation /\
   AiHelper.learning_tip r = AiHelper.analysis_tip) \/
  (AiHelper.explanation r = AiHelper.practices_explanation /\
   AiHelper.learning_tip r = AiHelper.practices_tip).
Proof.
  intros r. apply (explanation_pairs (fun _ => None) "x = 1" "" 0 0 r).
  vm_compute. reflexivity.
Defined.

(** X6 at the line the linter prints for an unused import. *)
Lemma report_without_line_numbers_witness :
  exists r,
    AiHelper.get_improvement_suggestions (fun _ => None) "import os"
      "tmp.py:1:0: W0611: Unused import os (unused-import)" 0 1 = Py.Ok r /\
    AiHelper.improved_code r = "import os".
Proof.
  apply (report_without_line_numbers (fun _ => None) "import os"
           "tmp.py:1:0: W0611: Unused import os (unused-import)" 0 1).
  - reflexivity.
  - intros line [<- | []]. vm_compute. reflexivity.
Defined.

(** X7 at the empty source. *)
Lemma clean_source_result_witness :
  AiHelper.get_improvement_suggestions (fun _ => None) "" "" 0 0
  = Py.Ok {| AiHelper.improved_code := "";
             AiHelper.explanation := AiHelper.practices_explanation;
             AiHelper.improvements := [AiHelper.no_issues];
             AiHelper.learning_tip := AiHelper.practices_tip |}.
Proof.
  apply (clean_source_result (fun _ => None) "" "" 0 0); try reflexivity; lia.
Defined.

(* ===================================================================== *)
(** ** The naming remedy *)
(* ===================================================================== *)

Section Naming.

Import Py AiHelper.

Lemma lower_char_not_upper c : not_upper (lower_char c) = true.
Proof. destruct c as [[] [] [] [] [] [] [] []]; reflexivity. Qed.

Lemma lower_not_upper s : all_chars not_upper (lower s) = true.
Proof.
  induction s as [| c s IH]; simpl; [reflexivity |].
  now rewrite lower_char_not_upper, IH.
Qed.

Lemma all_chars_lstrip_char p c s :
  all_chars p s = true -> all_chars p (lstrip_char c s) = true.
Proof.
  induction s as [| a s IH]; simpl; [auto |].
  intros H. apply andb_true_iff in H as [Ha Hs].
  destruct (Ascii.eqb a c); [auto |]. simpl. now rewrite Ha, Hs.
Qed.

Lemma lstrip_char_head c s : startswith (String c "") (lstrip_char c s) = false.
Proof.
  induction s as [| a s IH]; simpl; [reflexivity |].
  destruct (Ascii.eqb a c) eqn:E; [exact IH |].
  simpl. rewrite Ascii.eqb_sym in E. now rewrite E.
Qed.

Lemma underscore_capitals_id s :
  all_chars not_upper s = true -> underscore_capitals s = s.
Proof.
  induction s as [| c s IH]; simpl; [reflexivity |].
  intros H. apply andb_true_iff in H as [Hc Hs]. unfold not_upper in Hc.
  apply negb_true_iff in Hc. now rewrite Hc, IH.
Qed.

Lemma lower_char_id c : not_upper c = true -> lower_char c = c.
Proof.
  unfold not_upper, lower_char. intros H. apply negb_true_iff in H. now rewrite H.
Qed.

Lemma lower_id s : all_chars not_upper s = true -> lower s = s.
Proof.
  induction s as [| c s IH]; simpl; [reflexivity |].
  intros H. apply andb_true_iff in H as [Hc Hs]. now rewrite lower_char_id, IH.
Qed.

Lemma lstrip_char_id c s :
  startswith (String c "") s = false -> lstrip_char c s = s.
Proof.
  destruct s as [| a s]; simpl; [reflexivity |].
  intros H. rewrite andb_true_r in H. rewrite Ascii.eqb_sym in H. now rewrite H.
Qed.

(** X8.  The name the lint pass derives for an invalid name (an underscore
    before every capital, lower case, leading underscores stripped) contains
    no capital letter and does not start with an underscore; deriving a name
    from it again gives the same name. *)
Theorem derived_name_conforms (name : string) :
  let derived := lstrip_char "_" (lower (underscore_capitals name)) in
  all_chars not_upper derived = true /\
  startswith "_" derived = false /\
  lstrip_char "_" (lower (underscore_capitals derived)) = derived.
Proof.
  intros derived.
  assert (H1 : all_chars not_upper derived = true)
    by apply all_chars_lstrip_char, lower_not_upper.
  assert (H2 : startswith "_" derived = false) by apply lstrip_char_head.
  split; [exact H1 |]. split; [exact H2 |].
  now rewrite underscore_capitals_id, lower_id, lstrip_char_id.
Qed.

(** X9.  A [C0103] diagnostic for a name without capital letters and
    without a leading underscore changes nothing, wherever its line number
    points: the buffer and the records are left as they are. *)
Theorem conforming_name_untouched lines imps error name :
  ErrorMatch.code error = "C0103" ->
  Re.search_group invalid_name_re (ErrorMatch.message error) = Some name ->
  all_chars not_upper name = true ->
  startswith "_" name = false ->
  fix_pylint_error (lines, imps) error = Ok (lines, imps).
Proof.
  intros Hcode Hname Hlow Hhead. unfold fix_pylint_error.
  destruct ((ErrorMatch.line_num error - 1 >=? Z.of_nat (length lines))
            || (ErrorMatch.line_num error - 1 <? 0)) eqn:G; [reflexivity |].
  apply in_range_nat in G as (k & -> & Hk).
  destruct (lookup_lt_is_Some_2 lines k Hk) as [cur Hcur].
  rewrite (getitem_in_range _ _ _ Hcur). cbn [bind].
  rewrite Hcode, Hname.
  change (("C0103" =? "E0602")%string) with false.
  change (("C0103" =? "W0611")%string) with false.
  change (("C0103" =? "C0103")%string) with true. cbv iota.
  pose proof Hname as Hne.
  apply group_plus_nonempty, first_char_ok in Hne as (c & s' & Heq & ->).
  cbn [bind].
  rewrite underscore_capitals_id, lower_id, lstrip_char_id by assumption.
  destruct (is_upper c); now rewrite String.eqb_refl.
Qed.

End Naming.

(** X9 at a snake-case name. *)
Lemma conforming_name_untouched_witness :
  AiHelper.fix_pylint_error (["my_var = 1"], [])
    {| AiHelper.ErrorMatch.code := "C0103";
       AiHelper.ErrorMatch.line_num := 1;
       AiHelper.ErrorMatch.message := "Invalid name " +:+ dq +:+ "my_var" +:+ dq |}
  = Py.Ok (["my_var = 1"], []).
Proof.
  apply (conforming_name_untouched ["my_var = 1"] []
           {| AiHelper.ErrorMatch.code := "C0103";
              AiHelper.ErrorMatch.line_num := 1;
              AiHelper.ErrorMatch.message := "Invalid name " +:+ dq +:+ "my_var" +:+ dq |}
           "my_var"); reflexivity.
Defined.

(* ===================================================================== *)
(** ** The classifiers: what they produce *)
(* ===================================================================== *)

Section Classifiers.

Import Py.

(** The code [pylint_code_re] finds has the shape of a linter code. *)
Lemma pylint_code_shape s X :
  Re.search_group AiHelper.pylint_code_re s = Some X -> is_pylint_code X = true.
Proof.
  unfold Re.search_group, Re.search. intros H.
  destruct (Re.search_from _ None s) as [m |] eqn:E; [| discriminate].
  eapply (search_from_inv
            (fun m => exists X, Re.group1 m = Some X /\ is_pylint_code X = true))
    in E as (X' & HX & Hshape).
  - congruence.
  - clear. intros prev s m.
    unfold AiHelper.pylint_code_re. cbn [cat fold_right Re.rmatch]. intros H.
    destruct s as [| c1 s]; [discriminate |].
    destruct (Re.one_of "EWRFC" c1) eqn:H1; [| discriminate].
    destruct s as [| c2 s]; [discriminate |].
    destruct (is_digit c2) eqn:H2; [| discriminate].
    destruct s as [| c3 s]; [discriminate |].
    destruct (is_digit c3) eqn:H3; [| discriminate].
    destruct s as [| c4 s]; [discriminate |].
    destruct (is_digit c4) eqn:H4; [| discriminate].
    destruct s as [| c5 s]; [discriminate |].
    destruct (is_digit c5) eqn:H5; [| discriminate].
    change (startswith "" s) with true in H. cbv beta iota delta [Re.accept] in H.
    inversion H; subst; cbn [Re.group1]. eexists. split; [reflexivity |].
    cbn [String.length drop_str].
    replace (S (S (S (S (S (String.length s))))) - String.length s)%nat with 5%nat by lia.
    cbn [take_str is_pylint_code]. now rewrite H1, H2, H3, H4, H5.
Qed.

(** The number [line_re] finds is a non-empty run of digits. *)
Lemma line_number_digits s X :
  Re.search_group AiHelper.line_re s = Some X ->
  all_chars is_digit X = true /\ X <> EmptyString.
Proof.
  unfold Re.search_group, Re.search. intros H.
  destruct (Re.search_from _ None s) as [m |] eqn:E; [| discriminate].
  eapply (search_from_inv
            (fun m => exists X, Re.group1 m = Some X /\ all_chars is_digit X = true
                                /\ X <> EmptyString))
    in E as (X' & HX & Hall & Hne).
  - split; congruence.
  - clear. intros prev s m.
    unfold AiHelper.line_re. cbn [cat fold_right Re.rmatch Re.Plus]. intros H.
    destruct (startswith "line " s); [| discriminate].
    destruct (drop_str (String.length "line ") s) as [| c s2]; [discriminate |].
    destruct (is_digit c) eqn:Hc; [| discriminate].
    apply star_match_run in H as (run & s' & prev' & -> & Hall & H).
    change (startswith "" s') with true in H.
    cbv beta iota delta [Re.accept] in H. inversion H; subst; cbn [Re.group1].
    eexists. split; [reflexivity |].
    change (String c (run +:+ s')) with (String c run +:+ s').
    match goal with
    | |- context [take_str ?n _] =>
        replace n with (String.length (String c run))
          by (simpl; rewrite length_app_str; lia)
    end.
    rewrite take_str_app. simpl. rewrite Hc, Hall. split; [reflexivity | discriminate].
Qed.

Lemma digit_val_nonneg c : is_digit c = true -> 0 <= digit_val c.
Proof.
  unfold is_digit, in_range, digit_val. intros H.
  apply andb_true_iff in H as [H _]. apply N.leb_le in H. lia.
Qed.

Lemma int_go_nonneg s : forall acc,
  0 <= acc -> all_chars is_digit s = true -> 0 <= int_go acc s.
Proof.
  induction s as [| c s IH]; intros acc Hacc H; simpl; [assumption |].
  simpl in H. apply andb_true_iff in H as [Hc Hs].
  apply IH; [| assumption]. pose proof (digit_val_nonneg c Hc). lia.
Qed.

Lemma match_error_line_spec line :
  Forall (fun m => AiHelper.ErrorMatch.message m = line /\
                   is_pylint_code (AiHelper.ErrorMatch.code m) = true /\
                   0 <= AiHelper.ErrorMatch.line_num m)
    (AiHelper.match_error_line line) /\
  (length (AiHelper.match_error_line line) <= 1)%nat.
Proof.
  unfold AiHelper.match_error_line.
  destruct (Re.search_group AiHelper.line_re line) as [digits |] eqn:El.
  - assert (Hnum : 0 <= int digits).
    { apply line_number_digits in El as [Hd _]. now apply int_go_nonneg. }
    destruct (Re.search_group AiHelper.pylint_code_re line) as [code |] eqn:Ec.
    + apply pylint_code_shape in Ec. split; [| simpl; lia].
      constructor; [| constructor]. cbn. auto.
    + destruct (existsb _ _); [| split; [constructor | simpl; lia]].
      split; [| simpl; lia]. constructor; [| constructor]. cbn. auto.
  - destruct (Re.search_group AiHelper.pylint_code_re line) as [code |] eqn:Ec.
    + apply pylint_code_shape in Ec. split; [| simpl; lia].
      constructor; [| constructor]. cbn. repeat split; [assumption | lia].
    + destruct (existsb _ _); split; try constructor; simpl; lia.
Qed.

(** X10.  Every diagnostic the engine extracts from a report carries a
    whole report line as its message, a code made of one of the letters E,
    W, R, F, C and four digits, and a line number that is not negative (0
    when the line has no [line N] fragment); a report line gives at most one
    diagnostic. *)
Theorem extracted_diagnostics_shape (analysis_output : string) :
  Forall (fun m => In (AiHelper.ErrorMatch.message m) (split newline analysis_output) /\
                   is_pylint_code (AiHelper.ErrorMatch.code m) = true /\
                   0 <= AiHelper.ErrorMatch.line_num m)
    (AiHelper.extract_error_matches analysis_output) /\
  (length (AiHelper.extract_error_matches analysis_output)
   <= length (split newline analysis_output))%nat.
Proof.
  unfold AiHelper.extract_error_matches.
  generalize (split newline analysis_output) as lines.
  induction lines as [| line lines [IHall IHlen]]; simpl.
  - split; [constructor | lia].
  - destruct (match_error_line_spec line) as [Hline Hlen]. split.
    + apply Forall_app. split.
      * eapply Forall_impl; [exact Hline |].
        intros m (Hm & Hc & Hn). cbn beta. repeat split; auto.
      * eapply Forall_impl; [exact IHall |].
        intros m (Hm & Hc & Hn). cbn beta. repeat split; auto.
    + rewrite length_app. lia.
Qed.

(** One step of the counting loop keeps the counters and the dictionary in
    step. *)
Lemma count_line_inv ec wc et line ec' wc' et' :
  App.count_line (ec, wc, et) line = Ok (ec', wc', et') ->
  0 <= ec /\ 0 <= wc /\
  default 0 (et !! "error") = ec /\
  default 0 (et !! "warning") + default 0 (et !! "style") = wc /\
  (forall k : string, k <> "error" -> k <> "warning" -> k <> "style" -> et !! k = None) ->
  (0 <= ec' /\ 0 <= wc' /\
   default 0 (et' !! "error") = ec' /\
   default 0 (et' !! "warning") + default 0 (et' !! "style") = wc' /\
   (forall k : string, k <> "error" -> k <> "warning" -> k <> "style" ->
                       et' !! k = None)) /\
  ec + wc <= ec' + wc' <= ec + wc + 1.
Proof.
  intros H (Hec & Hwc & He & Hw & Hs). unfold App.count_line in H.
  destruct (contains ":" line).
  2:{ injection H as <- <- <-. repeat split; auto; lia. }
  destruct (Re.search_group _ line) as [code |] eqn:E.
  2:{ injection H as <- <- <-. repeat split; auto; lia. }
  apply pylint_code_nonempty, first_char_ok in E as (c & s' & -> & Hfirst).
  rewrite Hfirst in H. cbn [bind] in H. unfold bump in H.
  destruct (Ascii.eqb c "E" || Ascii.eqb c "F").
  { injection H as <- <- <-.
    rewrite lookup_insert_eq, !lookup_insert_ne by discriminate.
    cbn [default from_option id].
    repeat split; try lia.
    intros k H1 H2 H3. rewrite lookup_insert_ne by congruence. auto. }
  destruct (Ascii.eqb c "W").
  { injection H as <- <- <-.
    rewrite lookup_insert_eq, !lookup_insert_ne by discriminate.
    cbn [default from_option id].
    repeat split; try lia.
    intros k H1 H2 H3. rewrite lookup_insert_ne by congruence. auto. }
  injection H as <- <- <-.
  rewrite lookup_insert_eq, !lookup_insert_ne by discriminate.
  cbn [default from_option id].
  repeat split; try lia.
  intros k H1 H2 H3. rewrite lookup_insert_ne by congruence. auto.
Qed.

Lemma count_loop_inv lines : forall ec wc et ec' wc' et',
  for_each App.count_line lines (ec, wc, et) = Ok (ec', wc', et') ->
  0 <= ec /\ 0 <= wc /\
  default 0 (et !! "error") = ec /\
  default 0 (et !! "warning") + default 0 (et !! "style") = wc /\
  (forall k : string, k <> "error" -> k <> "warning" -> k <> "style" -> et !! k = None) ->
  (0 <= ec' /\ 0 <= wc' /\
   default 0 (et' !! "error") = ec' /\
   default 0 (et' !! "warning") + default 0 (et' !! "style") = wc' /\
   (forall k : string, k <> "error" -> k <> "warning" -> k <> "style" ->
                       et' !! k = None)) /\
  ec' + wc' <= ec + wc + Z.of_nat (length lines).
Proof.
  induction lines as [| line lines IH]; intros ec wc et ec' wc' et' H Hinv.
  - injection H as <- <- <-. split; [exact Hinv | simpl; lia].
  - cbn [for_each] in H.
    destruct (App.count_line (ec, wc, et) line) as [[[ec1 wc1] et1] |] eqn:E;
      [| discriminate].
    cbn [bind] in H.
    destruct (count_line_inv _ _ _ _ _ _ _ E Hinv) as (Hinv1 & G).
    destruct (IH _ _ _ _ _ _ H Hinv1) as (Hinv' & G').
    split; [exact Hinv' |]. cbn [length]. lia.
Qed.

(** The loop of [run_pylint_analysis] on a report, with what it keeps. *)
Lemma pylint_loop_result (pylint_output : string) :
  exists ec wc et,
    for_each App.count_line (split newline pylint_output) (0, 0, ∅) = Ok (ec, wc, et) /\
    App.run_pylint_analysis pylint_output
    = {| error_count := ec; warning_count := wc; error_types := et;
         output := pylint_output |} /\
    (0 <= ec /\ 0 <= wc /\
     default 0 (et !! "error") = ec /\
     default 0 (et !! "warning") + default 0 (et !! "style") = wc /\
     (forall k : string, k <> "error" -> k <> "warning" -> k <> "style" ->
                         et !! k = None)) /\
    ec + wc <= Z.of_nat (length (split newline pylint_output)).
Proof.
  destruct (for_each_ok App.count_line (fun _ => True)
              (fun s x _ => count_line_ok s x) (split newline pylint_output)
              (0, 0, ∅))
    as [[[ec wc] et] Hloop]; [now apply List.Forall_forall |].
  exists ec, wc, et. split; [exact Hloop |].
  split; [unfold App.run_pylint_analysis; now rewrite Hloop |].
  destruct (count_loop_inv _ _ _ _ _ _ _ Hloop) as (Hinv & G).
  { repeat split; try reflexivity; lia. }
  split; [exact Hinv | lia].
Qed.

(** X11.  The report of [run_pylint_analysis] is consistent, whatever the
    linter printed: the output is the text itself, the counters are not
    negative and together do not exceed the number of lines, the entry
    [error] of the dictionary equals the error counter, the entries
    [warning] and [style] add up to the warning counter, and the dictionary
    has no other entry (in particular not the [system] entry of the failure
    path). *)
Theorem pylint_report_consistent (pylint_output : string) :
  let r := App.run_pylint_analysis pylint_output in
  output r = pylint_output /\
  0 <= error_count r /\ 0 <= warning_count r /\
  error_count r + warning_count r
    <= Z.of_nat (length (split newline pylint_output)) /\
  default 0 (error_types r !! "error") = error_count r /\
  default 0 (error_types r !! "warning") + default 0 (error_types r !! "style")
    = warning_count r /\
  (forall k : string, k <> "error" -> k <> "warning" -> k <> "style" ->
                      error_types r !! k = None).
Proof.
  destruct (pylint_loop_result pylint_output)
    as (ec & wc & et & _ & -> & (A & B & C & D & F) & G).
  cbn. repeat split; auto.
Qed.

End Classifiers.

(* ===================================================================== *)
(** ** analyzer.py: when the loop raises, and what it copies *)
(* ===================================================================== *)

Section AnalyzerLoop.

Import Py.

Lemma app_str_assoc (a b c : string) : (a +:+ b) +:+ c = a +:+ (b +:+ c).
Proof.
  induction a as [| x a IH]; [reflexivity |].
  change (String x ((a +:+ b) +:+ c) = String x (a +:+ (b +:+ c))). now f_equal.
Qed.

Lemma app_str_empty_r (a : string) : a +:+ "" = a.
Proof.
  induction a as [| x a IH]; [reflexivity |].
  change (String x (a +:+ "") = String x a). now f_equal.
Qed.

(** The body of the loop raises exactly on a line with a blank third field,
    whatever the report so far; otherwise it copies the line to the output
    when the line has three fields, and keeps the output as it is when not. *)
Lemma parse_line_cases result line :
  if blank_third_field line
  then Analyzer.parse_line result line = Raise IndexError
  else exists result',
         Analyzer.parse_line result line = Ok result' /\
         output result'
         = output result +:+ (if has_three_fields line then line +:+ AiHelper.nl else "").
Proof.
  unfold blank_third_field, has_three_fields, Analyzer.parse_line.
  destruct (contains ":" line); cbn [andb].
  2:{ exists result. now rewrite app_str_empty_r. }
  destruct (split ":" line) as [| a [| b [| field rest]]];
    try (exists result; now rewrite app_str_empty_r).
  replace (Z.of_nat (length (a :: b :: field :: rest)) >=? 3) with true
    by (symmetry; rewrite Z.geb_leb; apply Z.leb_le; cbn [length]; lia).
  change (3 <=? length (a :: b :: field :: rest))%nat with true.
  pose proof (getitem_in_range (a :: b :: field :: rest) 2 field eq_refl) as Hfield.
  change (Z.of_nat 2) with 2 in Hfield. rewrite Hfield. cbn [bind].
  destruct (split_ws (strip field)) as [| w ws]; cbn [AiHelper.is_nil].
  - reflexivity.
  - pose proof (getitem_in_range (w :: ws) 0 w eq_refl) as Hword.
    change (Z.of_nat 0) with 0 in Hword. rewrite Hword. cbn [bind].
    eexists. split; [reflexivity |]. cbn [output].
    destruct (startswith "E" w); [reflexivity |].
    destruct (startswith "W" w); reflexivity.
Qed.

Lemma parse_loop_cases lines : forall result,
  (Exists (fun line => blank_third_field line = true) lines ->
   for_each Analyzer.parse_line lines result = Raise IndexError) /\
  (Forall (fun line => blank_third_field line = false) lines ->
   exists result',
     for_each Analyzer.parse_line lines result = Ok result' /\
     output result'
     = output result +:+
       fold_right (fun line acc => line +:+ AiHelper.nl +:+ acc) ""
         (List.filter has_three_fields lines)).
Proof.
  induction lines as [| line lines IH]; intros result.
  - split.
    + intros H. inversion H.
    + intros _. exists result. split; [reflexivity |]. simpl.
      now rewrite app_str_empty_r.
  - pose proof (parse_line_cases result line) as Hline. cbn [for_each]. split.
    + intros H. destruct (blank_third_field line) eqn:B.
      * now rewrite Hline.
      * destruct Hline as (r1 & -> & _). cbn [bind].
        apply IH. inversion H; subst; [congruence | assumption].
    + intros H. inversion H as [| ? ? B Hrest]; subst. rewrite B in Hline.
      destruct Hline as (r1 & -> & Hout). cbn [bind].
      destruct (proj2 (IH r1) Hrest) as (r2 & -> & Hout2).
      exists r2. split; [reflexivity |]. rewrite Hout2, Hout. cbn [List.filter].
      destruct (has_three_fields line); cbn [fold_right].
      * now rewrite !app_str_assoc.
      * now rewrite app_str_empty_r.
Qed.

(** X12.  For a source that parses, [analyze_python_code] of analyzer.py
    raises [IndexError] exactly when some line of the linter's output has at
    least three colon-delimited fields of which the third is blank.  When no
    line is like that it returns, and its output is made of the lines with
    at least three fields, in order, each followed by a newline; the other
    lines are dropped. *)
Theorem analyzer_raises_iff (stdout : string) :
  (Analyzer.analyze_python_code None stdout = Raise IndexError
   <-> exists line, In line (split newline stdout) /\ blank_third_field line = true) /\
  ((forall line, In line (split newline stdout) -> blank_third_field line = false) ->
   exists r,
     Analyzer.analyze_python_code None stdout = Ok r /\
     output r
     = fold_right (fun line acc => line +:+ AiHelper.nl +:+ acc) ""
         (List.filter has_three_fields (split newline stdout))).
Proof.
  unfold Analyzer.analyze_python_code.
  set (start := {| error_count := 0; warning_count := 0; error_types := ∅;
                   output := "" |}).
  destruct (parse_loop_cases (split newline stdout) start) as [Hraise Hok].
  split; [split |].
  - intros H. apply List.Exists_exists.
    destruct (List.Forall_Exists_dec (fun line => blank_third_field line = false)
                (fun line => bool_dec (blank_third_field line) false)
                (split newline stdout)) as [Hall | Hex].
    + destruct (Hok Hall) as (r & Hr & _). congruence.
    + eapply List.Exists_impl; [| exact Hex]. cbn beta. intros line Hl.
      now destruct (blank_third_field line).
  - intros H. apply Hraise, List.Exists_exists. exact H.
  - intros H. apply List.Forall_forall in H.
    destruct (Hok H) as (r & Hr & Hout). exists r. split; [exact Hr |].
    exact Hout.
Qed.

End AnalyzerLoop.

(* ===================================================================== *)
(** ** The detectors of app.py: what they report *)
(* ===================================================================== *)

Section DetectorProperties.

Import App AppAnalyze.

(** X20.  The division-by-zero detector reports a finding exactly when the
    tree contains a binary operation whose operator is a division, floor
    division or modulo and whose right-hand operand is a literal constant
    equal to zero: 0, a float or complex zero, or [False].  A tree in which
    no such binary operation has a literal constant as its right-hand
    operand, the divisors being names or other expressions, is never
    flagged. *)
Theorem binary_division_by_zero_reported (tree : node) :
  (check_division_by_zero tree = true
   <-> exists l op value,
         occurs_in (BinOp l op (Constant value)) tree /\
         (op = Div \/ op = FloorDiv \/ op = Mod) /\ zero_literal value) /\
  ((forall l op r,
      occurs_in (BinOp l op r) tree ->
      op = Div \/ op = FloorDiv \/ op = Mod ->
      forall value, r <> Constant value) ->
   check_division_by_zero tree = false).
Proof.
  assert (Hiff : check_division_by_zero tree = true
                 <-> exists l op value,
                       occurs_in (BinOp l op (Constant value)) tree /\
                       (op = Div \/ op = FloorDiv \/ op = Mod) /\ zero_literal value).
  { rewrite binary_division_iff. split.
    - intros (n & Hn & l & op & value & -> & Hop & Hz). exists l, op, value. auto.
    - intros (l & op & value & Hn & Hop & Hz).
      exists (BinOp l op (Constant value)). split; [exact Hn |].
      exists l, op, value. auto. }
  split; [exact Hiff |].
  intros Hvar. apply not_true_is_false. intros Hflag.
  apply Hiff in Hflag as (l & op & value & Hn & Hop & _).
  now apply (Hvar l op (Constant value) Hn Hop value).
Qed.

(** X13.  The unreachable-code detector reports a finding exactly when the
    tree contains a function definition in whose body some statement other
    than a [return] comes after a [return] and is itself followed by at least
    one more statement.  Statements of nested blocks are not examined, nor is
    the last statement of the body. *)
Theorem unreachable_code_reported (tree : node) :
  check_unreachable_code tree = true
  <-> exists name args body decs ret (k j : nat) (r s : node),
        occurs_in (FunctionDef name args body decs ret) tree /\
        (k < j)%nat /\ (S j < length body)%nat /\
        body !! k = Some r /\ is_return r = true /\
        body !! j = Some s /\ is_return s = false.
Proof.
  rewrite unreachable_code_iff. split.
  - intros (n & Hn & name & args & body & decs & ret & -> & Hb).
    apply body_has_unreachable_spec in Hb as (k & j & r & s & H).
    exists name, args, body, decs, ret, k, j, r, s. split; [exact Hn | exact H].
  - intros (name & args & body & decs & ret & k & j & r & s & Hn & H).
    exists (FunctionDef name args body decs ret). split; [exact Hn |].
    exists name, args, body, decs, ret. split; [reflexivity |].
    apply body_has_unreachable_spec. exists k, j, r, s. exact H.
Qed.

Variable defaults : node -> list node.

Lemma mutable_default_visit_children flag ns :
  (fix visit_all (flag : bool) (ns : list node) : bool :=
     match ns with
     | [] => flag
     | n' :: ns' => visit_all (mutable_default_visit defaults flag n') ns'
     end) flag ns
  = visit_list (mutable_default_visit defaults) flag ns.
Proof.
  unfold visit_list. revert flag. induction ns as [| n ns IH]; intros flag; simpl;
    [reflexivity | apply IH].
Qed.

(** X14.  The mutable-default detector reports a finding exactly when the
    tree contains a function definition one of whose positional defaults is
    a list, dict or set literal.  It looks at [args.defaults] only. *)
Theorem mutable_default_reported (tree : node) :
  check_mutable_default_args defaults tree = true
  <-> exists name args body decs ret d,
        occurs_in (FunctionDef name args body decs ret) tree /\
        In d (defaults args) /\ is_mutable_literal d = true.
Proof.
  unfold check_mutable_default_args.
  rewrite (visit_false_iff (mutable_default_visit defaults)
             (fun n => match n with
                       | FunctionDef _ args _ _ _ =>
                           existsb is_mutable_literal (defaults args)
                       | _ => false
                       end)).
  - split.
    + intros (m & Hm & Ht).
      destruct m as [| | | name args body decs ret | |]; try discriminate.
      apply existsb_exists in Ht as (d & Hd & Hlit).
      exists name, args, body, decs, ret, d. auto.
    + intros (name & args & body & decs & ret & d & Hn & Hd & Hlit).
      exists (FunctionDef name args body decs ret). split; [exact Hn |].
      apply existsb_exists. eauto.
  - intros flag l op r. now rewrite orb_false_r.
  - intros flag v. cbn. now rewrite orb_false_r.
  - intros flag v. rewrite orb_false_r. destruct v; reflexivity.
  - intros flag name args body decs ret. cbn [mutable_default_visit].
    rewrite orb_as_if, !mutable_default_visit_children. destruct ret; reflexivity.
  - intros flag t op v. now rewrite orb_false_r.
  - intros flag class children. cbn [mutable_default_visit].
    now rewrite orb_false_r, mutable_default_visit_children.
Qed.

Variable too_deep : check -> node -> bool.

Lemma merge_logic (et : gmap string Z) (n : Z) :
  merge_error_types et {[ "logic" := n ]}
  = <["logic" := default 0 (et !! "logic") + n]> et.
Proof. unfold merge_error_types. now rewrite map_fold_singleton. Qed.

(** The report of [check_logical_issues] on a tree, by the checks that
    return: no error, [n] warnings, all under the key [logic], and an output
    that is empty exactly when [n] is 0, where [n] counts the checks that
    fired among those that ran.  A check that raises ends the block, so the
    checks after it do not run. *)
Lemma logical_issues_report (tree : node) :
  let l := check_logical_issues defaults too_deep (Parsed tree) in
  let n :=
    match run_check defaults too_deep DivisionCheck tree with
    | None => 0
    | Some d =>
        fired d +
        match run_check defaults too_deep UnreachableCheck tree with
        | None => 0
        | Some u =>
            fired u +
            match run_check defaults too_deep MutableCheck tree with
            | None => 0
            | Some m => fired m
            end
        end
    end in
  0 <= n <= 3 /\
  error_count l = 0 /\
  warning_count l = n /\
  error_types l = (if n =? 0 then ∅ else {[ "logic" := n ]}) /\
  Py.is_empty (output l) = (n =? 0).
Proof.
  unfold check_logical_issues, try_checks.
  destruct (run_check defaults too_deep DivisionCheck tree) as [[] |];
    destruct (run_check defaults too_deep UnreachableCheck tree) as [[] |];
    destruct (run_check defaults too_deep MutableCheck tree) as [[] |];
    (split; [vm_compute; split; discriminate |]);
    repeat split; vm_compute; reflexivity.
Qed.

(** What [analyze_python_code] makes of the report of the checks. *)
Lemma analysis_merges_logic (tree : node) (pylint_output : string) (n : Z) :
  let l := check_logical_issues defaults too_deep (Parsed tree) in
  let r := analyze_python_code defaults too_deep (Parsed tree) pylint_output in
  let p := run_pylint_analysis pylint_output in
  error_count l = 0 ->
  warning_count l = n ->
  error_types l = (if n =? 0 then ∅ else {[ "logic" := n ]}) ->
  Py.is_empty (output l) = (n =? 0) ->
  error_count r = error_count p /\
  warning_count r = warning_count p + n /\
  (n = 0 -> r = p) /\
  (n <> 0 -> error_types r !! "logic" = Some n) /\
  (forall k : string, k <> "logic" -> error_types r !! k = error_types p !! k).
Proof.
  intros l r p H1 H2 H3 H4. subst r l. unfold analyze_python_code.
  destruct (pylint_loop_result pylint_output)
    as (ec & wc & et & _ & Hp & (_ & _ & _ & _ & Hkeys) & _).
  assert (Hlogic : error_types p !! "logic" = None).
  { subst p. rewrite Hp. cbn. apply Hkeys; discriminate. }
  fold p. rewrite H4. destruct (n =? 0) eqn:En.
  - apply Z.eqb_eq in En. rewrite En.
    repeat split; try lia; try reflexivity.
  - apply Z.eqb_neq in En. cbn [error_count warning_count error_types].
    rewrite H1, H2, H3, merge_logic, Hlogic. cbn [default from_option id].
    split; [lia |]. split; [lia |]. split; [intros; lia |]. split.
    + intros _. now rewrite lookup_insert_eq.
    + intros k Hk. rewrite lookup_insert_ne by congruence. reflexivity.
Qed.

(** X15.  [analyze_python_code] of app.py, on a source that parses.  The
    three tree checks never add an error, they add at most three warnings,
    and they touch no entry of the dictionary but [logic].  When the three
    checks return, the warning counter is the count of the linter plus the
    number of checks that fired, that number is the [logic] entry, and when
    no check fired the result is the report of the linter itself.  When the
    first check raises (the tree is too deep for the visitor), the handler
    of [check_logical_issues] swallows the exception, no check is counted
    and the result is the report of the linter alone, whatever the tree
    contains; when a later check raises, only the checks before it are
    counted. *)
Theorem analysis_adds_logic_warnings (tree : node) (pylint_output : string) :
  let r := analyze_python_code defaults too_deep (Parsed tree) pylint_output in
  let p := run_pylint_analysis pylint_output in
  let division := fired (check_division_by_zero tree) in
  let unreachable := fired (check_unreachable_code tree) in
  let mutable := fired (check_mutable_default_args defaults tree) in
  (error_count r = error_count p /\
   warning_count p <= warning_count r <= warning_count p + 3 /\
   (forall k : string, k <> "logic" -> error_types r !! k = error_types p !! k)) /\
  ((forall c, too_deep c tree = false) ->
   let n := division + unreachable + mutable in
   warning_count r = warning_count p + n /\
   (n = 0 -> r = p) /\
   (0 < n -> error_types r !! "logic" = Some n)) /\
  (too_deep DivisionCheck tree = true -> r = p) /\
  (too_deep DivisionCheck tree = false -> too_deep UnreachableCheck tree = true ->
   warning_count r = warning_count p + division) /\
  (too_deep DivisionCheck tree = false -> too_deep UnreachableCheck tree = false ->
   too_deep MutableCheck tree = true ->
   warning_count r = warning_count p + division + unreachable).
Proof.
  intros r p division unreachable mutable.
  destruct (logical_issues_report tree) as (Hn & H1 & H2 & H3 & H4).
  cbv zeta in Hn, H2, H3, H4.
  pose proof (analysis_merges_logic tree pylint_output _ H1 H2 H3 H4) as Hr.
  cbv zeta in Hr. fold r p in Hr. clear H1 H2 H3 H4.
  unfold run_check in Hn, Hr.
  split; [| split; [| split; [| split]]].
  - destruct Hr as (He & Hw & _ & _ & Hk). split; [exact He |]. split; [lia | exact Hk].
  - intros Hall. rewrite !Hall in Hr. fold division unreachable mutable in Hr.
    destruct Hr as (_ & Hw & H0 & Hl & _). cbv zeta.
    split; [rewrite Hw; lia |]. split.
    + intros E. apply H0. lia.
    + intros E.
      replace (division + unreachable + mutable)
        with (division + (unreachable + mutable)) by lia.
      apply Hl. lia.
  - intros Hd. rewrite Hd in Hr. destruct Hr as (_ & _ & H0 & _). now apply H0.
  - intros Hd Hu. rewrite Hd, Hu in Hr. fold division in Hr.
    destruct Hr as (_ & Hw & _). lia.
  - intros Hd Hu Hm. rewrite Hd, Hu, Hm in Hr. fold division unreachable in Hr.
    destruct Hr as (_ & Hw & _). lia.
Qed.

End DetectorProperties.

(* ===================================================================== *)
(** ** Running a syntax repair twice *)
(* ===================================================================== *)

Section Rerun.

Import Py AiHelper.

Lemma endswith_app_self (p s : string) : endswith p (s +:+ p) = true.
Proof.
  induction s as [| c s IH].
  - change ("" +:+ p) with p. destruct p; simpl; [reflexivity |].
    now rewrite Ascii.eqb_refl, String.eqb_refl.
  - change (String c s +:+ p) with (String c (s +:+ p)). cbn [endswith].
    rewrite IH. apply orb_true_r.
Qed.

Lemma rstrip_app_colon (s : string) : rstrip (s +:+ ":") = s +:+ ":".
Proof.
  induction s as [| c s IH]; [reflexivity |].
  change (String c s +:+ ":") with (String c (s +:+ ":")). cbn [rstrip].
  rewrite IH. destruct s; cbn; now rewrite andb_false_r.
Qed.

Lemma lstrip_lstrip (s : string) : lstrip (lstrip s) = lstrip s.
Proof.
  induction s as [| c s IH]; [reflexivity |]. cbn [lstrip].
  destruct (is_space c) eqn:E; [exact IH |]. cbn [lstrip]. now rewrite E.
Qed.

(** X16.  The colon rule and the unexpected-indent rule are stable: when
    the message of a diagnostic with a positive line number selects one of
    them, running the step again on the buffer the first run produced leaves
    that buffer as it is (the indent rule appends its record again).  The
    bracket rule and the indented-block rule can change the line again. *)
Theorem colon_and_indent_rules_stable lines imps error lines' imps' :
  positive_line error ->
  contains "expected ':'" (SyntaxErr.message error) = true \/
  (contains "unmatched" (SyntaxErr.message error) = false /\
   contains "unclosed" (SyntaxErr.message error) = false /\
   contains "unexpected indent" (SyntaxErr.message error) = true) ->
  fix_syntax_error (lines, imps) error = Ok (lines', imps') ->
  exists imps'', fix_syntax_error (lines', imps') error = Ok (lines', imps'').
Proof.
  intros (n & Hn & Hpos) Hrule H.
  assert (Hnoop : forall imps0, fix_syntax_error (lines, imps) error = Ok (lines, imps) ->
            fix_syntax_error (lines, imps0) error = Ok (lines, imps0) \/
            exists r, fix_syntax_error (lines, imps0) error = Ok (lines, imps0 ++ [r])).
  { intros imps0. unfold fix_syntax_error. rewrite Hn.
    destruct (n - 1 >=? Z.of_nat (length lines)); [auto |].
    destruct (getitem lines (n - 1)) as [cur |]; cbn [bind]; [| discriminate].
    repeat match goal with
           | |- context [if ?b then _ else _] => destruct b
           end; auto;
    destruct (setitem lines (n - 1) _) as [l1 |]; cbn [bind]; try discriminate;
      intros Heq; injection Heq as -> _; eauto. }
  pose proof H as H0. unfold fix_syntax_error in H. rewrite Hn in H.
  destruct (n - 1 >=? Z.of_nat (length lines)) eqn:G.
  { injection H as <- <-. destruct (Hnoop imps H0) as [-> | [r ->]]; eauto. }
  rewrite Z.geb_leb in G. apply Z.leb_gt in G.
  assert (Hk : (Z.to_nat (n - 1) < length lines)%nat) by lia.
  set (k := Z.to_nat (n - 1)) in *.
  replace (n - 1) with (Z.of_nat k) in * by (subst k; lia).
  destruct (lookup_lt_is_Some_2 lines _ Hk) as [cur Hcur].
  rewrite (getitem_in_range _ _ _ Hcur) in H. cbn [bind] in H.
  repeat rewrite (setitem_in_range lines k) in H by assumption. cbn [bind] in H.
  assert (Hrun : forall x imps0,
            fix_syntax_error (<[k:=x]> lines, imps0) error
            = (if contains "expected ':'" (SyntaxErr.message error) then
                 if negb (endswith ":" (rstrip x)) then
                   if Re.found colon_statement_re x then
                     Ok (<[k:=rstrip x +:+ ":"]> (<[k:=x]> lines),
                         imps0 ++ [ {| issue := "Missing colon at line " +:+ str n;
                                       solution := "Added missing colon after statement" |} ])
                   else Ok (<[k:=x]> lines, imps0)
                 else Ok (<[k:=x]> lines, imps0)
               else if contains "unmatched" (SyntaxErr.message error)
                       || contains "unclosed" (SyntaxErr.message error) then
                 fix_syntax_error (<[k:=x]> lines, imps0) error
               else if contains "unexpected indent" (SyntaxErr.message error) then
                 Ok (<[k:=lstrip x]> (<[k:=x]> lines),
                     imps0 ++ [ {| issue := "Incorrect indentation at line " +:+ str n;
                                   solution := "Removed extra indentation" |} ])
               else fix_syntax_error (<[k:=x]> lines, imps0) error)).
  { intros x imps0.
    destruct (contains "expected ':'" (SyntaxErr.message error)) eqn:C1;
      [| destruct (contains "unmatched" (SyntaxErr.message error)
                   || contains "unclosed" (SyntaxErr.message error)) eqn:C2;
         [reflexivity |
          destruct (contains "unexpected indent" (SyntaxErr.message error)) eqn:C3;
          [| reflexivity]]];
      unfold fix_syntax_error; rewrite Hn, ?C1, ?C2, ?C3;
      replace (n - 1) with (Z.of_nat k) by (subst k; lia);
      (replace (Z.of_nat k >=? Z.of_nat (length (<[k:=x]> lines))) with false
         by (symmetry; rewrite Z.geb_leb; apply Z.leb_gt; rewrite length_insert; lia));
      rewrite (getitem_in_range (<[k:=x]> lines) k x)
        by (now apply list_lookup_insert_eq);
      cbn [bind];
      repeat rewrite (setitem_in_range (<[k:=x]> lines) k)
        by (rewrite length_insert; assumption);
      cbn [bind]; reflexivity. }
  destruct Hrule as [C1 | (C2a & C2b & C3)].
  - rewrite C1 in H.
    destruct (negb (endswith ":" (rstrip cur))) eqn:E1.
    2:{ injection H as <- <-. destruct (Hnoop imps H0) as [-> | [r ->]]; eauto. }
    destruct (Re.found colon_statement_re cur).
    2:{ injection H as <- <-. destruct (Hnoop imps H0) as [-> | [r ->]]; eauto. }
    injection H as <- <-. rewrite Hrun, C1, rstrip_app_colon, endswith_app_self.
    cbn [negb]. eauto.
  - destruct (contains "expected ':'" (SyntaxErr.message error)) eqn:C1.
    + destruct (negb (endswith ":" (rstrip cur))) eqn:E1.
      2:{ injection H as <- <-. destruct (Hnoop imps H0) as [-> | [r ->]]; eauto. }
      destruct (Re.found colon_statement_re cur).
      2:{ injection H as <- <-. destruct (Hnoop imps H0) as [-> | [r ->]]; eauto. }
      injection H as <- <-. rewrite Hrun, rstrip_app_colon, endswith_app_self.
      cbn [negb]. eauto.
    + rewrite C2a, C2b, C3 in H. cbn [orb] in H. injection H as <- <-.
      rewrite Hrun, C2a, C2b, C3. cbn [orb].
      rewrite lstrip_lstrip, list_insert_insert_eq. eauto.
Qed.

End Rerun.

(** X16 at a missing colon. *)
Lemma colon_and_indent_rules_stable_witness :
  exists imps'',
    AiHelper.fix_syntax_error
      (["if True:"; "    print(1)"],
       [ {| AiHelper.issue := "Missing colon at line 1";
            AiHelper.solution := "Added missing colon after statement" |} ])
      {| AiHelper.SyntaxErr.line := Some 1;
         AiHelper.SyntaxErr.column := Some 8;
         AiHelper.SyntaxErr.message := "expected ':' (<unknown>, line 1)" |}
    = Py.Ok (["if True:"; "    print(1)"], imps'').
Proof.
  apply (colon_and_indent_rules_stable ["if True"; "    print(1)"] []
           {| AiHelper.SyntaxErr.line := Some 1;
              AiHelper.SyntaxErr.column := Some 8;
              AiHelper.SyntaxErr.message := "expected ':' (<unknown>, line 1)" |}).
  - exists 1. split; [reflexivity | lia].
  - left. reflexivity.
  - reflexivity.
Defined.

(* ===================================================================== *)
(** ** How the parts fit together *)
(* ===================================================================== *)

Section Together.

Import Py AiHelper.

(** X17.  The repaired source of a result is the output of exactly one
    pass: of the syntax pass on the parser's diagnostic when the source does
    not parse, of the lint pass on the extracted diagnostics when it parses
    and there are some, and the source itself otherwise.  The pattern table
    and the best-practice branch never change the text. *)
Theorem repaired_source_origin (ast_parse : string -> option SyntaxErr.t)
    (code analysis_output : string) (error_count warning_count : Z)
    (r : Suggestions) :
  get_improvement_suggestions ast_parse code analysis_output error_count warning_count
    = Ok r ->
  match ast_parse code with
  | Some e => exists imps, fix_syntax_errors code [e] = Ok (improved_code r, imps)
  | None =>
      match extract_error_matches analysis_output with
      | [] => improved_code r = code
      | ms => exists imps, fix_pylint_errors code ms = Ok (improved_code r, imps)
      end
  end.
Proof. apply improved_code_origin. Qed.

Lemma count_line_counted ec wc et line ec' wc' et' :
  App.count_line (ec, wc, et) line = Ok (ec', wc', et') ->
  ec' + wc' <= ec + wc + Z.of_nat (length (match_error_line line)).
Proof.
  unfold App.count_line, match_error_line. intros H.
  destruct (contains ":" line).
  2:{ injection H as <- <- <-. lia. }
  destruct (Re.search_group pylint_code_re line) as [code |] eqn:E.
  2:{ injection H as <- <- <-. lia. }
  apply pylint_code_nonempty, first_char_ok in E as (c & s' & -> & Hfirst).
  rewrite Hfirst in H. cbn [bind] in H.
  destruct (Ascii.eqb c "E" || Ascii.eqb c "F");
    [| destruct (Ascii.eqb c "W")]; injection H as <- <- <-; cbn [length]; lia.
Qed.

Lemma count_loop_counted lines : forall ec wc et ec' wc' et',
  for_each App.count_line lines (ec, wc, et) = Ok (ec', wc', et') ->
  ec' + wc' <= ec + wc + Z.of_nat (length (flat_map match_error_line lines)).
Proof.
  induction lines as [| line lines IH]; intros ec wc et ec' wc' et' H.
  - injection H as <- <- <-. simpl. lia.
  - cbn [for_each] in H.
    destruct (App.count_line (ec, wc, et) line) as [[[ec1 wc1] et1] |] eqn:E;
      [| discriminate].
    cbn [bind] in H. apply count_line_counted in E. apply IH in H.
    cbn [flat_map]. rewrite length_app. lia.
Qed.

(** X19.  Every issue [run_pylint_analysis] counts is also a diagnostic of
    the repair engine: on the same report text, the error and warning
    counters together never exceed the number of diagnostics
    [get_improvement_suggestions] extracts. *)
Theorem counted_issues_are_diagnostics (report : string) :
  error_count (App.run_pylint_analysis report)
  + warning_count (App.run_pylint_analysis report)
  <= Z.of_nat (length (extract_error_matches report)).
Proof.
  destruct (pylint_loop_result report) as (ec & wc & et & Hloop & -> & _).
  cbn [error_count warning_count]. apply count_loop_counted in Hloop.
  unfold extract_error_matches. lia.
Qed.

End Together.

(** X17 at a clean source. *)
Lemma repaired_source_origin_witness :
  AiHelper.improved_code
    {| AiHelper.improved_code := "x = 1";
       AiHelper.explanation := AiHelper.practices_explanation;
       AiHelper.improvements := [AiHelper.no_issues];
       AiHelper.learning_tip := AiHelper.practices_tip |}
  = "x = 1".
Proof.
  apply (repaired_source_origin (fun _ => None) "x = 1" "" 0 0
           {| AiHelper.improved_code := "x = 1";
              AiHelper.explanation := AiHelper.practices_explanation;
              AiHelper.improvements := [AiHelper.no_issues];
              AiHelper.learning_tip := AiHelper.practices_tip |}).
  vm_compute. reflexivity.
Defined.
